(** * Curio Kids: bookkeeping behind the App component

    A shallow embedding of the state handling of [App.tsx] (the React
    component [App]) and of the types of [types.ts]: the leaderboard, the
    activity log, badges, quiz scoring, the daily streak, the API error
    wrapper, registration and the view router.

    Conventions of the embedding.
    - A JavaScript [number] that the program only ever uses as a counter is
      an integer [Z]; a [string] is a [string]; [T | null] and an optional
      field are [option T].
    - The component state is a record [AppState]; one record per group of
      [useState] declarations of the source.
    - An event handler is a closure created by one render.  It reads the
      values of that render and writes through the state setters, so a
      handler is a function [h r ... st]: [r] is the state the handler was
      rendered from (its closure), [st] the state its writes are applied to.
      A handler fired from the current screen is [h st ... st].
    - What the outside world supplies (a fresh id, the clock, the answer of
      the remote API) is an argument of the handler. *)

From Stdlib Require Import ZArith Ascii String List Sorting.Sorted Permutation Lia.
From stdpp Require Import base option list sorting gmap strings pretty.

Local Open Scope string_scope.
Local Open Scope list_scope.
Local Open Scope Z_scope.

(** ** JavaScript values *)

Module JS.

(** The one-character string holding a double quote. *)
Definition dquote : string := String "034"%char EmptyString.

(** Truthiness of a string: only the empty string is falsy. *)
Definition truthy (s : string) : bool := negb (String.eqb s EmptyString).

(** Truthiness of [string | null | undefined]. *)
Definition truthy_opt (o : option string) : bool :=
  match o with
  | Some s => truthy s
  | None => false
  end.

(** [a || b] on optional strings. *)
Definition or_else (o : option string) (d : string) : string :=
  match o with
  | Some s => if truthy s then s else d
  | None => d
  end.

(** [hay.includes(needle)]. *)
Fixpoint includes (needle hay : string) : bool :=
  if String.prefix needle hay then true
  else match hay with
       | EmptyString => false
       | String _ rest => includes needle rest
       end.

(** [arr.findIndex(p)]; [None] stands for [-1]. *)
Fixpoint findIndex {A} (p : A -> bool) (l : list A) : option nat :=
  match l with
  | [] => None
  | x :: l' => if p x then Some O else option_map S (findIndex p l')
  end.

End JS.

(** ** Data model ([types.ts]) *)

Inductive BadgeType :=
| QUIZ_NOVICE | QUIZ_ADEPT | QUIZ_MASTER | TOPIC_ACE | PERFECT_SCORE.

#[global] Instance BadgeType_eq_dec : EqDecision BadgeType.
Proof. solve_decision. Defined.

Module Badge.
Record t := mk
  { id : BadgeType;
    name : string;
    description : string;
    dateEarned : string }.
End Badge.

Module LeaderboardEntry.
Record t := mk
  { userId : string;
    username : string;
    score : Z;
    profilePictureUrl : option string }.
End LeaderboardEntry.

Module TopicPerf.
Record t := mk { correct : Z; total : Z }.
End TopicPerf.

Module UserStats.
Record t := mk
  { quizzesCompleted : Z;
    quizzesAttempted : Z;
    topicsMastered : list string;
    totalScorePoints : Z;
    totalQuestionsAnswered : Z;
    timeSpentLearningInSeconds : Z;
    topicPerformance : gmap string TopicPerf.t;
    badges : list Badge.t;
    currentStreak : Z;
    lastActivityDate : string }.
End UserStats.

Module User.
Record t := mk
  { id : string;
    username : string;
    password : string;
    isAdmin : bool;
    profilePictureUrl : option string;
    stats : UserStats.t }.
End User.

(** The free-form payload of a log entry: an object literal, kept as its
    list of fields. *)
Inductive DetailValue :=
| DStr (s : string)
| DNum (n : Z).

Module ActivityLog.
Record t := mk
  { id : string;
    userId : string;
    username : string;
    timestamp : string;
    type : string;
    details : list (string * DetailValue) }.
End ActivityLog.

(** ** Leaderboard ([updateLeaderboard], App.tsx 297-311) *)

Module Leaderboard.
Import LeaderboardEntry.

(** [arr.sort((a, b) => b.score - a.score)]: a stable sort, descending in
    [score].  An entry goes in front of the first entry that does not
    beat it, so entries of equal score keep their order. *)
Fixpoint insert_desc (x : t) (l : list t) : list t :=
  match l with
  | [] => [x]
  | y :: l' => if score y <=? score x then x :: y :: l'
               else y :: insert_desc x l'
  end.

Definition sort_desc (l : list t) : list t := foldr insert_desc [] l.

(** The in-place update of the found entry:
    [e.score += pointsToAdd; if (profilePictureUrl) e.profilePictureUrl = ...]. *)
Definition bump (pointsToAdd : Z) (pic : option string) (e : t) : t :=
  {| userId := userId e;
     username := username e;
     score := score e + pointsToAdd;
     profilePictureUrl :=
       if JS.truthy_opt pic then pic else profilePictureUrl e |}.

(** The entry pushed for a user that is not on the board. *)
Definition fresh (cu : User.t) (username : string) (pointsToAdd : Z)
    (pic : option string) : t :=
  {| userId := User.id cu;
     username := username;
     score := pointsToAdd;
     profilePictureUrl := pic |}.

(** The updater passed to [setLeaderboard].  [[...prev]] copies the array
    but not the entries, so the [+=] writes into the entry that [prev]
    holds too: the first component is [prev] as it reads after the call,
    the second the array returned. *)
Definition updater (currentUser : option User.t) (username : string)
    (pointsToAdd : Z) (pic : option string) (prev : list t)
    : list t * list t :=
  match JS.findIndex (fun e => String.eqb (LeaderboardEntry.username e) username) prev with
  | Some userIndex =>
      let newLeaderboard := alter (bump pointsToAdd pic) userIndex prev in
      (newLeaderboard, take 20 (sort_desc newLeaderboard))
  | None =>
      match currentUser with
      | Some cu =>
          (prev, take 20 (sort_desc (prev ++ [fresh cu username pointsToAdd pic])))
      | None => (prev, take 20 (sort_desc prev))
      end
  end.

Definition descending : list t -> Prop :=
  StronglySorted (fun a b => score b <= score a).

(** An entry is on the board, or the board is full of entries that rank at
    least as high: what the cut to 20 leaves of an entry of the sorted
    list. *)
Definition survives (x : t) (board : list t) : Prop :=
  x ∈ board ∨ (length board = 20%nat ∧ ∀ y, y ∈ board -> score x <= score y).

End Leaderboard.


(** ** Quiz questions, notes, lab steps *)

Inductive Grade := G6 | G7 | G8 | G9 | G10.

Definition Grade_to_Z (g : Grade) : Z :=
  match g with G6 => 6 | G7 => 7 | G8 => 8 | G9 => 9 | G10 => 10 end.

Inductive QuestionType := MCQ | TrueFalse | QandA | AssertionReason.

Module QuizQuestion.
Record t := mk
  { question : string;
    reason : option string;
    options : list string;
    answer : string;
    explanation : string;
    type : QuestionType }.
End QuizQuestion.

Module NoteSection.
Record t := mk { title : string; points : list string }.
End NoteSection.

Module VirtualLabStep.
Record t := mk
  { title : string;
    description : string;
    imagePrompt : string;
    image : option string }.
End VirtualLabStep.

Module ScienceFairProjectIdea.
Record t := mk { id : string; title : string; description : string }.
End ScienceFairProjectIdea.

Module ScienceFairProjectStep.
Record t := mk
  { title : string;
    description : string;
    imagePrompt : string;
    image : option string }.
End ScienceFairProjectStep.

(** One cell of [userAnswers : (string | null)[]].  [Hole] is the empty slot
    a write beyond the end of a JavaScript array leaves behind; read, it
    gives [undefined]. *)
Inductive Answer :=
| Hole
| Undefined
| Null
| Str (s : string).

(** [[...arr]]: the copy has the value [undefined] where [arr] has a hole. *)
Definition spread (arr : list Answer) : list Answer :=
  map (fun cell => match cell with Hole => Undefined | _ => cell end) arr.

Definition Answer_of (answer : option string) : Answer :=
  match answer with
  | Some s => Str s
  | None => Null
  end.

(** [arr[i] = v] on a JavaScript array: in range it overwrites, out of range
    it extends the array, leaving holes. *)
Definition array_set (arr : list Answer) (i : nat) (v : Answer) : list Answer :=
  if (i <? length arr)%nat then <[i := v]> arr
  else arr ++ replicate (i - length arr) Hole ++ [v].

(** ** Screens ([enum GameState], a numeric enum) *)

Inductive GameState :=
| LOGIN_SCREEN
| HOME_SCREEN
| GRADE_SELECTION
| TOPIC_SELECTION
| DIAGRAM_IDEAS_SELECTION
| DIAGRAM_GENERATOR
| LANGUAGE_SELECTION
| DOUBT_SOLVER
| VOICE_TUTOR_SESSION
| QUIZ_DIFFICULTY_SELECTION
| QUIZ_COUNT_SELECTION
| QUIZ_TIMER_SELECTION
| QUIZ_IN_PROGRESS
| QUIZ_SCORE
| WORKSHEET_DIFFICULTY_SELECTION
| WORKSHEET_COUNT_SELECTION
| WORKSHEET_DISPLAY
| NOTES_DISPLAY
| CONCEPT_DEEP_DIVE
| USER_PROFILE
| EDIT_PROFILE_PICTURE
| ADMIN_PANEL
| LEADERBOARD
| VIRTUAL_LAB_INPUT
| VIRTUAL_LAB_DISPLAY
| REAL_WORLD_CONNECTIONS_INPUT
| REAL_WORLD_CONNECTIONS_DISPLAY
| HISTORICAL_CHAT_SELECTION
| HISTORICAL_CHAT_SESSION
| AI_STORY_WEAVER_INPUT
| AI_STORY_WEAVER_DISPLAY
| SCIENCE_FAIR_BUDDY_INPUT
| SCIENCE_FAIR_BUDDY_IDEAS
| SCIENCE_FAIR_BUDDY_PLAN
| SCIENCE_LENS_INPUT
| SCIENCE_LENS_DISPLAY
| WHAT_IF_SCENARIO_INPUT
| WHAT_IF_SCENARIO_SESSION.

#[global] Instance GameState_eq_dec : EqDecision GameState.
Proof. solve_decision. Defined.

(** The members in declaration order; member [k] has the value [k]. *)
Definition GameState_members : list GameState :=
  [ LOGIN_SCREEN; HOME_SCREEN; GRADE_SELECTION; TOPIC_SELECTION;
    DIAGRAM_IDEAS_SELECTION; DIAGRAM_GENERATOR; LANGUAGE_SELECTION;
    DOUBT_SOLVER; VOICE_TUTOR_SESSION; QUIZ_DIFFICULTY_SELECTION;
    QUIZ_COUNT_SELECTION; QUIZ_TIMER_SELECTION; QUIZ_IN_PROGRESS; QUIZ_SCORE;
    WORKSHEET_DIFFICULTY_SELECTION; WORKSHEET_COUNT_SELECTION;
    WORKSHEET_DISPLAY; NOTES_DISPLAY; CONCEPT_DEEP_DIVE; USER_PROFILE;
    EDIT_PROFILE_PICTURE; ADMIN_PANEL; LEADERBOARD; VIRTUAL_LAB_INPUT;
    VIRTUAL_LAB_DISPLAY; REAL_WORLD_CONNECTIONS_INPUT;
    REAL_WORLD_CONNECTIONS_DISPLAY; HISTORICAL_CHAT_SELECTION;
    HISTORICAL_CHAT_SESSION; AI_STORY_WEAVER_INPUT; AI_STORY_WEAVER_DISPLAY;
    SCIENCE_FAIR_BUDDY_INPUT; SCIENCE_FAIR_BUDDY_IDEAS;
    SCIENCE_FAIR_BUDDY_PLAN; SCIENCE_LENS_INPUT; SCIENCE_LENS_DISPLAY;
    WHAT_IF_SCENARIO_INPUT; WHAT_IF_SCENARIO_SESSION ].

(** The member a run-time number denotes, if any. *)
Definition GameState_of_Z (v : Z) : option GameState :=
  if v <? 0 then None else GameState_members !! Z.to_nat v.

(** ** Component state ([useState] / [useLocalStorage] of [App]) *)

(** User management. *)
Record UserManagement := mkUserManagement
  { um_users : list User.t;
    um_currentUserId : option string }.

(** Selections. *)
Record Selections := mkSelections
  { sel_grade : option Grade;
    sel_topic : option string;
    sel_timePerQuestion : Z }.

(** Data and loading. *)
Record DataLoading := mkDataLoading
  { dl_isLoading : bool;
    dl_loadingMessage : string;
    dl_apiError : option string;
    dl_questions : list QuizQuestion.t;
    dl_notes : list NoteSection.t;
    dl_inputPrompt : string }.

(** Quiz state. *)
Record QuizState := mkQuizState
  { qz_currentQuestionIndex : nat;
    qz_userAnswers : list Answer;
    qz_score : Z;
    qz_timeLeft : Z }.

(** State of the newer features; of the selected scientist only the
    presence is read by the code modelled here. *)
Record NewFeatures := mkNewFeatures
  { nf_virtualLabSteps : list VirtualLabStep.t;
    nf_selectedScientist : option string;
    nf_selectedProjectIdea : option ScienceFairProjectIdea.t }.

(** User authentication form. *)
Record AuthState := mkAuthState
  { au_usernameInput : string;
    au_passwordInput : string;
    au_authError : string }.

(** Gamification and logging. *)
Record Gamification := mkGamification
  { gm_leaderboard : list LeaderboardEntry.t;
    gm_newBadges : list Badge.t;
    gm_activityLog : list ActivityLog.t;
    gm_showBadgeModal : bool }.

Record AppState := mkAppState
  { userManagement : UserManagement;
    gameState : GameState;
    selections : Selections;
    dataLoading : DataLoading;
    quizState : QuizState;
    newFeatures : NewFeatures;
    authState : AuthState;
    gamification : Gamification }.

(** *** Reading the state *)

Definition users (st : AppState) := um_users (userManagement st).
Definition currentUserId (st : AppState) := um_currentUserId (userManagement st).
Definition grade (st : AppState) := sel_grade (selections st).
Definition topic (st : AppState) := sel_topic (selections st).
Definition timePerQuestion (st : AppState) := sel_timePerQuestion (selections st).
Definition isLoading (st : AppState) := dl_isLoading (dataLoading st).
Definition loadingMessage (st : AppState) := dl_loadingMessage (dataLoading st).
Definition apiError (st : AppState) := dl_apiError (dataLoading st).
Definition questions (st : AppState) := dl_questions (dataLoading st).
Definition notes (st : AppState) := dl_notes (dataLoading st).
Definition inputPrompt (st : AppState) := dl_inputPrompt (dataLoading st).
Definition currentQuestionIndex (st : AppState) := qz_currentQuestionIndex (quizState st).
Definition userAnswers (st : AppState) := qz_userAnswers (quizState st).
Definition score (st : AppState) := qz_score (quizState st).
Definition timeLeft (st : AppState) := qz_timeLeft (quizState st).
Definition virtualLabSteps (st : AppState) := nf_virtualLabSteps (newFeatures st).
Definition selectedScientist (st : AppState) := nf_selectedScientist (newFeatures st).
Definition selectedProjectIdea (st : AppState) := nf_selectedProjectIdea (newFeatures st).
Definition usernameInput (st : AppState) := au_usernameInput (authState st).
Definition passwordInput (st : AppState) := au_passwordInput (authState st).
Definition authError (st : AppState) := au_authError (authState st).
Definition leaderboard (st : AppState) := gm_leaderboard (gamification st).
Definition newBadges (st : AppState) := gm_newBadges (gamification st).
Definition activityLog (st : AppState) := gm_activityLog (gamification st).
Definition showBadgeModal (st : AppState) := gm_showBadgeModal (gamification st).

(** [const currentUser = users.find(u => u.id === currentUserId) || null]
    (App.tsx 37), recomputed by every render. *)
Definition currentUser (st : AppState) : option User.t :=
  match currentUserId st with
  | Some cid => List.find (fun u => String.eqb (User.id u) cid) (users st)
  | None => None
  end.

(** *** Writing the state: one function per state setter

    [users], [currentUserId], [leaderboard] and [activityLog] are held by
    [useLocalStorage] (hooks/useLocalStorage), a hook that is not among the
    files embedded here.  Its setter is taken to be the setter of
    [useState]: a value, or an updater applied to the latest value, the
    last write winning; the copy kept in local storage is left out. *)

Definition with_userManagement (f : UserManagement -> UserManagement) (st : AppState) : AppState :=
  mkAppState (f (userManagement st)) (gameState st) (selections st) (dataLoading st)
             (quizState st) (newFeatures st) (authState st) (gamification st).

Definition with_dataLoading (f : DataLoading -> DataLoading) (st : AppState) : AppState :=
  mkAppState (userManagement st) (gameState st) (selections st) (f (dataLoading st))
             (quizState st) (newFeatures st) (authState st) (gamification st).

Definition with_quizState (f : QuizState -> QuizState) (st : AppState) : AppState :=
  mkAppState (userManagement st) (gameState st) (selections st) (dataLoading st)
             (f (quizState st)) (newFeatures st) (authState st) (gamification st).

Definition with_newFeatures (f : NewFeatures -> NewFeatures) (st : AppState) : AppState :=
  mkAppState (userManagement st) (gameState st) (selections st) (dataLoading st)
             (quizState st) (f (newFeatures st)) (authState st) (gamification st).

Definition with_authState (f : AuthState -> AuthState) (st : AppState) : AppState :=
  mkAppState (userManagement st) (gameState st) (selections st) (dataLoading st)
             (quizState st) (newFeatures st) (f (authState st)) (gamification st).

Definition with_gamification (f : Gamification -> Gamification) (st : AppState) : AppState :=
  mkAppState (userManagement st) (gameState st) (selections st) (dataLoading st)
             (quizState st) (newFeatures st) (authState st) (f (gamification st)).

Definition setUsers (v : list User.t) : AppState -> AppState :=
  with_userManagement (fun g => mkUserManagement v (um_currentUserId g)).

Definition setCurrentUserId (v : option string) : AppState -> AppState :=
  with_userManagement (fun g => mkUserManagement (um_users g) v).

Definition setGameState (v : GameState) (st : AppState) : AppState :=
  mkAppState (userManagement st) v (selections st) (dataLoading st)
             (quizState st) (newFeatures st) (authState st) (gamification st).

Definition setIsLoading (v : bool) : AppState -> AppState :=
  with_dataLoading (fun g =>
    mkDataLoading v (dl_loadingMessage g) (dl_apiError g) (dl_questions g)
                  (dl_notes g) (dl_inputPrompt g)).

Definition setLoadingMessage (v : string) : AppState -> AppState :=
  with_dataLoading (fun g =>
    mkDataLoading (dl_isLoading g) v (dl_apiError g) (dl_questions g)
                  (dl_notes g) (dl_inputPrompt g)).

Definition setApiError (v : option string) : AppState -> AppState :=
  with_dataLoading (fun g =>
    mkDataLoading (dl_isLoading g) (dl_loadingMessage g) v (dl_questions g)
                  (dl_notes g) (dl_inputPrompt g)).

Definition setNotes (v : list NoteSection.t) : AppState -> AppState :=
  with_dataLoading (fun g =>
    mkDataLoading (dl_isLoading g) (dl_loadingMessage g) (dl_apiError g)
                  (dl_questions g) v (dl_inputPrompt g)).

Definition setCurrentQuestionIndex (v : nat) : AppState -> AppState :=
  with_quizState (fun g =>
    mkQuizState v (qz_userAnswers g) (qz_score g) (qz_timeLeft g)).

Definition setUserAnswers (v : list Answer) : AppState -> AppState :=
  with_quizState (fun g =>
    mkQuizState (qz_currentQuestionIndex g) v (qz_score g) (qz_timeLeft g)).

Definition setScore (v : Z) : AppState -> AppState :=
  with_quizState (fun g =>
    mkQuizState (qz_currentQuestionIndex g) (qz_userAnswers g) v (qz_timeLeft g)).

Definition setTimeLeft (v : Z) : AppState -> AppState :=
  with_quizState (fun g =>
    mkQuizState (qz_currentQuestionIndex g) (qz_userAnswers g) (qz_score g) v).

Definition setVirtualLabSteps (v : list VirtualLabStep.t) : AppState -> AppState :=
  with_newFeatures (fun g =>
    mkNewFeatures v (nf_selectedScientist g) (nf_selectedProjectIdea g)).

Definition setUsernameInput (v : string) : AppState -> AppState :=
  with_authState (fun g => mkAuthState v (au_passwordInput g) (au_authError g)).

Definition setPasswordInput (v : string) : AppState -> AppState :=
  with_authState (fun g => mkAuthState (au_usernameInput g) v (au_authError g)).

Definition setAuthError (v : string) : AppState -> AppState :=
  with_authState (fun g => mkAuthState (au_usernameInput g) (au_passwordInput g) v).

Definition setLeaderboard (v : list LeaderboardEntry.t) : AppState -> AppState :=
  with_gamification (fun g =>
    mkGamification v (gm_newBadges g) (gm_activityLog g) (gm_showBadgeModal g)).

Definition setNewBadges (v : list Badge.t) : AppState -> AppState :=
  with_gamification (fun g =>
    mkGamification (gm_leaderboard g) v (gm_activityLog g) (gm_showBadgeModal g)).

Definition setActivityLog (v : list ActivityLog.t) : AppState -> AppState :=
  with_gamification (fun g =>
    mkGamification (gm_leaderboard g) (gm_newBadges g) v (gm_showBadgeModal g)).

Definition setShowBadgeModal (v : bool) : AppState -> AppState :=
  with_gamification (fun g =>
    mkGamification (gm_leaderboard g) (gm_newBadges g) (gm_activityLog g) v).

(** ** What a handler takes from outside *)

(** The two readings one [addLogEntry] call makes: [generateUniqueId()] and
    [new Date().toISOString()]. *)
Record Stamp := mkStamp { stamp_id : string; stamp_time : string }.

(** The two date strings [handleActivityCompletion] computes (App.tsx 215
    and 222-225); [Today_of] below computes them from the clock. *)
Record Today := mkToday { todayStr : string; yesterdayStr : string }.

(** ** The clock ([Date])

    What the handlers use of [Date], after the definitions of ECMAScript
    (Date objects: time values, [LocalTime], [UTC], [MakeDay],
    [MakeDate]).  A time value is a number of milliseconds since
    1970-01-01T00:00:00Z; months are counted from 1 here. *)
Module JSDate.

Definition msPerDay : Z := 86400000.

Definition Day (t : Z) : Z := t / msPerDay.
Definition TimeWithinDay (t : Z) : Z := t mod msPerDay.

(** Year, month and day of the month of a day number, in the proleptic
    Gregorian calendar. *)
Definition civil_from_days (day : Z) : Z * Z * Z :=
  let z := day + 719468 in
  let era := z / 146097 in
  let doe := z - era * 146097 in
  let yoe := (doe - doe / 1460 + doe / 36524 - doe / 146096) / 365 in
  let doy := doe - (365 * yoe + yoe / 4 - yoe / 100) in
  let mp := (5 * doy + 2) / 153 in
  let d := doy - (153 * mp + 2) / 5 + 1 in
  let m := if mp <? 10 then mp + 3 else mp - 9 in
  let y := yoe + era * 400 in
  (if m <=? 2 then y + 1 else y, m, d).

(** The day number of a year, month and day of the month. *)
Definition days_from_civil (year month date : Z) : Z :=
  let y := if month <=? 2 then year - 1 else year in
  let era := y / 400 in
  let yoe := y - era * 400 in
  let mp := if 2 <? month then month - 3 else month + 9 in
  let doy := (153 * mp + 2) / 5 + date - 1 in
  let doe := yoe * 365 + yoe / 4 - yoe / 100 + doy in
  era * 146097 + doe - 719468.

Definition YearFromTime (t : Z) : Z := (civil_from_days (Day t)).1.1.
Definition MonthFromTime (t : Z) : Z := (civil_from_days (Day t)).1.2.
Definition DateFromTime (t : Z) : Z := (civil_from_days (Day t)).2.

(** [MakeDay(year, month, date)]: the day number of the first of the month
    plus [date - 1]; [date] may be 0 or negative. *)
Definition MakeDay (year month date : Z) : Z :=
  days_from_civil year month 1 + date - 1.

Definition MakeDate (day time : Z) : Z := day * msPerDay + time.

(** The time zone of the host: the offset from UTC, in milliseconds, that
    applies at a UTC time value, and the one with which a local time value
    is read ([LocalTZA(t, true)] and [LocalTZA(t, false)]). *)
Record TimeZone := mkTimeZone
  { offset_at_utc : Z -> Z;
    offset_at_local : Z -> Z }.

Definition LocalTime (zone : TimeZone) (t : Z) : Z := t + offset_at_utc zone t.
Definition UTC (zone : TimeZone) (t : Z) : Z := t - offset_at_local zone t.

(** [date.getDate()]: the day of the month in local time. *)
Definition getDate (zone : TimeZone) (t : Z) : Z :=
  DateFromTime (LocalTime zone t).

(** [date.setDate(dt)]: the day of the month is replaced in local time, the
    time within the day is kept, and the result is read back as a local
    time. *)
Definition setDate (zone : TimeZone) (t dt : Z) : Z :=
  let local := LocalTime zone t in
  UTC zone (MakeDate (MakeDay (YearFromTime local) (MonthFromTime local) dt)
                     (TimeWithinDay local)).

Fixpoint zeros (k : nat) : string :=
  match k with
  | O => EmptyString
  | S k' => "0" +:+ zeros k'
  end.

(** A number in decimal, padded with zeros to a width. *)
Definition padded (width : nat) (n : Z) : string :=
  let digits := pretty (Z.to_N n) in
  zeros (width - String.length digits) +:+ digits.

(** [date.toISOString().split('T')[0]]: the UTC date, with four digits for
    the years 0 to 9999 and a sign and six digits for the others. *)
Definition isoDate (t : Z) : string :=
  let '(y, m, d) := civil_from_days (Day t) in
  (if (0 <=? y) && (y <=? 9999) then padded 4 y
   else (if y <? 0 then "-" else "+") +:+ padded 6 (Z.abs y))
    +:+ "-" +:+ padded 2 m +:+ "-" +:+ padded 2 d.

(** [new Date(s)] for the date-only string [s] that [isoDate t] is: such a
    string is read as UTC midnight of its day. *)
Definition ofIsoDate (t : Z) : Z := MakeDate (Day t) 0.

End JSDate.

(** The instant [new Date()] returns, and the time zone of the host. *)
Record Clock := mkClock { now : Z; zone : JSDate.TimeZone }.

(** App.tsx 215 and 222-225: today's string is the UTC date of the
    instant; [yesterday] is the UTC midnight of that date with its local
    day of the month lowered by one, printed as a UTC date again. *)
Definition Today_of (clock : Clock) : Today :=
  let todayStr := JSDate.isoDate (now clock) in
  let today := JSDate.ofIsoDate (now clock) in
  let yesterday :=
    JSDate.setDate (zone clock) today (JSDate.getDate (zone clock) today - 1) in
  mkToday todayStr (JSDate.isoDate yesterday).

(** ** Stats of the logged-in user ([updateUserStats], App.tsx 201-210) *)

Definition with_stats (updateFn : UserStats.t -> UserStats.t) (user : User.t) : User.t :=
  User.mk (User.id user) (User.username user) (User.password user)
          (User.isAdmin user) (User.profilePictureUrl user)
          (updateFn (User.stats user)).

Definition updateUserStats (r : AppState)
    (updateFn : UserStats.t -> UserStats.t) (st : AppState) : AppState :=
  match currentUserId r with
  | Some cid =>
      if JS.truthy cid then
        setUsers
          (map (fun user =>
                  if String.eqb (User.id user) cid
                  then with_stats updateFn user
                  else user)
               (users st))
          st
      else st
  | None => st
  end.

(** ** Daily streak ([handleActivityCompletion], App.tsx 212-236) *)

(** [n || 0] on a number. *)
Definition or_zero (n : Z) : Z := if n =? 0 then 0 else n.

Definition streak_update (newStreak : Z) (todayStr : string) (stats : UserStats.t)
    : UserStats.t :=
  UserStats.mk
    (UserStats.quizzesCompleted stats)
    (UserStats.quizzesAttempted stats)
    (UserStats.topicsMastered stats)
    (UserStats.totalScorePoints stats)
    (UserStats.totalQuestionsAnswered stats)
    (UserStats.timeSpentLearningInSeconds stats)
    (UserStats.topicPerformance stats)
    (UserStats.badges stats)
    newStreak
    todayStr.

Definition handleActivityCompletion (r : AppState) (d : Today) (st : AppState)
    : AppState :=
  match currentUser r with
  | None => st
  | Some cu =>
      let lastActivityStr :=
        JS.or_else (Some (UserStats.lastActivityDate (User.stats cu))) EmptyString in
      if String.eqb (todayStr d) lastActivityStr then st
      else
        let newStreak :=
          if String.eqb lastActivityStr (yesterdayStr d)
          then or_zero (UserStats.currentStreak (User.stats cu)) + 1
          else 1 in
        updateUserStats r (streak_update newStreak (todayStr d)) st
  end.

(** ** Activity log ([addLogEntry], App.tsx 239-250) *)

Definition addLogEntry (r : AppState) (s : Stamp) (type : string)
    (details : list (string * DetailValue)) (st : AppState) : AppState :=
  match currentUser r with
  | None => st
  | Some cu =>
      let newLog :=
        ActivityLog.mk (stamp_id s) (User.id cu) (User.username cu)
                       (stamp_time s) type details in
      setActivityLog (newLog :: take 49 (activityLog st)) st
  end.

(** ** Leaderboard update as a state change *)

Definition updateLeaderboard (r : AppState) (username : string)
    (pointsToAdd : Z) (profilePictureUrl : option string) (st : AppState)
    : AppState :=
  setLeaderboard
    (snd (Leaderboard.updater (currentUser r) username pointsToAdd
                              profilePictureUrl (leaderboard st)))
    st.

(** ** Badges ([awardBadges], App.tsx 252-295) *)

(** The second argument of a badge criterion. *)
Record QuizResult := mkQuizResult
  { qr_score : Z;
    qr_questionCount : Z;
    qr_topic : string }.

Module BadgeDefinition.
Record t := mk
  { name : string;
    description : string;
    criteria : UserStats.t -> QuizResult -> bool }.
End BadgeDefinition.

(** The clock reading stored in a new badge of a kind, and the readings of
    the log entry written for it. *)
Record BadgeEnv := mkBadgeEnv
  { dateEarnedAt : BadgeType -> string;
    logStampAt : BadgeType -> Stamp }.

(** The snapshot the criteria are evaluated on. *)
Definition updatedStats (currentStats : UserStats.t) (score questionCount : Z)
    (topic : string) : UserStats.t :=
  let perf := UserStats.topicPerformance currentStats !! topic in
  UserStats.mk
    (UserStats.quizzesCompleted currentStats + 1)
    (UserStats.quizzesAttempted currentStats + 1)
    (UserStats.topicsMastered currentStats)
    (UserStats.totalScorePoints currentStats)
    (UserStats.totalQuestionsAnswered currentStats)
    (UserStats.timeSpentLearningInSeconds currentStats)
    (<[topic :=
         TopicPerf.mk
           (or_zero (from_option TopicPerf.correct 0 perf) + score)
           (or_zero (from_option TopicPerf.total 0 perf) + questionCount)]>
       (UserStats.topicPerformance currentStats))
    (UserStats.badges currentStats)
    (UserStats.currentStreak currentStats)
    (UserStats.lastActivityDate currentStats).

Section Badges.

(** [BADGE_DEFINITIONS] lives in [hooks/constants], which is not among the
    files embedded here: an object keyed by badge kind.  It is a parameter,
    given as the list of its keys in [for ... in] order and the definition
    under each key. *)
Variable BADGE_KEYS : list BadgeType.
Variable BADGE_DEFINITIONS : BadgeType -> BadgeDefinition.t.

(** [currentUser.stats.badges.some(b => b.id === badgeKey)]. *)
Definition hasBadge (cu : User.t) (badgeKey : BadgeType) : bool :=
  existsb (fun b => bool_decide (Badge.id b = badgeKey))
          (UserStats.badges (User.stats cu)).

(** The badge built for a kind. *)
Definition badge_of (env : BadgeEnv) (kind : BadgeType) : Badge.t :=
  Badge.mk kind (BadgeDefinition.name (BADGE_DEFINITIONS kind))
           (BadgeDefinition.description (BADGE_DEFINITIONS kind))
           (dateEarnedAt env kind).

(** The [for ... in] loop that fills [earned]. *)
Fixpoint earned_loop (cu : User.t) (snapshot : UserStats.t) (quiz : QuizResult)
    (env : BadgeEnv) (keys : list BadgeType) : list Badge.t :=
  match keys with
  | [] => []
  | badgeKey :: rest =>
      if negb (hasBadge cu badgeKey) then
        let def := BADGE_DEFINITIONS badgeKey in
        if BadgeDefinition.criteria def snapshot quiz then
          Badge.mk badgeKey (BadgeDefinition.name def)
                   (BadgeDefinition.description def) (dateEarnedAt env badgeKey)
            :: earned_loop cu snapshot quiz env rest
        else earned_loop cu snapshot quiz env rest
      else earned_loop cu snapshot quiz env rest
  end.

Definition awardBadges (r : AppState) (score questionCount : Z) (topic : string)
    (env : BadgeEnv) (st : AppState) : list Badge.t * AppState :=
  match currentUser r with
  | None => ([], st)
  | Some cu =>
      let earned :=
        earned_loop cu
          (updatedStats (User.stats cu) score questionCount topic)
          (mkQuizResult score questionCount topic) env BADGE_KEYS in
      if (0 <? length earned)%nat then
        (earned,
         fold_left
           (fun st' badge =>
              addLogEntry r (logStampAt env (Badge.id badge)) "BADGE_EARNED"
                          [("badgeName", DStr (Badge.name badge))] st')
           earned
           (setShowBadgeModal true (setNewBadges earned st)))
      else (earned, st)
  end.

(** ** Answering a question ([handleAnswer], App.tsx 505-552) *)

(** [ans === question.answer]: strict equality, so only a string can match. *)
Definition answer_matches (ans : Answer) (q : QuizQuestion.t) : bool :=
  match ans with
  | Str s => String.eqb s (QuizQuestion.answer q)
  | Null | Undefined | Hole => false
  end.

(** The [forEach] that counts the score.  [forEach] skips holes; at any
    other cell [questions[index].answer] is read, which throws a
    [TypeError] ([None]) when there is no question at that index. *)
Fixpoint score_loop (questions : list QuizQuestion.t) (index : nat)
    (newAnswers : list Answer) (finalScore : Z) : option Z :=
  match newAnswers with
  | [] => Some finalScore
  | Hole :: rest => score_loop questions (S index) rest finalScore
  | ans :: rest =>
      match questions !! index with
      | None => None
      | Some q =>
          score_loop questions (S index) rest
                     (if answer_matches ans q then finalScore + 1 else finalScore)
      end
  end.

(** The stats update of a completed quiz. *)
Definition quiz_stats_update (topic : string) (finalScore questionCount : Z)
    (earnedBadges : list Badge.t) (stats : UserStats.t) : UserStats.t :=
  let topicPerf :=
    default (TopicPerf.mk 0 0) (UserStats.topicPerformance stats !! topic) in
  UserStats.mk
    (UserStats.quizzesCompleted stats + 1)
    (UserStats.quizzesAttempted stats)
    (UserStats.topicsMastered stats)
    (UserStats.totalScorePoints stats + finalScore)
    (UserStats.totalQuestionsAnswered stats + questionCount)
    (UserStats.timeSpentLearningInSeconds stats)
    (<[topic :=
         TopicPerf.mk (TopicPerf.correct topicPerf + finalScore)
                      (TopicPerf.total topicPerf + questionCount)]>
       (UserStats.topicPerformance stats))
    (UserStats.badges stats ++ earnedBadges)
    (UserStats.currentStreak stats)
    (UserStats.lastActivityDate stats).

(** What the completion of a quiz takes from outside. *)
Record QuizEnv := mkQuizEnv
  { qe_badges : BadgeEnv;
    qe_completed : Stamp;
    qe_today : Today }.

(** The array the handler builds: a copy of [userAnswers] with the answer
    written at the current index. *)
Definition newAnswers_of (r : AppState) (answer : option string) : list Answer :=
  array_set (spread (userAnswers r)) (currentQuestionIndex r) (Answer_of answer).

(** The part of [handleAnswer] that runs at once. *)
Definition handleAnswer_now (r : AppState) (answer : option string)
    (st : AppState) : AppState :=
  setUserAnswers (newAnswers_of r answer) st.

(** The callback [handleAnswer] hands to [setTimeout]; [None] when it ends
    in an uncaught [TypeError], before any state is written. *)
Definition handleAnswer_timeout (r : AppState) (answer : option string)
    (env : QuizEnv) (st : AppState) : option AppState :=
  let newAnswers := newAnswers_of r answer in
  if Z.of_nat (currentQuestionIndex r) <? Z.of_nat (length (questions r)) - 1 then
    let st1 := setCurrentQuestionIndex (S (currentQuestionIndex st)) st in
    Some (if 0 <? timePerQuestion r then setTimeLeft (timePerQuestion r) st1
          else st1)
  else
    match score_loop (questions r) 0 newAnswers 0 with
    | None => None
    | Some finalScore =>
        let st1 := setGameState QUIZ_SCORE (setScore finalScore st) in
        match currentUser r, topic r with
        | Some cu, Some tp =>
            if JS.truthy tp then
              let questionCount := Z.of_nat (length (questions r)) in
              let '(earnedBadges, st2) :=
                awardBadges r finalScore questionCount tp (qe_badges env) st1 in
              let st3 :=
                updateUserStats r
                  (quiz_stats_update tp finalScore questionCount earnedBadges)
                  st2 in
              let st4 :=
                updateLeaderboard r (User.username cu) finalScore
                                  (User.profilePictureUrl cu) st3 in
              let st5 :=
                addLogEntry r (qe_completed env) "QUIZ_COMPLETED"
                  [("topic", DStr tp); ("score", DNum finalScore);
                   ("questionCount", DNum questionCount)]
                  st4 in
              Some (handleActivityCompletion r (qe_today env) st5)
            else Some st1
        | _, _ => Some st1
        end
    end.

(** The whole handler: the immediate write, then the timeout callback. *)
Definition handleAnswer (r : AppState) (answer : option string) (env : QuizEnv)
    (st : AppState) : option AppState :=
  handleAnswer_timeout r answer env (handleAnswer_now r answer st).

End Badges.

(** ** Calls to the remote API ([withApiErrorHandler], App.tsx 318-334) *)

(** What a [catch] receives: an [Error] with its message, or any other
    thrown value. *)
Inductive Thrown :=
| ErrorObject (message : string)
| NotAnError.

(** How the awaited call ends. *)
Inductive ApiOutcome (A : Type) :=
| Resolved (result : A)
| Rejected (error : Thrown).

Arguments Resolved {A} result.
Arguments Rejected {A} error.

Definition api_key_message : string :=
  "The provided API Key is not valid. Please check the configuration.".

Definition error_message (error : Thrown) : string :=
  match error with
  | ErrorObject message => message
  | NotAnError => "An unexpected error occurred."
  end.

(** The wrapper returns the result, or [null] ([None]) after a throw. *)
Definition withApiErrorHandler {A} (apiCall : ApiOutcome A) (st : AppState)
    : option A * AppState :=
  match apiCall with
  | Resolved result => (Some result, setApiError None st)
  | Rejected error =>
      let message := error_message error in
      let st1 :=
        if JS.includes "API key not valid" message
        then setApiError (Some api_key_message) st
        else setApiError (Some message) st in
      (None, setIsLoading false st1)
  end.

(** ** Study notes ([handleGenerateNotes], App.tsx 392-404) *)

(** What the handler takes from outside after a successful call. *)
Record DoneEnv := mkDoneEnv
  { de_stamp : Stamp;
    de_today : Today }.

Definition handleGenerateNotes (r : AppState)
    (generateNotes : ApiOutcome (list NoteSection.t)) (env : DoneEnv)
    (st : AppState) : AppState :=
  match topic r, grade r with
  | Some tp, Some g =>
      if JS.truthy tp then
        let st1 := setIsLoading true st in
        let st2 :=
          setLoadingMessage ("Generating study notes for " +:+ JS.dquote +:+ tp +:+ JS.dquote +:+ "...") st1 in
        let '(notesResult, st3) := withApiErrorHandler generateNotes st2 in
        let st4 :=
          match notesResult with
          | Some result =>
              let s1 := setNotes result st3 in
              let s2 := setGameState NOTES_DISPLAY s1 in
              let s3 :=
                addLogEntry r (de_stamp env) "NOTES_GENERATED"
                            [("topic", DStr tp); ("grade", DNum (Grade_to_Z g))] s2 in
              handleActivityCompletion r (de_today env) s3
          | None => st3
          end in
        setIsLoading false st4
      else st
  | _, _ => st
  end.

(** ** Virtual lab ([handleGenerateVirtualLab], App.tsx 646-664) *)

(** [{ ...step, image: image || undefined }]. *)
Definition step_with_image (image : option string) (step : VirtualLabStep.t)
    : VirtualLabStep.t :=
  VirtualLabStep.mk (VirtualLabStep.title step)
    (VirtualLabStep.description step) (VirtualLabStep.imagePrompt step)
    (if JS.truthy_opt image then image else None).

(** The loop over the steps: one image request per step; a step whose
    request fails is kept without an image. *)
Fixpoint lab_images (total : nat) (generateDiagramImage : nat -> ApiOutcome string)
    (i : nat) (steps : list VirtualLabStep.t) (st : AppState)
    : list VirtualLabStep.t * AppState :=
  match steps with
  | [] => ([], st)
  | step :: rest =>
      let st1 :=
        setLoadingMessage
          ("Generating visual for step " +:+ pretty (i + 1)%nat +:+ "/"
             +:+ pretty total +:+ "...") st in
      let '(image, st2) := withApiErrorHandler (generateDiagramImage i) st1 in
      let '(more, st3) := lab_images total generateDiagramImage (S i) rest st2 in
      (step_with_image image step :: more, st3)
  end.

Definition handleGenerateVirtualLab (r : AppState)
    (generateVirtualLabSteps : ApiOutcome (list VirtualLabStep.t))
    (generateDiagramImage : nat -> ApiOutcome string) (env : DoneEnv)
    (st : AppState) : AppState :=
  if JS.truthy (inputPrompt r) then
    let st1 := setIsLoading true st in
    let st2 :=
      setLoadingMessage
        ("Setting up your virtual experiment for: " +:+ JS.dquote +:+ inputPrompt r
           +:+ JS.dquote +:+ "...")
        st1 in
    let st3 :=
      addLogEntry r (de_stamp env) "VIRTUAL_LAB_STARTED"
                  [("prompt", DStr (inputPrompt r))] st2 in
    let st4 := handleActivityCompletion r (de_today env) st3 in
    let '(steps, st5) := withApiErrorHandler generateVirtualLabSteps st4 in
    let st6 :=
      match steps with
      | Some result =>
          let '(stepsWithImages, s1) :=
            lab_images (length result) generateDiagramImage 0 result st5 in
          setGameState VIRTUAL_LAB_DISPLAY (setVirtualLabSteps stepsWithImages s1)
      | None => st5
      end in
    setIsLoading false st6
  else st.

(** ** Registration ([handleRegister], App.tsx 1085-1120) *)

Definition initial_stats : UserStats.t :=
  UserStats.mk 0 0 [] 0 0 0 ∅ [] 0 EmptyString.

Definition handleRegister (r : AppState) (newId : string) (s : Stamp)
    (st : AppState) : AppState :=
  let st1 := setAuthError EmptyString st in
  if existsb (fun u => String.eqb (User.username u) (usernameInput r)) (users r)
  then setAuthError "Username already exists." st1
  else if negb (JS.truthy (usernameInput r)) || negb (JS.truthy (passwordInput r))
  then setAuthError "Username and password cannot be empty." st1
  else
    let newUser :=
      User.mk newId (usernameInput r) (passwordInput r) false None
              initial_stats in
    let st2 := setUsers (users r ++ [newUser]) st1 in
    let st3 := setCurrentUserId (Some (User.id newUser)) st2 in
    let st4 := setGameState HOME_SCREEN st3 in
    let st5 := setUsernameInput EmptyString st4 in
    let st6 := setPasswordInput EmptyString st5 in
    addLogEntry r s "USER_REGISTERED" [] st6.

(** ** View router ([renderContent], App.tsx 1224-2200) *)

(** One name per element tree the router can return. *)
Inductive View :=
| HomeView
| GradeSelectionView
| TopicSelectionView
| LanguageSelectionView
| DiagramIdeasView
| DiagramView
| VoiceTutorView
| DoubtSolverView
| DifficultySelectionView (isWorksheet : bool)
| QuizCountView
| WorksheetCountView
| QuizTimerView
| QuizLoaderView
| QuizQuestionView
| QuizScoreView
| WorksheetView
| NotesView
| DeepDiveView
| ProfileView
| EditProfilePictureView
| AdminPanelView
| LeaderboardView
| VirtualLabInputView
| VirtualLabView
| RealWorldView
| HistoricalChatSelectionView
| HistoricalChatView
| StoryInputView
| StoryView
| ScienceFairInputView
| ScienceFairIdeasView
| ScienceFairPlanView
| ScienceLensInputView
| ScienceLensView
| WhatIfInputView
| WhatIfView
| NullView
| UnknownGameStateView.

#[global] Instance View_eq_dec : EqDecision View.
Proof. solve_decision. Defined.

(** What a call of the router returns: the element tree, and whether the
    call ran [goToHome()] on its way. *)
Record Rendered := mkRendered { view : View; wentHome : bool }.

Definition show (v : View) : Rendered := mkRendered v false.
Definition redirect_home : Rendered := mkRendered NullView true.

(** The [QUIZ_IN_PROGRESS] case (App.tsx 1546-1613).  With an empty list
    the loader is returned.  Otherwise [questions[currentQuestionIndex]]
    is read and its [type] and [question] are used to build the panel:
    when the index is past the last question the value read is
    [undefined] and the render throws a [TypeError] ([None]). *)
Definition render_quiz (st : AppState) : option Rendered :=
  if (length (questions st) =? 0)%nat then Some (show QuizLoaderView)
  else
    match questions st !! currentQuestionIndex st with
    | Some currentQuestion => Some (show QuizQuestionView)
    | None => None
    end.

(** The [switch (gameState)] of [renderContent]; it runs only under a
    logged-in user [cu] (the component returns the login form before).
    [None] stands for a call that throws instead of returning. *)
Definition renderContent (cu : User.t) (st : AppState) : option Rendered :=
  match gameState st with
  | HOME_SCREEN => Some (show HomeView)
  | GRADE_SELECTION => Some (show GradeSelectionView)
  | TOPIC_SELECTION => Some (show TopicSelectionView)
  | LANGUAGE_SELECTION => Some (show LanguageSelectionView)
  | DIAGRAM_IDEAS_SELECTION => Some (show DiagramIdeasView)
  | DIAGRAM_GENERATOR => Some (show DiagramView)
  | VOICE_TUTOR_SESSION => Some (show VoiceTutorView)
  | DOUBT_SOLVER => Some (show DoubtSolverView)
  | QUIZ_DIFFICULTY_SELECTION => Some (show (DifficultySelectionView false))
  | WORKSHEET_DIFFICULTY_SELECTION => Some (show (DifficultySelectionView true))
  | QUIZ_COUNT_SELECTION => Some (show QuizCountView)
  | WORKSHEET_COUNT_SELECTION => Some (show WorksheetCountView)
  | QUIZ_TIMER_SELECTION => Some (show QuizTimerView)
  | QUIZ_IN_PROGRESS => render_quiz st
  | QUIZ_SCORE => Some (show QuizScoreView)
  | WORKSHEET_DISPLAY => Some (show WorksheetView)
  | NOTES_DISPLAY => Some (show NotesView)
  | CONCEPT_DEEP_DIVE => Some (show DeepDiveView)
  | USER_PROFILE => Some (show ProfileView)
  | EDIT_PROFILE_PICTURE => Some (show EditProfilePictureView)
  | ADMIN_PANEL =>
      Some (if negb (User.isAdmin cu) then redirect_home
            else show AdminPanelView)
  | LEADERBOARD => Some (show LeaderboardView)
  | VIRTUAL_LAB_INPUT => Some (show VirtualLabInputView)
  | VIRTUAL_LAB_DISPLAY => Some (show VirtualLabView)
  | REAL_WORLD_CONNECTIONS_DISPLAY => Some (show RealWorldView)
  | HISTORICAL_CHAT_SELECTION => Some (show HistoricalChatSelectionView)
  | HISTORICAL_CHAT_SESSION =>
      match selectedScientist st with
      | None => Some redirect_home
      | Some _ => Some (show HistoricalChatView)
      end
  | AI_STORY_WEAVER_INPUT => Some (show StoryInputView)
  | AI_STORY_WEAVER_DISPLAY => Some (show StoryView)
  | SCIENCE_FAIR_BUDDY_INPUT => Some (show ScienceFairInputView)
  | SCIENCE_FAIR_BUDDY_IDEAS => Some (show ScienceFairIdeasView)
  | SCIENCE_FAIR_BUDDY_PLAN =>
      match selectedProjectIdea st with
      | None => Some redirect_home
      | Some _ => Some (show ScienceFairPlanView)
      end
  | SCIENCE_LENS_INPUT => Some (show ScienceLensInputView)
  | SCIENCE_LENS_DISPLAY => Some (show ScienceLensView)
  | WHAT_IF_SCENARIO_INPUT => Some (show WhatIfInputView)
  | WHAT_IF_SCENARIO_SESSION => Some (show WhatIfView)
  | LOGIN_SCREEN | REAL_WORLD_CONNECTIONS_INPUT => Some (show UnknownGameStateView)
  end.

(** The same switch on a raw run-time number: a number that is no member of
    the enum reaches [default]. *)
Definition renderContent_raw (cu : User.t) (v : Z) (st : AppState)
    : option Rendered :=
  match GameState_of_Z v with
  | Some g => renderContent cu (setGameState g st)
  | None => Some (show UnknownGameStateView)
  end.

(** ** What the component returns (App.tsx 1173-1222, 2202-2210) *)

(** [renderContent()] is called in the body of the component, so what it
    throws leaves the render of the component: [RenderThrows]. *)
Inductive Screen :=
| ApiErrorDisplay (message : string)
| FullScreenLoader (message : string)
| LoginForm
| Main (content : Rendered)
| RenderThrows.

Definition App_render (st : AppState) : Screen :=
  if JS.truthy_opt (apiError st) then ApiErrorDisplay (default EmptyString (apiError st))
  else if isLoading st then FullScreenLoader (loadingMessage st)
  else match currentUser st with
       | None => LoginForm
       | Some cu =>
           match renderContent cu st with
           | Some content => Main content
           | None => RenderThrows
           end
       end.

(** ** Sessions: the events that write the user list *)

(** The kinds of the badges in a list. *)
Definition badge_ids (bs : list Badge.t) : list BadgeType := map Badge.id bs.

(** The user list with the stats of the users of id [cid] updated: what
    [updateUserStats] writes. *)
Definition users_with_stats (cid : string) (updateFn : UserStats.t -> UserStats.t)
    (us : list User.t) : list User.t :=
  map (fun user => if String.eqb (User.id user) cid
                   then with_stats updateFn user else user) us.

(** No two users share an id, and no user holds two badges of one kind. *)
Definition badges_once_list (us : list User.t) : Prop :=
  NoDup (map User.id us) ∧
  ∀ u, u ∈ us → NoDup (badge_ids (UserStats.badges (User.stats u))).

Definition badges_once (st : AppState) : Prop := badges_once_list (users st).

(** ** Answers whose completion is pending

    [handleAnswer] writes the answer at once and leaves the rest to a
    callback that runs 500 ms later (App.tsx 510-551).  In between the
    component is rendered again, and what is on screen can call
    [handleAnswer] again: the form of a question of type Q&A is never
    disabled (App.tsx 1587-1590).  A page is the state together with the
    callbacks that are queued and have not run. *)
Record PendingAnswer := mkPendingAnswer
  { pa_render : AppState;
    pa_answer : option string;
    pa_env : QuizEnv }.

Section Pending.

Variable BADGE_KEYS : list BadgeType.
Variable BADGE_DEFINITIONS : BadgeType -> BadgeDefinition.t.

(** A call of [handleAnswer] from the current render: the answer is
    written, the callback is queued. *)
Definition submit (answer : option string) (env : QuizEnv)
    (page : AppState * list PendingAnswer) : AppState * list PendingAnswer :=
  (handleAnswer_now page.1 answer page.1,
   page.2 ++ [mkPendingAnswer page.1 answer env]).

(** A queued callback runs, against the state as it is by then. *)
Definition fire (pending : PendingAnswer) (st : AppState) : option AppState :=
  handleAnswer_timeout BADGE_KEYS BADGE_DEFINITIONS (pa_render pending)
                       (pa_answer pending) (pa_env pending) st.

End Pending.

(** ** The score in the words of the specification *)

(** At [index] an answer string is recorded and it equals the [answer]
    field of the question at [index]. *)
Definition matches_at (recorded : list Answer) (questions : list QuizQuestion.t)
    (index : nat) : bool :=
  match recorded !! index, questions !! index with
  | Some (Str s), Some q => String.eqb s (QuizQuestion.answer q)
  | _, _ => false
  end.

(** The question indices at which the recorded answer is a string equal to
    the question's [answer] field. *)
Definition matching_question_indices (recorded : list Answer)
    (questions : list QuizQuestion.t) : list nat :=
  List.filter (matches_at recorded questions) (seq 0 (length questions)).

(** ** Handlers fired from the current screen *)

(** The leaderboard after [updateLeaderboard], as the handler fired from
    state [st] leaves it. *)
Definition board_after (st : AppState) (username : string) (pointsToAdd : Z)
    (pic : option string) : list LeaderboardEntry.t :=
  leaderboard (updateLeaderboard st username pointsToAdd pic st).

(** [findIndex(e => e.username === username)] on a board. *)
Definition board_index (username : string) (board : list LeaderboardEntry.t)
    : option nat :=
  JS.findIndex (fun e => String.eqb (LeaderboardEntry.username e) username) board.

(** A user is logged in: [currentUserId] is a non-empty id (the code's own
    test is [!currentUserId]) and [users] holds a user with that id. *)
Definition logged_in (st : AppState) (cu : User.t) : Prop :=
  ∃ cid, currentUserId st = Some cid ∧ cid ≠ EmptyString ∧
         currentUser st = Some cu.

(** The record [handleRegister] builds. *)
Definition registered_user (st : AppState) (newId : string) : User.t :=
  User.mk newId (usernameInput st) (passwordInput st) false None initial_stats.

(** The screen values whose branch looks at more than the screen value. *)
Definition guarded (g : GameState) : bool :=
  match g with
  | QUIZ_IN_PROGRESS | ADMIN_PANEL | HISTORICAL_CHAT_SESSION
  | SCIENCE_FAIR_BUDDY_PLAN => true
  | _ => false
  end.

(** The members of the enum that have no [case] in the switch. *)
Definition caseless (g : GameState) : bool :=
  match g with
  | LOGIN_SCREEN | REAL_WORLD_CONNECTIONS_INPUT => true
  | _ => false
  end.

(** The writes of the bookkeeping helpers ([addLogEntry],
    [updateUserStats], [updateLeaderboard], [awardBadges],
    [handleActivityCompletion]) stay inside the user list, the leaderboard,
    the activity log and the badge modal: every other part of the state is
    as before. *)
Definition bookkeeping_only (st st' : AppState) : Prop :=
  currentUserId st' = currentUserId st ∧
  gameState st' = gameState st ∧
  selections st' = selections st ∧
  dataLoading st' = dataLoading st ∧
  quizState st' = quizState st ∧
  newFeatures st' = newFeatures st ∧
  authState st' = authState st.

(** The message [withApiErrorHandler] stores after a throw. *)
Definition displayed_message (error : Thrown) : string :=
  if JS.includes "API key not valid" (error_message error)
  then api_key_message
  else error_message error.

(** What the wrapper returns for an outcome. *)
Definition api_result {A} (apiCall : ApiOutcome A) : option A :=
  match apiCall with
  | Resolved result => Some result
  | Rejected _ => None
  end.

(** The parts of the state no generation handler writes when its request
    for content fails: everything but the loading flag, the loading message
    and the error. *)
Definition content_untouched (st st' : AppState) : Prop :=
  gameState st' = gameState st ∧
  selections st' = selections st ∧
  questions st' = questions st ∧
  notes st' = notes st ∧
  inputPrompt st' = inputPrompt st ∧
  quizState st' = quizState st ∧
  newFeatures st' = newFeatures st ∧
  authState st' = authState st ∧
  currentUserId st' = currentUserId st ∧
  leaderboard st' = leaderboard st.

(** The entry of [username] that is on the board before the update, if any,
    together with its index. *)
Definition entry_before (st : AppState) (username : string)
    (i : nat) (e : LeaderboardEntry.t) : Prop :=
  board_index username (leaderboard st) = Some i ∧ leaderboard st !! i = Some e.


(** ** Further state and handlers of [App]

    The handlers below are the callers of the bookkeeping above: login and
    logout, the profile picture, the start of a quiz, the choice of a
    chapter and the generation handlers it fires. *)

(** *** More state setters *)

Definition with_selections (f : Selections -> Selections) (st : AppState) : AppState :=
  mkAppState (userManagement st) (gameState st) (f (selections st)) (dataLoading st)
             (quizState st) (newFeatures st) (authState st) (gamification st).

Definition setGrade (v : option Grade) : AppState -> AppState :=
  with_selections (fun g => mkSelections v (sel_topic g) (sel_timePerQuestion g)).

Definition setTopic (v : option string) : AppState -> AppState :=
  with_selections (fun g => mkSelections (sel_grade g) v (sel_timePerQuestion g)).

Definition setTimePerQuestion (v : Z) : AppState -> AppState :=
  with_selections (fun g => mkSelections (sel_grade g) (sel_topic g) v).

Definition setQuestions (v : list QuizQuestion.t) : AppState -> AppState :=
  with_dataLoading (fun g =>
    mkDataLoading (dl_isLoading g) (dl_loadingMessage g) (dl_apiError g) v
                  (dl_notes g) (dl_inputPrompt g)).

Definition setInputPrompt (v : string) : AppState -> AppState :=
  with_dataLoading (fun g =>
    mkDataLoading (dl_isLoading g) (dl_loadingMessage g) (dl_apiError g)
                  (dl_questions g) (dl_notes g) v).

Definition setSelectedScientist (v : option string) : AppState -> AppState :=
  with_newFeatures (fun g =>
    mkNewFeatures (nf_virtualLabSteps g) v (nf_selectedProjectIdea g)).

Definition setSelectedProjectIdea (v : option ScienceFairProjectIdea.t)
    : AppState -> AppState :=
  with_newFeatures (fun g =>
    mkNewFeatures (nf_virtualLabSteps g) (nf_selectedScientist g) v).

(** *** Modes, difficulties, generated items ([types.ts]) *)

Module AppMode.
Inductive t :=
| diagram | doubt_solver | quiz | worksheet | notes | deep_dive | admin
| profile | leaderboard | voice_tutor | virtual_lab | real_world_connections
| historical_chat | ai_story_weaver | science_fair_buddy | science_lens
| what_if_scenario.

(** The string a mode is at run time. *)
Definition to_string (m : t) : string :=
  match m with
  | diagram => "diagram"
  | doubt_solver => "doubt_solver"
  | quiz => "quiz"
  | worksheet => "worksheet"
  | notes => "notes"
  | deep_dive => "deep_dive"
  | admin => "admin"
  | profile => "profile"
  | leaderboard => "leaderboard"
  | voice_tutor => "voice_tutor"
  | virtual_lab => "virtual_lab"
  | real_world_connections => "real_world_connections"
  | historical_chat => "historical_chat"
  | ai_story_weaver => "ai_story_weaver"
  | science_fair_buddy => "science_fair_buddy"
  | science_lens => "science_lens"
  | what_if_scenario => "what_if_scenario"
  end.
End AppMode.

Inductive Difficulty := Easy | Medium | Hard.

Definition Difficulty_to_string (d : Difficulty) : string :=
  match d with Easy => "Easy" | Medium => "Medium" | Hard => "Hard" end.

Module DiagramIdea.
Record t := mk { id : string; prompt : string; description : string }.
End DiagramIdea.

Module RealWorldExample.
Record t := mk
  { title : string;
    explanation : string;
    imagePrompt : string;
    image : option string }.
End RealWorldExample.

Module Diagram.
Record t := mk
  { id : string;
    prompt : string;
    image : string;
    description : string }.
End Diagram.

(** The picture handed to the science lens. *)
Module LensImage.
Record t := mk { data : string; mimeType : string; dataUrl : string }.
End LensImage.

(** *** The component with the state the handlers below also write *)

(** What the remaining generation handlers store. *)
Record MoreContent := mkMoreContent
  { mc_generatedDiagram : option Diagram.t;
    mc_studyPlan : option string;
    mc_aiStory : string;
    mc_scienceFairProjectIdeas : list ScienceFairProjectIdea.t;
    mc_scienceFairProjectPlan : list ScienceFairProjectStep.t;
    mc_scienceLensImage : option LensImage.t;
    mc_scienceLensExplanation : string }.

Record Component := mkComponent
  { app : AppState;
    appMode : option AppMode.t;
    difficulty : option Difficulty;
    questionCount : Z;
    conceptExplanation : string;
    diagramIdeas : list DiagramIdea.t;
    realWorldExamples : list RealWorldExample.t;
    editingProfilePic : option string;
    more : MoreContent }.

Definition generatedDiagram (c : Component) := mc_generatedDiagram (more c).
Definition studyPlan (c : Component) := mc_studyPlan (more c).
Definition aiStory (c : Component) := mc_aiStory (more c).
Definition scienceFairProjectIdeas (c : Component) :=
  mc_scienceFairProjectIdeas (more c).
Definition scienceFairProjectPlan (c : Component) :=
  mc_scienceFairProjectPlan (more c).
Definition scienceLensImage (c : Component) := mc_scienceLensImage (more c).
Definition scienceLensExplanation (c : Component) :=
  mc_scienceLensExplanation (more c).

(** A write to the part of the state modelled by [AppState]. *)
Definition on_app (f : AppState -> AppState) (c : Component) : Component :=
  mkComponent (f (app c)) (appMode c) (difficulty c) (questionCount c)
              (conceptExplanation c) (diagramIdeas c) (realWorldExamples c)
              (editingProfilePic c) (more c).

Definition setAppMode (v : option AppMode.t) (c : Component) : Component :=
  mkComponent (app c) v (difficulty c) (questionCount c)
              (conceptExplanation c) (diagramIdeas c) (realWorldExamples c)
              (editingProfilePic c) (more c).

Definition setDifficulty (v : option Difficulty) (c : Component) : Component :=
  mkComponent (app c) (appMode c) v (questionCount c)
              (conceptExplanation c) (diagramIdeas c) (realWorldExamples c)
              (editingProfilePic c) (more c).

Definition setQuestionCount (v : Z) (c : Component) : Component :=
  mkComponent (app c) (appMode c) (difficulty c) v
              (conceptExplanation c) (diagramIdeas c) (realWorldExamples c)
              (editingProfilePic c) (more c).

Definition setConceptExplanation (v : string) (c : Component) : Component :=
  mkComponent (app c) (appMode c) (difficulty c) (questionCount c)
              v (diagramIdeas c) (realWorldExamples c) (editingProfilePic c)
              (more c).

Definition setDiagramIdeas (v : list DiagramIdea.t) (c : Component) : Component :=
  mkComponent (app c) (appMode c) (difficulty c) (questionCount c)
              (conceptExplanation c) v (realWorldExamples c) (editingProfilePic c)
              (more c).

Definition setRealWorldExamples (v : list RealWorldExample.t) (c : Component)
    : Component :=
  mkComponent (app c) (appMode c) (difficulty c) (questionCount c)
              (conceptExplanation c) (diagramIdeas c) v (editingProfilePic c)
              (more c).

Definition setEditingProfilePic (v : option string) (c : Component) : Component :=
  mkComponent (app c) (appMode c) (difficulty c) (questionCount c)
              (conceptExplanation c) (diagramIdeas c) (realWorldExamples c) v
              (more c).

Definition with_more (f : MoreContent -> MoreContent) (c : Component)
    : Component :=
  mkComponent (app c) (appMode c) (difficulty c) (questionCount c)
              (conceptExplanation c) (diagramIdeas c) (realWorldExamples c)
              (editingProfilePic c) (f (more c)).

Definition setGeneratedDiagram (v : option Diagram.t) : Component -> Component :=
  with_more (fun g =>
    mkMoreContent v (mc_studyPlan g) (mc_aiStory g)
      (mc_scienceFairProjectIdeas g) (mc_scienceFairProjectPlan g)
      (mc_scienceLensImage g) (mc_scienceLensExplanation g)).

Definition setStudyPlan (v : option string) : Component -> Component :=
  with_more (fun g =>
    mkMoreContent (mc_generatedDiagram g) v (mc_aiStory g)
      (mc_scienceFairProjectIdeas g) (mc_scienceFairProjectPlan g)
      (mc_scienceLensImage g) (mc_scienceLensExplanation g)).

Definition setAiStory (v : string) : Component -> Component :=
  with_more (fun g =>
    mkMoreContent (mc_generatedDiagram g) (mc_studyPlan g) v
      (mc_scienceFairProjectIdeas g) (mc_scienceFairProjectPlan g)
      (mc_scienceLensImage g) (mc_scienceLensExplanation g)).

Definition setScienceFairProjectIdeas (v : list ScienceFairProjectIdea.t)
    : Component -> Component :=
  with_more (fun g =>
    mkMoreContent (mc_generatedDiagram g) (mc_studyPlan g) (mc_aiStory g)
      v (mc_scienceFairProjectPlan g)
      (mc_scienceLensImage g) (mc_scienceLensExplanation g)).

Definition setScienceFairProjectPlan (v : list ScienceFairProjectStep.t)
    : Component -> Component :=
  with_more (fun g =>
    mkMoreContent (mc_generatedDiagram g) (mc_studyPlan g) (mc_aiStory g)
      (mc_scienceFairProjectIdeas g) v
      (mc_scienceLensImage g) (mc_scienceLensExplanation g)).

Definition setScienceLensImage (v : option LensImage.t) : Component -> Component :=
  with_more (fun g =>
    mkMoreContent (mc_generatedDiagram g) (mc_studyPlan g) (mc_aiStory g)
      (mc_scienceFairProjectIdeas g) (mc_scienceFairProjectPlan g)
      v (mc_scienceLensExplanation g)).

Definition setScienceLensExplanation (v : string) : Component -> Component :=
  with_more (fun g =>
    mkMoreContent (mc_generatedDiagram g) (mc_studyPlan g) (mc_aiStory g)
      (mc_scienceFairProjectIdeas g) (mc_scienceFairProjectPlan g)
      (mc_scienceLensImage g) v).

(** The wrapper of API calls, on the component. *)
Definition withApiErrorHandlerC {A} (apiCall : ApiOutcome A) (c : Component)
    : option A * Component :=
  (fst (withApiErrorHandler apiCall (app c)),
   on_app (fun st => snd (withApiErrorHandler apiCall st)) c).

(** *** Going home ([resetSelections], [goToHome], App.tsx 424-459) *)

(** The resets of the state modelled here, in the order of the source. *)
Definition resetSelections (c : Component) : Component :=
  let c1 := on_app (setGrade None) c in
  let c2 := on_app (setTopic None) c1 in
  let c3 := setAppMode None c2 in
  let c4 := setDifficulty None c3 in
  let c5 := setQuestionCount 10 c4 in
  let c6 := on_app (setTimePerQuestion 30) c5 in
  let c7 := on_app (setQuestions []) c6 in
  let c8 := on_app (setNotes []) c7 in
  let c9 := setConceptExplanation EmptyString c8 in
  let c10 := setDiagramIdeas [] c9 in
  let c11 := setGeneratedDiagram None c10 in
  let c12 := on_app (setVirtualLabSteps []) c11 in
  let c13 := setRealWorldExamples [] c12 in
  let c14 := on_app (setSelectedScientist None) c13 in
  let c15 := setAiStory EmptyString c14 in
  let c16 := on_app (setInputPrompt EmptyString) c15 in
  let c17 := setScienceFairProjectIdeas [] c16 in
  let c18 := on_app (setSelectedProjectIdea None) c17 in
  let c19 := setScienceFairProjectPlan [] c18 in
  let c20 := setScienceLensImage None c19 in
  setScienceLensExplanation EmptyString c20.

Definition goToHome (c : Component) : Component :=
  on_app (setGameState HOME_SCREEN) (resetSelections c).

Definition selectGrade (selectedGrade : Grade) (c : Component) : Component :=
  on_app (setGameState TOPIC_SELECTION) (on_app (setGrade (Some selectedGrade)) c).

(** *** Login and logout ([handleLogin], [handleLogout], App.tsx 1070-1127) *)

Definition handleLogin (r : AppState) (s : Stamp) (st : AppState) : AppState :=
  let st1 := setAuthError EmptyString st in
  match List.find
          (fun u => String.eqb (User.username u) (usernameInput r)
                    && String.eqb (User.password u) (passwordInput r))
          (users r) with
  | Some user =>
      let st2 := setCurrentUserId (Some (User.id user)) st1 in
      let st3 := setGameState HOME_SCREEN st2 in
      let st4 := setUsernameInput EmptyString st3 in
      let st5 := setPasswordInput EmptyString st4 in
      addLogEntry r s "USER_LOGIN" [] st5
  | None => setAuthError "Invalid username or password." st1
  end.

Definition handleLogout (r : Component) (s : Stamp) (c : Component) : Component :=
  let c1 := on_app (addLogEntry (app r) s "USER_LOGOUT" []) c in
  let c2 := on_app (setCurrentUserId None) c1 in
  let c3 := on_app (setGameState LOGIN_SCREEN) c2 in
  resetSelections c3.

(** *** Profile picture ([handleSaveProfilePic], App.tsx 1142-1152) *)

Definition with_picture (dataUrl : string) (user : User.t) : User.t :=
  User.mk (User.id user) (User.username user) (User.password user)
          (User.isAdmin user) (Some dataUrl) (User.stats user).

Definition handleSaveProfilePic (r : Component) (dataUrl : string) (c : Component)
    : Component :=
  match currentUserId (app r), currentUser (app r) with
  | Some cid, Some cu =>
      if JS.truthy cid then
        let c1 :=
          on_app (fun st =>
            setUsers
              (map (fun user => if String.eqb (User.id user) cid
                                then with_picture dataUrl user else user)
                   (users st))
              st) c in
        let c2 :=
          on_app (updateLeaderboard (app r) (User.username cu) 0 (Some dataUrl)) c1 in
        let c3 := setEditingProfilePic None c2 in
        on_app (setGameState USER_PROFILE) c3
      else c
  | _, _ => c
  end.

(** *** Starting a quiz or a worksheet ([handleGenerateQuiz], App.tsx 361-390) *)

(** [new Array(n).fill(null)]. *)
Definition all_null (n : nat) : list Answer := replicate n Null.

Definition count_attempt (stats : UserStats.t) : UserStats.t :=
  UserStats.mk
    (UserStats.quizzesCompleted stats)
    (UserStats.quizzesAttempted stats + 1)
    (UserStats.topicsMastered stats)
    (UserStats.totalScorePoints stats)
    (UserStats.totalQuestionsAnswered stats)
    (UserStats.timeSpentLearningInSeconds stats)
    (UserStats.topicPerformance stats)
    (UserStats.badges stats)
    (UserStats.currentStreak stats)
    (UserStats.lastActivityDate stats).

Definition handleGenerateQuiz (r : Component) (selectedDifficulty : Difficulty)
    (selectedCount selectedTime : Z) (mode : AppMode.t)
    (generateQuizQuestions : ApiOutcome (list QuizQuestion.t)) (env : DoneEnv)
    (c : Component) : Component :=
  match topic (app r), grade (app r) with
  | Some tp, Some g =>
      if JS.truthy tp then
        let c1 := on_app (setIsLoading true) c in
        let c2 :=
          on_app (setLoadingMessage
                    ("Generating " +:+ Difficulty_to_string selectedDifficulty
                       +:+ " " +:+ AppMode.to_string mode +:+ "...")) c1 in
        let '(questionsResult, c3) := withApiErrorHandlerC generateQuizQuestions c2 in
        let c4 :=
          match questionsResult with
          | Some result =>
              let d1 := on_app (setQuestions result) c3 in
              let d2 := on_app (setUserAnswers (all_null (length result))) d1 in
              let d3 := on_app (setCurrentQuestionIndex 0) d2 in
              let d4 := on_app (setScore 0) d3 in
              let details :=
                [("topic", DStr tp); ("grade", DNum (Grade_to_Z g));
                 ("difficulty", DStr (Difficulty_to_string selectedDifficulty))] in
              match mode with
              | AppMode.quiz =>
                  let e1 := setDifficulty (Some selectedDifficulty) d4 in
                  let e2 := setQuestionCount selectedCount e1 in
                  let e3 := on_app (setTimePerQuestion selectedTime) e2 in
                  let e4 := if 0 <? selectedTime
                            then on_app (setTimeLeft selectedTime) e3 else e3 in
                  let e5 := on_app (setGameState QUIZ_IN_PROGRESS) e4 in
                  let e6 :=
                    on_app (addLogEntry (app r) (de_stamp env) "QUIZ_STARTED" details)
                           e5 in
                  on_app (updateUserStats (app r) count_attempt) e6
              | _ =>
                  let e1 := on_app (setGameState WORKSHEET_DISPLAY) d4 in
                  let e2 :=
                    on_app (addLogEntry (app r) (de_stamp env) "WORKSHEET_GENERATED"
                                        details) e1 in
                  on_app (handleActivityCompletion (app r) (de_today env)) e2
              end
          | None => c3
          end in
        on_app (setIsLoading false) c4
      else c
  | _, _ => c
  end.

(** *** The other handlers a chapter choice fires (App.tsx 336-346, 406-418,
    666-684) *)

(** [ideas.map(idea => ({ ...idea, id: generateUniqueId() }))]; [ids k] is
    the id handed out for the idea at index [k]. *)
Fixpoint with_ids (ids : nat -> string) (k : nat) (ideas : list DiagramIdea.t)
    : list DiagramIdea.t :=
  match ideas with
  | [] => []
  | idea :: rest =>
      DiagramIdea.mk (ids k) (DiagramIdea.prompt idea) (DiagramIdea.description idea)
        :: with_ids ids (S k) rest
  end.

Definition handleGenerateDiagramIdeas (r : Component)
    (generateDiagramIdeas : ApiOutcome (list DiagramIdea.t)) (ids : nat -> string)
    (c : Component) : Component :=
  match topic (app r), grade (app r) with
  | Some tp, Some g =>
      if JS.truthy tp then
        let c1 := on_app (setIsLoading true) c in
        let c2 :=
          on_app (setLoadingMessage
                    ("Brainstorming diagram ideas for " +:+ JS.dquote +:+ tp
                       +:+ JS.dquote +:+ "...")) c1 in
        let '(ideas, c3) := withApiErrorHandlerC generateDiagramIdeas c2 in
        let c4 :=
          match ideas with
          | Some result =>
              on_app (setGameState DIAGRAM_IDEAS_SELECTION)
                     (setDiagramIdeas (with_ids ids 0 result) c3)
          | None => c3
          end in
        on_app (setIsLoading false) c4
      else c
  | _, _ => c
  end.

Definition handleGenerateDeepDive (r : Component)
    (generateConceptExplanation : ApiOutcome string) (env : DoneEnv)
    (c : Component) : Component :=
  match topic (app r), grade (app r) with
  | Some tp, Some g =>
      if JS.truthy tp then
        let c1 := on_app (setIsLoading true) c in
        let c2 :=
          on_app (setLoadingMessage
                    ("Diving deep into " +:+ JS.dquote +:+ tp +:+ JS.dquote
                       +:+ "...")) c1 in
        let '(explanation, c3) := withApiErrorHandlerC generateConceptExplanation c2 in
        let c4 :=
          if JS.truthy_opt explanation then
            let d1 := setConceptExplanation (default EmptyString explanation) c3 in
            let d2 := on_app (setGameState CONCEPT_DEEP_DIVE) d1 in
            let d3 :=
              on_app (addLogEntry (app r) (de_stamp env) "DEEP_DIVE_REQUESTED"
                        [("topic", DStr tp); ("grade", DNum (Grade_to_Z g))]) d2 in
            on_app (handleActivityCompletion (app r) (de_today env)) d3
          else c3 in
        on_app (setIsLoading false) c4
      else c
  | _, _ => c
  end.

(** [{ ...example, image: image || undefined }]. *)
Definition example_with_image (image : option string) (example : RealWorldExample.t)
    : RealWorldExample.t :=
  RealWorldExample.mk (RealWorldExample.title example)
    (RealWorldExample.explanation example) (RealWorldExample.imagePrompt example)
    (if JS.truthy_opt image then image else None).

Fixpoint example_images (total : nat) (generateDiagramImage : nat -> ApiOutcome string)
    (i : nat) (examples : list RealWorldExample.t) (st : AppState)
    : list RealWorldExample.t * AppState :=
  match examples with
  | [] => ([], st)
  | example :: rest =>
      let st1 :=
        setLoadingMessage
          ("Generating visual for example " +:+ pretty (i + 1)%nat +:+ "/"
             +:+ pretty total +:+ "...") st in
      let '(image, st2) := withApiErrorHandler (generateDiagramImage i) st1 in
      let '(more, st3) := example_images total generateDiagramImage (S i) rest st2 in
      (example_with_image image example :: more, st3)
  end.

Definition handleGenerateRealWorldExamples (r : Component)
    (generateRealWorldExamples : ApiOutcome (list RealWorldExample.t))
    (generateDiagramImage : nat -> ApiOutcome string) (env : DoneEnv)
    (c : Component) : Component :=
  match topic (app r) with
  | Some tp =>
      if JS.truthy tp then
        let c1 := on_app (setIsLoading true) c in
        let c2 :=
          on_app (setLoadingMessage
                    ("Finding real-world connections for " +:+ JS.dquote +:+ tp
                       +:+ JS.dquote +:+ "...")) c1 in
        let c3 :=
          on_app (addLogEntry (app r) (de_stamp env) "REAL_WORLD_EXAMPLE_GENERATED"
                    [("topic", DStr tp)]) c2 in
        let c4 := on_app (handleActivityCompletion (app r) (de_today env)) c3 in
        let '(examples, c5) := withApiErrorHandlerC generateRealWorldExamples c4 in
        let c6 :=
          match examples with
          | Some result =>
              let '(examplesWithImages, s1) :=
                example_images (length result) generateDiagramImage 0 result (app c5) in
              on_app (setGameState REAL_WORLD_CONNECTIONS_DISPLAY)
                     (setRealWorldExamples examplesWithImages
                        (on_app (fun _ => s1) c5))
          | None => c5
          end in
        on_app (setIsLoading false) c6
      else c
  | None => c
  end.

(** *** The remaining generation handlers (App.tsx 348-359, 638-644,
    723-783) *)

Definition handleGenerateDiagram (r : Component) (idea : DiagramIdea.t)
    (generateDiagramImage : ApiOutcome string) (env : DoneEnv)
    (c : Component) : Component :=
  let c1 := on_app (setIsLoading true) c in
  let c2 :=
    on_app (setLoadingMessage
              ("Generating diagram: " +:+ JS.dquote +:+ DiagramIdea.description idea
                 +:+ JS.dquote +:+ "...")) c1 in
  let '(image, c3) := withApiErrorHandlerC generateDiagramImage c2 in
  let c4 :=
    if JS.truthy_opt image then
      let d1 :=
        setGeneratedDiagram
          (Some (Diagram.mk (DiagramIdea.id idea) (DiagramIdea.prompt idea)
                            (default EmptyString image)
                            (DiagramIdea.description idea))) c3 in
      let d2 := on_app (setGameState DIAGRAM_GENERATOR) d1 in
      let d3 :=
        on_app (addLogEntry (app r) (de_stamp env) "DIAGRAM_GENERATED"
                  [("description", DStr (DiagramIdea.description idea))]) d2 in
      on_app (handleActivityCompletion (app r) (de_today env)) d3
    else c3 in
  on_app (setIsLoading false) c4.

Definition generateAndSetStudyPlan (r : Component)
    (generateStudyPlan : ApiOutcome string) (c : Component) : Component :=
  match currentUser (app r) with
  | Some cu =>
      let '(plan, c1) := withApiErrorHandlerC generateStudyPlan c in
      if JS.truthy_opt plan then setStudyPlan plan c1 else c1
  | None => c
  end.

Definition handleGenerateAIStory (r : Component)
    (generateAIStory : ApiOutcome string) (env : DoneEnv)
    (c : Component) : Component :=
  if JS.truthy (inputPrompt (app r)) then
    let c1 := on_app (setIsLoading true) c in
    let c2 :=
      on_app (setLoadingMessage
                ("Weaving a scientific tale about " +:+ JS.dquote
                   +:+ inputPrompt (app r) +:+ JS.dquote +:+ "...")) c1 in
    let c3 :=
      on_app (addLogEntry (app r) (de_stamp env) "AI_STORY_WEAVER_USED"
                [("prompt", DStr (inputPrompt (app r)))]) c2 in
    let c4 := on_app (handleActivityCompletion (app r) (de_today env)) c3 in
    let '(story, c5) := withApiErrorHandlerC generateAIStory c4 in
    let c6 :=
      if JS.truthy_opt story then
        on_app (setGameState AI_STORY_WEAVER_DISPLAY)
               (setAiStory (default EmptyString story) c5)
      else c5 in
    on_app (setIsLoading false) c6
  else c.

(** [ideas.map(idea => ({ ...idea, id: generateUniqueId() }))], for the
    project ideas. *)
Fixpoint project_ideas_with_ids (ids : nat -> string) (k : nat)
    (ideas : list ScienceFairProjectIdea.t) : list ScienceFairProjectIdea.t :=
  match ideas with
  | [] => []
  | idea :: rest =>
      ScienceFairProjectIdea.mk (ids k) (ScienceFairProjectIdea.title idea)
                                (ScienceFairProjectIdea.description idea)
        :: project_ideas_with_ids ids (S k) rest
  end.

Definition handleGenerateScienceFairIdeas (r : Component)
    (generateScienceFairProjectIdeas : ApiOutcome (list ScienceFairProjectIdea.t))
    (ids : nat -> string) (env : DoneEnv) (c : Component) : Component :=
  if JS.truthy (inputPrompt (app r)) then
    let c1 := on_app (setIsLoading true) c in
    let c2 :=
      on_app (setLoadingMessage
                "Brainstorming project ideas based on your interests...") c1 in
    let c3 :=
      on_app (addLogEntry (app r) (de_stamp env) "SCIENCE_FAIR_BUDDY_STARTED"
                [("interests", DStr (inputPrompt (app r)))]) c2 in
    let c4 := on_app (handleActivityCompletion (app r) (de_today env)) c3 in
    let '(ideas, c5) := withApiErrorHandlerC generateScienceFairProjectIdeas c4 in
    let c6 :=
      match ideas with
      | Some result =>
          on_app (setGameState SCIENCE_FAIR_BUDDY_IDEAS)
                 (setScienceFairProjectIdeas (project_ideas_with_ids ids 0 result) c5)
      | None => c5
      end in
    on_app (setIsLoading false) c6
  else c.

(** [{ ...steps[i], image: image || undefined }]. *)
Definition plan_step_with_image (image : option string)
    (step : ScienceFairProjectStep.t) : ScienceFairProjectStep.t :=
  ScienceFairProjectStep.mk (ScienceFairProjectStep.title step)
    (ScienceFairProjectStep.description step)
    (ScienceFairProjectStep.imagePrompt step)
    (if JS.truthy_opt image then image else None).

Fixpoint plan_images (total : nat) (generateDiagramImage : nat -> ApiOutcome string)
    (i : nat) (steps : list ScienceFairProjectStep.t) (st : AppState)
    : list ScienceFairProjectStep.t * AppState :=
  match steps with
  | [] => ([], st)
  | step :: rest =>
      let st1 :=
        setLoadingMessage
          ("Generating visual for step " +:+ pretty (i + 1)%nat +:+ "/"
             +:+ pretty total +:+ "...") st in
      let '(image, st2) := withApiErrorHandler (generateDiagramImage i) st1 in
      let '(more, st3) := plan_images total generateDiagramImage (S i) rest st2 in
      (plan_step_with_image image step :: more, st3)
  end.

Definition handleGenerateScienceFairPlan (r : Component)
    (idea : ScienceFairProjectIdea.t)
    (generateScienceFairProjectPlan : ApiOutcome (list ScienceFairProjectStep.t))
    (generateDiagramImage : nat -> ApiOutcome string) (c : Component) : Component :=
  if JS.truthy (inputPrompt (app r)) then
    let c1 := on_app (setIsLoading true) c in
    let c2 :=
      on_app (setLoadingMessage
                ("Creating a project plan for " +:+ JS.dquote
                   +:+ ScienceFairProjectIdea.title idea +:+ JS.dquote +:+ "...")) c1 in
    let c3 := on_app (setSelectedProjectIdea (Some idea)) c2 in
    let '(steps, c4) := withApiErrorHandlerC generateScienceFairProjectPlan c3 in
    let c5 :=
      match steps with
      | Some result =>
          let '(stepsWithImages, s1) :=
            plan_images (length result) generateDiagramImage 0 result (app c4) in
          on_app (setGameState SCIENCE_FAIR_BUDDY_PLAN)
                 (setScienceFairProjectPlan stepsWithImages
                    (on_app (fun _ => s1) c4))
      | None => c4
      end in
    on_app (setIsLoading false) c5
  else c.

Definition handleExplainImage (r : Component)
    (explainImageWithPrompt : ApiOutcome string) (env : DoneEnv)
    (c : Component) : Component :=
  match scienceLensImage r with
  | Some picture =>
      if JS.truthy (inputPrompt (app r)) then
        let c1 := on_app (setIsLoading true) c in
        let c2 :=
          on_app (setLoadingMessage
                    "Analyzing your image with the Science Lens...") c1 in
        let c3 :=
          on_app (addLogEntry (app r) (de_stamp env) "SCIENCE_LENS_USED"
                    [("prompt", DStr (inputPrompt (app r)))]) c2 in
        let c4 := on_app (handleActivityCompletion (app r) (de_today env)) c3 in
        let '(explanation, c5) := withApiErrorHandlerC explainImageWithPrompt c4 in
        let c6 :=
          if JS.truthy_opt explanation then
            on_app (setGameState SCIENCE_LENS_DISPLAY)
                   (setScienceLensExplanation (default EmptyString explanation) c5)
          else c5 in
        on_app (setIsLoading false) c6
      else c
  | None => c
  end.

(** *** Every handler that awaits [withApiErrorHandler] *)

(** The twelve requests for content, each with what its handler is called
    with besides the outcome of the request. *)
Inductive Request :=
| DiagramIdeasRequest (ids : nat -> string)
| DiagramRequest (idea : DiagramIdea.t)
| QuizRequest (selectedDifficulty : Difficulty) (selectedCount selectedTime : Z)
              (mode : AppMode.t)
| NotesRequest
| DeepDiveRequest
| StudyPlanRequest
| VirtualLabRequest (generateDiagramImage : nat -> ApiOutcome string)
| RealWorldExamplesRequest (generateDiagramImage : nat -> ApiOutcome string)
| AIStoryRequest
| ScienceFairIdeasRequest (ids : nat -> string)
| ScienceFairPlanRequest (idea : ScienceFairProjectIdea.t)
                         (generateDiagramImage : nat -> ApiOutcome string)
| ExplainImageRequest.

(** The handler of a request, called from render [r], when the request for
    its content throws [error]. *)
Definition request_rejected (req : Request) (error : Thrown) (env : DoneEnv)
    (r c : Component) : Component :=
  match req with
  | DiagramIdeasRequest ids => handleGenerateDiagramIdeas r (Rejected error) ids c
  | DiagramRequest idea => handleGenerateDiagram r idea (Rejected error) env c
  | QuizRequest selectedDifficulty selectedCount selectedTime mode =>
      handleGenerateQuiz r selectedDifficulty selectedCount selectedTime mode
                         (Rejected error) env c
  | NotesRequest => on_app (handleGenerateNotes (app r) (Rejected error) env) c
  | DeepDiveRequest => handleGenerateDeepDive r (Rejected error) env c
  | StudyPlanRequest => generateAndSetStudyPlan r (Rejected error) c
  | VirtualLabRequest generateDiagramImage =>
      on_app (handleGenerateVirtualLab (app r) (Rejected error)
                                       generateDiagramImage env) c
  | RealWorldExamplesRequest generateDiagramImage =>
      handleGenerateRealWorldExamples r (Rejected error) generateDiagramImage env c
  | AIStoryRequest => handleGenerateAIStory r (Rejected error) env c
  | ScienceFairIdeasRequest ids =>
      handleGenerateScienceFairIdeas r (Rejected error) ids env c
  | ScienceFairPlanRequest idea generateDiagramImage =>
      handleGenerateScienceFairPlan r idea (Rejected error) generateDiagramImage c
  | ExplainImageRequest => handleExplainImage r (Rejected error) env c
  end.

(** Whether the handler gets as far as its request: the early [return] at
    the top of each handler, read from render [r]. *)
Definition sends_request (req : Request) (r : Component) : bool :=
  match req with
  | DiagramIdeasRequest _ | QuizRequest _ _ _ _ | NotesRequest | DeepDiveRequest =>
      match topic (app r), grade (app r) with
      | Some tp, Some _ => JS.truthy tp
      | _, _ => false
      end
  | DiagramRequest _ => true
  | StudyPlanRequest =>
      match currentUser (app r) with Some _ => true | None => false end
  | RealWorldExamplesRequest _ =>
      match topic (app r) with Some tp => JS.truthy tp | None => false end
  | VirtualLabRequest _ | AIStoryRequest | ScienceFairIdeasRequest _
  | ScienceFairPlanRequest _ _ =>
      JS.truthy (inputPrompt (app r))
  | ExplainImageRequest =>
      match scienceLensImage r with
      | Some _ => JS.truthy (inputPrompt (app r))
      | None => false
      end
  end.

(** The project idea the handler selects before its request. *)
Definition selects (req : Request) (r : Component)
    : option ScienceFairProjectIdea.t :=
  match req with
  | ScienceFairPlanRequest idea _ =>
      if sends_request req r then Some idea else None
  | _ => None
  end.

(** What a handler whose request for content fails leaves as it is, in the
    part of the state [AppState] holds: the screen, the selections, the
    generated questions, notes and lab steps, the quiz, the inputs, the
    login and the board. *)
Definition screen_and_content (st st' : AppState) : Prop :=
  gameState st' = gameState st ∧
  selections st' = selections st ∧
  questions st' = questions st ∧
  notes st' = notes st ∧
  inputPrompt st' = inputPrompt st ∧
  quizState st' = quizState st ∧
  virtualLabSteps st' = virtualLabSteps st ∧
  selectedScientist st' = selectedScientist st ∧
  authState st' = authState st ∧
  currentUserId st' = currentUserId st ∧
  leaderboard st' = leaderboard st.

(** The same for the whole component: the screen and every piece of
    generated content, with the mode, the quiz settings and the pictures.
    What is left out is the loading flag, the loading message, the error,
    the accounts, the log and the selected project idea. *)
Definition generated_untouched (c c' : Component) : Prop :=
  screen_and_content (app c) (app c') ∧
  appMode c' = appMode c ∧
  difficulty c' = difficulty c ∧
  questionCount c' = questionCount c ∧
  conceptExplanation c' = conceptExplanation c ∧
  diagramIdeas c' = diagramIdeas c ∧
  realWorldExamples c' = realWorldExamples c ∧
  editingProfilePic c' = editingProfilePic c ∧
  more c' = more c.

(** *** Choosing a chapter ([selectTopic], App.tsx 568-581) *)

(** What the requests a chapter choice can fire come back with. *)
Record TopicApis := mkTopicApis
  { api_ideas : ApiOutcome (list DiagramIdea.t);
    api_idea_ids : nat -> string;
    api_notes : ApiOutcome (list NoteSection.t);
    api_explanation : ApiOutcome string;
    api_examples : ApiOutcome (list RealWorldExample.t);
    api_image : nat -> ApiOutcome string }.

Definition selectTopic (r : Component) (selectedTopic : string) (apis : TopicApis)
    (env : DoneEnv) (c : Component) : Component :=
  let c1 := on_app (setTopic (Some selectedTopic)) c in
  match appMode r with
  | Some AppMode.diagram =>
      handleGenerateDiagramIdeas r (api_ideas apis) (api_idea_ids apis) c1
  | Some AppMode.doubt_solver => on_app (setGameState LANGUAGE_SELECTION) c1
  | Some AppMode.quiz => on_app (setGameState QUIZ_DIFFICULTY_SELECTION) c1
  | Some AppMode.worksheet => on_app (setGameState WORKSHEET_DIFFICULTY_SELECTION) c1
  | Some AppMode.notes =>
      on_app (handleGenerateNotes (app r) (api_notes apis) env) c1
  | Some AppMode.deep_dive => handleGenerateDeepDive r (api_explanation apis) env c1
  | Some AppMode.voice_tutor => on_app (setGameState LANGUAGE_SELECTION) c1
  | Some AppMode.real_world_connections =>
      handleGenerateRealWorldExamples r (api_examples apis) (api_image apis) env c1
  | _ => goToHome c1
  end.

(** *** Sequences of handler calls *)

(** One call of [addLogEntry]: the render it is fired from and its
    arguments. *)
Record LogCall := mkLogCall
  { lc_render : AppState;
    lc_stamp : Stamp;
    lc_type : string;
    lc_details : list (string * DetailValue) }.

(** The entry a call writes: none when its render has no current user. *)
Definition entry_of (call : LogCall) : option ActivityLog.t :=
  match currentUser (lc_render call) with
  | Some cu =>
      Some (ActivityLog.mk (stamp_id (lc_stamp call)) (User.id cu)
                           (User.username cu) (stamp_time (lc_stamp call))
                           (lc_type call) (lc_details call))
  | None => None
  end.

(** The calls made one after the other. *)
Definition log_all (calls : list LogCall) (st : AppState) : AppState :=
  fold_left
    (fun st' call =>
       addLogEntry (lc_render call) (lc_stamp call) (lc_type call)
                   (lc_details call) st')
    calls st.

(** One call of [updateLeaderboard], and the calls made one after the
    other, each fired from the state the one before left. *)
Record BoardCall := mkBoardCall
  { bc_user : option User.t;
    bc_username : string;
    bc_points : Z;
    bc_picture : option string }.

Definition board_all (calls : list BoardCall) (board : list LeaderboardEntry.t)
    : list LeaderboardEntry.t :=
  fold_left
    (fun b call =>
       snd (Leaderboard.updater (bc_user call) (bc_username call)
                                (bc_points call) (bc_picture call) b))
    calls board.

Section QuizRun.

Variable BADGE_KEYS : list BadgeType.
Variable BADGE_DEFINITIONS : BadgeType -> BadgeDefinition.t.

(** The answers of a quiz given one after the other, each from the screen
    the answer before left. *)
Fixpoint answer_all (answers : list (option string)) (env : QuizEnv)
    (st : AppState) : option AppState :=
  match answers with
  | [] => Some st
  | answer :: rest =>
      match handleAnswer BADGE_KEYS BADGE_DEFINITIONS st answer env st with
      | Some st' => answer_all rest env st'
      | None => None
      end
  end.

End QuizRun.

(** The log entry written for an earned badge. *)
Definition badge_log_entry (cu : User.t) (env : BadgeEnv) (badge : Badge.t)
    : ActivityLog.t :=
  ActivityLog.mk (stamp_id (logStampAt env (Badge.id badge))) (User.id cu)
                 (User.username cu) (stamp_time (logStampAt env (Badge.id badge)))
                 "BADGE_EARNED" [("badgeName", DStr (Badge.name badge))].

(** ** A completed quiz *)

(** The score of the quiz that [answer] completes, fired from [st]. *)
Definition finalScore_of (st : AppState) (answer : option string) : Z :=
  Z.of_nat (length (matching_question_indices (newAnswers_of st answer)
                                              (questions st))).

(** The log entry written for the completion. *)
Definition completed_log_entry (cu : User.t) (env : QuizEnv) (tp : string)
    (finalScore questionCount : Z) : ActivityLog.t :=
  ActivityLog.mk (stamp_id (qe_completed env)) (User.id cu) (User.username cu)
                 (stamp_time (qe_completed env)) "QUIZ_COMPLETED"
                 [("topic", DStr tp); ("score", DNum finalScore);
                  ("questionCount", DNum questionCount)].

(** What [handleActivityCompletion], fired from a render whose current user
    is [cu], does to the stats it is applied to. *)
Definition day_update (cu : User.t) (d : Today) : UserStats.t -> UserStats.t :=
  let lastActivityStr := UserStats.lastActivityDate (User.stats cu) in
  if String.eqb (todayStr d) lastActivityStr then id
  else
    streak_update
      (if String.eqb lastActivityStr (yesterdayStr d)
       then or_zero (UserStats.currentStreak (User.stats cu)) + 1
       else 1)
      (todayStr d).

(** The log after one call of [addLogEntry] fired from [st]. *)
Definition log_after (st : AppState) (s : Stamp) (type : string)
    (details : list (string * DetailValue)) : list ActivityLog.t :=
  activityLog (addLogEntry st s type details st).

(** ** Accounts *)

(** No two users share a username, and every user has a non-empty username
    and a non-empty password. *)
Definition accounts_ok (us : list User.t) : Prop :=
  NoDup (map User.username us) ∧
  ∀ u, u ∈ us -> User.username u ≠ EmptyString ∧ User.password u ≠ EmptyString.

(** The entry [handleLogout] writes for [cu]. *)
Definition logout_entry (cu : User.t) (s : Stamp) : ActivityLog.t :=
  ActivityLog.mk (stamp_id s) (User.id cu) (User.username cu) (stamp_time s)
                 "USER_LOGOUT" [].

(** The login form filled in with a username and a password. *)
Definition typed (username password : string) (st : AppState) : AppState :=
  setPasswordInput password (setUsernameInput username st).

(** ** Requests *)

(** The modes in which a chapter choice fires a request at once. *)
Definition fires_request (mode : option AppMode.t) : bool :=
  match mode with
  | Some AppMode.diagram | Some AppMode.notes | Some AppMode.deep_dive
  | Some AppMode.real_world_connections => true
  | _ => false
  end.

(** The error [withApiErrorHandler] leaves stored after a call. *)
Definition error_after {A} (apiCall : ApiOutcome A) : option string :=
  match apiCall with
  | Resolved _ => None
  | Rejected error => Some (displayed_message error)
  end.

(** The entry a handler fired by [cu] writes. *)
Definition log_entry (cu : User.t) (s : Stamp) (type : string)
    (details : list (string * DetailValue)) : ActivityLog.t :=
  ActivityLog.mk (stamp_id s) (User.id cu) (User.username cu) (stamp_time s)
                 type details.

(** ** Sessions of the whole component *)

(** What makes an account: id, username, password and role. *)
Definition account (u : User.t) : string * string * string * bool :=
  (User.id u, User.username u, User.password u, User.isAdmin u).

Definition accounts (st : AppState) : list (string * string * string * bool) :=
  map account (users st).

Section Handlers.

Variable BADGE_KEYS : list BadgeType.
Variable BADGE_DEFINITIONS : BadgeType -> BadgeDefinition.t.

(** One handler of the component, fired from the current screen, whatever
    its arguments and whatever the requests it makes come back with. *)
Inductive handler (c : Component) : Component -> Prop :=
| h_answer answer env st' :
    handleAnswer BADGE_KEYS BADGE_DEFINITIONS (app c) answer env (app c)
      = Some st' ->
    handler c (on_app (fun _ => st') c)
| h_quiz selectedDifficulty selectedCount selectedTime mode outcome env :
    handler c (handleGenerateQuiz c selectedDifficulty selectedCount
                                  selectedTime mode outcome env c)
| h_topic selectedTopic apis env :
    handler c (selectTopic c selectedTopic apis env c)
| h_lab outcome images env :
    handler c (on_app (handleGenerateVirtualLab (app c) outcome images env) c)
| h_login s :
    handler c (on_app (handleLogin (app c) s) c)
| h_register newId s :
    handler c (on_app (handleRegister (app c) newId s) c)
| h_logout s :
    handler c (handleLogout c s c)
| h_picture dataUrl :
    handler c (handleSaveProfilePic c dataUrl c)
| h_home :
    handler c (goToHome c)
| h_grade selectedGrade :
    handler c (selectGrade selectedGrade c)
| h_typed username password :
    handler c (on_app (typed username password) c).

(** Any number of handlers in a row. *)
Definition handlers : Component -> Component -> Prop := rtc handler.

End Handlers.

(** ** Sample data *)

(** A registered user with no history. *)
Definition sample_user : User.t :=
  User.mk "id-ada" "ada" "secret" false None initial_stats.

(** A board with twenty players of score 10, none of them [ada]. *)
Definition sample_entry (n : nat) : LeaderboardEntry.t :=
  LeaderboardEntry.mk ("id-" +:+ pretty n) ("player" +:+ pretty n) 10 None.

Definition sample_full_board : list LeaderboardEntry.t :=
  map sample_entry (seq 0 20).

(** The state right after [ada] logged in, on the home screen. *)
Definition sample_state : AppState :=
  mkAppState
    (mkUserManagement [sample_user] (Some "id-ada"))
    HOME_SCREEN
    (mkSelections None None 30)
    (mkDataLoading false EmptyString None [] [] EmptyString)
    (mkQuizState 0 [] 0 0)
    (mkNewFeatures [] None None)
    (mkAuthState EmptyString EmptyString EmptyString)
    (mkGamification [] [] [] false).

(** The same with the full board. *)
Definition sample_state_full_board : AppState :=
  setLeaderboard sample_full_board sample_state.

(** A board on which [ada] trails [bob]. *)
Definition sample_state_ada_on_board : AppState :=
  setLeaderboard
    [ LeaderboardEntry.mk "id-bob" "bob" 7 None;
      LeaderboardEntry.mk "id-ada" "ada" 5 None ]
    sample_state.

(** Fifty log entries, all written by another user, [bob]. *)
Definition sample_log_entry (n : nat) : ActivityLog.t :=
  ActivityLog.mk ("log-" +:+ pretty n) "id-bob" "bob"
                 "2024-05-01T10:00:00.000Z" "QUIZ_STARTED" [].

Definition sample_state_full_log : AppState :=
  setActivityLog (map sample_log_entry (seq 0 50)) sample_state.

Definition sample_stamp : Stamp := mkStamp "log-new" "2024-05-02T09:30:00.000Z".

(** Yesterday [ada] was active and had a streak of 4. *)
Definition sample_state_streak : AppState :=
  setUsers
    [ User.mk "id-ada" "ada" "secret" false None
        (UserStats.mk 3 4 [] 21 30 0 ∅ [] 4 "2024-05-01") ]
    sample_state.

Definition sample_today : Today := mkToday "2024-05-02" "2024-05-01".

(** Central European time in 2024: one hour ahead of UTC, two hours from
    2024-03-31T01:00Z to 2024-10-27T01:00Z.  A local time that occurs
    twice or not at all is read with the offset before the change. *)
Definition sample_hour : Z := 3600000.

Definition sample_dst_start : Z :=
  JSDate.MakeDate (JSDate.days_from_civil 2024 3 31) sample_hour.

Definition sample_dst_end : Z :=
  JSDate.MakeDate (JSDate.days_from_civil 2024 10 27) sample_hour.

Definition sample_zone_berlin : JSDate.TimeZone :=
  JSDate.mkTimeZone
    (fun t => if (sample_dst_start <=? t) && (t <? sample_dst_end)
              then 2 * sample_hour else sample_hour)
    (fun t => if (sample_dst_start + 2 * sample_hour <=? t)
                 && (t <? sample_dst_end + 2 * sample_hour)
              then 2 * sample_hour else sample_hour).

Definition sample_zone_utc : JSDate.TimeZone :=
  JSDate.mkTimeZone (fun _ => 0) (fun _ => 0).

(** 2024-10-28T10:00:00Z, the day after the clocks went back. *)
Definition sample_now : Z :=
  JSDate.MakeDate (JSDate.days_from_civil 2024 10 28) (10 * sample_hour).

(** [ada] was last active on 2024-10-27 and has a streak of 4. *)
Definition sample_state_streak_october : AppState :=
  setUsers
    [ User.mk "id-ada" "ada" "secret" false None
        (UserStats.mk 3 4 [] 21 30 0 ∅ [] 4 "2024-10-27") ]
    sample_state.

(** The registration form filled in by a newcomer. *)
Definition sample_state_form : AppState :=
  setCurrentUserId None
    (setGameState LOGIN_SCREEN
       (setUsernameInput "grace" (setPasswordInput "hopper" sample_state))).

(** The form with a name that is taken. *)
Definition sample_state_form_taken : AppState :=
  setUsernameInput "ada" sample_state_form.

(** An administrator, and both users looking at the admin screen. *)
Definition sample_admin : User.t :=
  User.mk "id-root" "root" "toor" true None initial_stats.

Definition sample_state_admin_screen : AppState :=
  setGameState ADMIN_PANEL sample_state.

(** A badge table for the examples (the theorems hold for every table);
    this one awards the quiz badges at 1, 5
    and 10 completed quizzes, the topic badge at 20 correct answers in the
    topic of the quiz, and the perfect-score badge for a faultless quiz. *)
Definition sample_keys : list BadgeType :=
  [QUIZ_NOVICE; QUIZ_ADEPT; QUIZ_MASTER; TOPIC_ACE; PERFECT_SCORE].

Definition sample_definitions (kind : BadgeType) : BadgeDefinition.t :=
  match kind with
  | QUIZ_NOVICE =>
      BadgeDefinition.mk "Quiz Novice" "Complete your first quiz."
        (fun stats _ => 1 <=? UserStats.quizzesCompleted stats)
  | QUIZ_ADEPT =>
      BadgeDefinition.mk "Quiz Adept" "Complete 5 quizzes."
        (fun stats _ => 5 <=? UserStats.quizzesCompleted stats)
  | QUIZ_MASTER =>
      BadgeDefinition.mk "Quiz Master" "Complete 10 quizzes."
        (fun stats _ => 10 <=? UserStats.quizzesCompleted stats)
  | TOPIC_ACE =>
      BadgeDefinition.mk "Topic Ace" "Answer 20 questions of a topic correctly."
        (fun stats quiz =>
           match UserStats.topicPerformance stats !! qr_topic quiz with
           | Some perf => 20 <=? TopicPerf.correct perf
           | None => false
           end)
  | PERFECT_SCORE =>
      BadgeDefinition.mk "Perfect Score" "Get every question right."
        (fun _ quiz => (0 <? qr_questionCount quiz)
                       && (qr_score quiz =? qr_questionCount quiz))
  end.

Definition sample_badge_env : BadgeEnv :=
  mkBadgeEnv (fun _ => "2024-05-02T09:30:00.000Z") (fun _ => sample_stamp).

Definition sample_quiz_env : QuizEnv :=
  mkQuizEnv sample_badge_env sample_stamp sample_today.

(** [ada] at the last question of a two-question quiz on light; the first
    question is answered correctly. *)
Definition sample_questions : list QuizQuestion.t :=
  [ QuizQuestion.mk "What bounces light back?" None
      ["Reflection"; "Refraction"] "Reflection" "Mirrors reflect light." MCQ;
    QuizQuestion.mk "Which colour bends most in a prism?" None
      ["Red"; "Violet"] "Violet" "Violet light is refracted most." MCQ ].

Definition sample_state_quiz : AppState :=
  mkAppState
    (mkUserManagement [sample_user] (Some "id-ada"))
    QUIZ_IN_PROGRESS
    (mkSelections (Some G8) (Some "Light") 30)
    (mkDataLoading false EmptyString None sample_questions [] EmptyString)
    (mkQuizState 1 [Str "Reflection"; Null] 0 12)
    (mkNewFeatures [] None None)
    (mkAuthState EmptyString EmptyString EmptyString)
    (mkGamification [] [] [] false).

(** The same quiz with a last question of type Q&A, answered in a form. *)
Definition sample_questions_essay : list QuizQuestion.t :=
  [ QuizQuestion.mk "What bounces light back?" None
      ["Reflection"; "Refraction"] "Reflection" "Mirrors reflect light." MCQ;
    QuizQuestion.mk "Which colour bends most in a prism?" None
      [] "Violet" "Violet light is refracted most." QandA ].

Definition sample_state_essay : AppState :=
  setQuestions sample_questions_essay sample_state_quiz.

(** The state after the last answer, ["Violet"], given from [st]. *)
Definition sample_answered (st : AppState) : AppState :=
  default st
    (handleAnswer sample_keys sample_definitions st (Some "Violet")
                  sample_quiz_env st).

(** The same quiz left unanswered at the last question (the timer ran
    out). *)
Definition sample_timed_out : option AppState :=
  handleAnswer sample_keys sample_definitions sample_state_quiz None
               sample_quiz_env sample_state_quiz.

(** [ada] asks the virtual lab for a volcano; the lab answers with one
    step, and the request for its picture fails. *)
Definition sample_state_lab : AppState :=
  mkAppState
    (mkUserManagement [sample_user] (Some "id-ada"))
    VIRTUAL_LAB_INPUT
    (mkSelections None None 30)
    (mkDataLoading false EmptyString None [] [] "volcano")
    (mkQuizState 0 [] 0 0)
    (mkNewFeatures [] None None)
    (mkAuthState EmptyString EmptyString EmptyString)
    (mkGamification [] [] [] false).

Definition sample_lab_step : VirtualLabStep.t :=
  VirtualLabStep.mk "Mix" "Add vinegar to baking soda." "a foaming volcano" None.

Definition sample_done_env : DoneEnv := mkDoneEnv sample_stamp sample_today.

Definition sample_lab_image_fails : AppState :=
  handleGenerateVirtualLab sample_state_lab (Resolved [sample_lab_step])
    (fun _ => Rejected (ErrorObject "quota exceeded")) sample_done_env
    sample_state_lab.

(** [ada] asks for notes on light and the request fails. *)
Definition sample_state_topic : AppState :=
  mkAppState
    (mkUserManagement [sample_user] (Some "id-ada"))
    TOPIC_SELECTION
    (mkSelections (Some G8) (Some "Light") 30)
    (mkDataLoading false EmptyString None [] [] EmptyString)
    (mkQuizState 0 [] 0 0)
    (mkNewFeatures [] None None)
    (mkAuthState EmptyString EmptyString EmptyString)
    (mkGamification [] [] [] false).

(** A quiz whose question list came back empty, when its timer runs out. *)
Definition sample_state_empty_quiz : AppState :=
  mkAppState
    (mkUserManagement [sample_user] (Some "id-ada"))
    QUIZ_IN_PROGRESS
    (mkSelections (Some G8) (Some "Light") 30)
    (mkDataLoading false EmptyString None [] [] EmptyString)
    (mkQuizState 0 [] 0 0)
    (mkNewFeatures [] None None)
    (mkAuthState EmptyString EmptyString EmptyString)
    (mkGamification [] [] [] false).

(** [ada] at the first question of the same quiz, nothing answered yet. *)
Definition sample_state_quiz_start : AppState :=
  setCurrentQuestionIndex 0 (setUserAnswers [Null; Null] sample_state_quiz).

(** Nothing generated yet. *)
Definition sample_more : MoreContent :=
  mkMoreContent None None EmptyString [] [] None EmptyString.

(** [ada] on the chapter list, in quiz mode. *)
Definition sample_component : Component :=
  mkComponent sample_state_topic (Some AppMode.quiz) None 0 EmptyString [] []
              None sample_more.

(** The component showing the registration form filled in by [grace]. *)
Definition sample_component_form : Component :=
  mkComponent sample_state_form None None 10 EmptyString [] [] None
              sample_more.

(** [ada] on her profile page, second on the board behind [bob]. *)
Definition sample_component_profile : Component :=
  mkComponent (setGameState EDIT_PROFILE_PICTURE sample_state_ada_on_board)
              (Some AppMode.profile) None 10 EmptyString [] []
              (Some "data:image/png;base64,AAAA") sample_more.

(** [ada] on the form of the story weaver, with the prompt typed. *)
Definition sample_component_story : Component :=
  mkComponent (setGameState AI_STORY_WEAVER_INPUT sample_state_lab)
              (Some AppMode.ai_story_weaver) None 10 EmptyString [] [] None
              sample_more.

(** [ada] on the chapter list in notes mode; the chapter chosen before is
    still stored. *)
Definition sample_component_notes : Component :=
  mkComponent sample_state_topic (Some AppMode.notes) None 10 EmptyString [] []
              None sample_more.

Definition sample_apis : TopicApis :=
  mkTopicApis (Resolved []) (fun _ => "idea") 
              (Resolved [NoteSection.mk "Sound" ["Sound is a wave."]])
              (Resolved "text") (Resolved []) (fun _ => Resolved "image").

(** * Theorems *)

(** ** JavaScript helpers *)

Lemma truthy_true (s : string) : JS.truthy s = true ↔ s ≠ EmptyString.
Proof.
  unfold JS.truthy. rewrite negb_true_iff, String.eqb_neq. reflexivity.
Qed.

Lemma truthy_false (s : string) : JS.truthy s = false ↔ s = EmptyString.
Proof.
  unfold JS.truthy. rewrite negb_false_iff, String.eqb_eq. reflexivity.
Qed.

Lemma findIndex_Some {A} (p : A -> bool) (l : list A) (i : nat) :
  JS.findIndex p l = Some i ->
  ∃ x, l !! i = Some x ∧ p x = true.
Proof.
  revert i. induction l as [|y l IH]; intros i; simpl; [discriminate|].
  destruct (p y) eqn:Hy.
  - intros [= <-]. exists y. split; [reflexivity | exact Hy].
  - destruct (JS.findIndex p l) as [j|]; simpl; [|discriminate].
    intros [= <-]. destruct (IH j eq_refl) as (x & Hx & Hp).
    exists x. split; assumption.
Qed.

Lemma findIndex_None {A} (p : A -> bool) (l : list A) :
  JS.findIndex p l = None -> ∀ x, x ∈ l -> p x = false.
Proof.
  induction l as [|y l IH]; simpl; intros H x Hx.
  - inversion Hx.
  - destruct (p y) eqn:Hy; [discriminate|].
    destruct (JS.findIndex p l); [discriminate|].
    apply elem_of_cons in Hx as [->|Hx]; [exact Hy | apply IH; [reflexivity | exact Hx]].
Qed.

(** ** Leaderboard *)

Module LeaderboardFacts.
Import LeaderboardEntry Leaderboard.

Lemma insert_desc_perm (x : t) (l : list t) : insert_desc x l ≡ₚ x :: l.
Proof.
  induction l as [|y l IH]; simpl; [reflexivity|].
  destruct (score y <=? score x); [reflexivity|].
  rewrite IH. apply Permutation_swap.
Qed.

Lemma sort_desc_perm (l : list t) : sort_desc l ≡ₚ l.
Proof.
  induction l as [|x l IH]; simpl; [reflexivity|].
  rewrite insert_desc_perm, IH. reflexivity.
Qed.

Lemma insert_desc_descending (x : t) (l : list t) :
  descending l -> descending (insert_desc x l).
Proof.
  unfold descending. induction l as [|y l IH]; intros Hl; simpl.
  - repeat constructor.
  - apply StronglySorted_inv in Hl as [Hl Hy].
    destruct (score y <=? score x) eqn:Hc.
    + apply Z.leb_le in Hc. constructor.
      * constructor; assumption.
      * constructor; [exact Hc|].
        rewrite Forall_forall in Hy |- *. intros z Hz.
        specialize (Hy z Hz). simpl in Hy. lia.
    + apply Z.leb_gt in Hc. constructor; [apply IH; exact Hl|].
      rewrite Forall_forall in Hy |- *. intros z Hz.
      rewrite insert_desc_perm in Hz.
      apply elem_of_cons in Hz as [->|Hz]; [lia | apply Hy; exact Hz].
Qed.

Lemma sort_desc_descending (l : list t) : descending (sort_desc l).
Proof.
  induction l as [|x l IH]; simpl.
  - constructor.
  - apply insert_desc_descending, IH.
Qed.

Lemma take_descending (n : nat) (l : list t) : descending l -> descending (take n l).
Proof.
  unfold descending. intros Hl.
  rewrite <- (take_drop n l) in Hl.
  eapply StronglySorted_app_1_l, Hl.
Qed.

Lemma top20_survives (x : t) (l : list t) :
  x ∈ l -> survives x (take 20 (sort_desc l)).
Proof.
  intros Hx. rewrite <- (sort_desc_perm l) in Hx.
  pose proof (sort_desc_descending l) as Hs.
  set (s := sort_desc l) in *.
  rewrite <- (take_drop 20 s) in Hx, Hs.
  apply elem_of_app in Hx as [Hx|Hx]; [left; exact Hx|right].
  split.
  - apply length_take_le.
    apply list_elem_of_lookup in Hx as [i Hi].
    apply lookup_lt_Some in Hi. rewrite length_drop in Hi. lia.
  - intros y Hy.
    apply (StronglySorted_app_1_elem_of _ _ _ _ _ Hs Hy Hx).
Qed.

Lemma top20_short (x : t) (l : list t) :
  (length l <= 20)%nat -> x ∈ l -> x ∈ take 20 (sort_desc l).
Proof.
  intros Hlen Hx. rewrite take_ge.
  - rewrite sort_desc_perm. exact Hx.
  - rewrite (Permutation_length (sort_desc_perm l)). exact Hlen.
Qed.

Lemma top20_from (y : t) (l : list t) : y ∈ take 20 (sort_desc l) -> y ∈ l.
Proof.
  intros Hy. apply subseteq_take in Hy. rewrite sort_desc_perm in Hy. exact Hy.
Qed.

End LeaderboardFacts.

Lemma leaderboard_setLeaderboard (v : list LeaderboardEntry.t) (st : AppState) :
  leaderboard (setLeaderboard v st) = v.
Proof. reflexivity. Qed.

Section LeaderboardUpdate.
Import LeaderboardEntry Leaderboard LeaderboardFacts.

Variables (st : AppState) (username : string) (pointsToAdd : Z)
          (pic : option string).

Let prev := leaderboard st.
Let board := board_after st username pointsToAdd pic.

Lemma board_after_found (i : nat) :
  board_index username prev = Some i ->
  board = take 20 (sort_desc (alter (bump pointsToAdd pic) i prev)).
Proof.
  intros H. unfold board, board_after, updateLeaderboard, updater.
  fold prev. unfold board_index in H. rewrite H. reflexivity.
Qed.

Lemma board_after_pushed (cu : User.t) :
  board_index username prev = None -> currentUser st = Some cu ->
  board = take 20 (sort_desc (prev ++ [fresh cu username pointsToAdd pic])).
Proof.
  intros H Hcu. unfold board, board_after, updateLeaderboard, updater.
  fold prev. unfold board_index in H. rewrite H, Hcu. reflexivity.
Qed.

Lemma board_after_nobody :
  board_index username prev = None -> currentUser st = None ->
  board = take 20 (sort_desc prev).
Proof.
  intros H Hcu. unfold board, board_after, updateLeaderboard, updater.
  fold prev. unfold board_index in H. rewrite H, Hcu. reflexivity.
Qed.

Lemma board_after_descending : descending board.
Proof.
  unfold board, board_after, updateLeaderboard, updater.
  rewrite leaderboard_setLeaderboard.
  destruct (JS.findIndex _ _); [|destruct (currentUser st)];
    apply take_descending, sort_desc_descending.
Qed.

Lemma board_after_length : (length board <= 20)%nat.
Proof.
  unfold board, board_after, updateLeaderboard, updater.
  rewrite leaderboard_setLeaderboard.
  destruct (JS.findIndex _ _); [|destruct (currentUser st)]; simpl;
    rewrite length_take; lia.
Qed.

End LeaderboardUpdate.

(** C1, amended: after every [updateLeaderboard] the board is sorted in
    descending order of score and has at most 20 entries.  The entry of the
    named user (the old one with the points added, or a fresh one with
    exactly the points when the user was absent and someone is logged in)
    is on the new board unless the cut to 20 removed it, which happens only
    when the board consists of 20 entries that rank at least as high; an
    entry that was on a board of at most 20 is never cut.  Where usernames
    on the board are distinct, that entry is the only one the new board has
    for the user. *)
Theorem updateLeaderboard_sorted_top20 (st : AppState) (username : string)
    (pointsToAdd : Z) (pic : option string) :
  let board := board_after st username pointsToAdd pic in
  Leaderboard.descending board ∧
  (length board <= 20)%nat ∧
  (∀ i e, entry_before st username i e ->
     let e' := Leaderboard.bump pointsToAdd pic e in
     LeaderboardEntry.score e' = LeaderboardEntry.score e + pointsToAdd ∧
     Leaderboard.survives e' board ∧
     ((length (leaderboard st) <= 20)%nat -> e' ∈ board) ∧
     (NoDup (map LeaderboardEntry.username (leaderboard st)) ->
      ∀ y, y ∈ board -> LeaderboardEntry.username y = username -> y = e')) ∧
  (∀ cu, board_index username (leaderboard st) = None ->
     currentUser st = Some cu ->
     let e' := Leaderboard.fresh cu username pointsToAdd pic in
     LeaderboardEntry.score e' = pointsToAdd ∧
     Leaderboard.survives e' board ∧
     ((length (leaderboard st) < 20)%nat -> e' ∈ board) ∧
     (∀ y, y ∈ board -> LeaderboardEntry.username y = username -> y = e')) ∧
  (board_index username (leaderboard st) = None ->
     currentUser st = None ->
     ∀ y, y ∈ board -> LeaderboardEntry.username y ≠ username).
Proof.
  intros board.
  split; [apply board_after_descending|].
  split; [apply board_after_length|].
  split; [|split].
  - intros i e [Hi He] e'. split; [reflexivity|].
    assert (Hin : e' ∈ alter (Leaderboard.bump pointsToAdd pic) i (leaderboard st)).
    { apply list_elem_of_lookup. exists i.
      rewrite list_lookup_alter_eq, He. reflexivity. }
    unfold board. rewrite (board_after_found _ _ _ _ i Hi).
    split; [apply LeaderboardFacts.top20_survives, Hin|].
    split.
    + intros Hlen. apply LeaderboardFacts.top20_short; [|exact Hin].
      rewrite length_alter. exact Hlen.
    + intros Hnd y Hy Hname.
      apply LeaderboardFacts.top20_from, list_elem_of_lookup in Hy as [j Hj].
      destruct (decide (i = j)) as [<-|Hne].
      * rewrite list_lookup_alter_eq, He in Hj. simpl in Hj.
        injection Hj as <-. reflexivity.
      * rewrite list_lookup_alter_ne in Hj by exact Hne.
        exfalso. apply Hne.
        destruct (findIndex_Some _ _ _ Hi) as (x & Hx & Hp).
        rewrite He in Hx. injection Hx as <-. apply String.eqb_eq in Hp.
        apply (NoDup_lookup _ i j username Hnd).
        -- change (map LeaderboardEntry.username (leaderboard st))
             with (LeaderboardEntry.username <$> leaderboard st).
           rewrite list_lookup_fmap, He. simpl. congruence.
        -- change (map LeaderboardEntry.username (leaderboard st))
             with (LeaderboardEntry.username <$> leaderboard st).
           rewrite list_lookup_fmap, Hj. simpl. congruence.
  - intros cu Hnone Hcu e'. split; [reflexivity|].
    assert (Hin : e' ∈ leaderboard st ++ [e']).
    { apply elem_of_app. right. apply list_elem_of_singleton. reflexivity. }
    unfold board. rewrite (board_after_pushed _ _ _ _ cu Hnone Hcu). fold e'.
    split; [apply LeaderboardFacts.top20_survives, Hin|].
    split.
    + intros Hlen. apply LeaderboardFacts.top20_short; [|exact Hin].
      rewrite length_app. simpl. lia.
    + intros y Hy Hname.
      apply LeaderboardFacts.top20_from, elem_of_app in Hy as [Hy|Hy].
      * pose proof (findIndex_None _ _ Hnone y Hy) as Hp. simpl in Hp.
        apply String.eqb_neq in Hp. contradiction.
      * apply list_elem_of_singleton in Hy. exact Hy.
  - intros Hnone Hcu y Hy.
    unfold board in Hy. rewrite (board_after_nobody _ _ _ _ Hnone Hcu) in Hy.
    apply LeaderboardFacts.top20_from in Hy.
    pose proof (findIndex_None _ _ Hnone y Hy) as Hp. simpl in Hp.
    apply String.eqb_neq in Hp. exact Hp.
Qed.

(** C1 at a concrete board: three points take [ada] from 5 to 8, past
    [bob]. *)
Lemma updateLeaderboard_sorted_top20_witness :
  let board := board_after sample_state_ada_on_board "ada" 3 None in
  Leaderboard.descending board ∧ (length board <= 20)%nat ∧
  LeaderboardEntry.mk "id-ada" "ada" 8 None ∈ board.
Proof.
  destruct (updateLeaderboard_sorted_top20 sample_state_ada_on_board "ada" 3 None)
    as (Hsorted & Hlen & Hfound & _).
  split; [exact Hsorted|]. split; [exact Hlen|].
  destruct (Hfound 1%nat (LeaderboardEntry.mk "id-ada" "ada" 5 None))
    as (_ & _ & Hin & _).
  - split; reflexivity.
  - apply Hin. simpl. lia.
Defined.

(** C1 as stated fails: [ada] is logged in and not on a board of twenty
    players with 10 points each; her update with 1 point leaves no entry
    for her on the board. *)
Lemma updateLeaderboard_newcomer_cut :
  currentUser sample_state_full_board = Some sample_user ∧
  board_index "ada" (leaderboard sample_state_full_board) = None ∧
  ¬ ∃ e, e ∈ board_after sample_state_full_board "ada" 1 None ∧
         LeaderboardEntry.username e = "ada".
Proof.
  split; [reflexivity|]. split; [reflexivity|].
  intros (e & He & Hname).
  assert (Hall : Forall (fun e => LeaderboardEntry.username e ≠ "ada")
                        (board_after sample_state_full_board "ada" 1 None)).
  { apply (bool_decide_unpack _). vm_compute. exact I. }
  rewrite Forall_forall in Hall. exact (Hall e He Hname).
Qed.

(** ** Activity log *)

Lemma activityLog_setActivityLog (v : list ActivityLog.t) (st : AppState) :
  activityLog (setActivityLog v st) = v.
Proof. reflexivity. Qed.

(** C2: fired under a logged-in user, [addLogEntry] puts the new entry at the
    front of the log and keeps at most 50 entries; the 49 entries kept
    behind it are the most recent ones of the one shared log, whoever wrote
    them.  With no user logged in the state is unchanged. *)
Theorem addLogEntry_front_cap50 (r st : AppState) (s : Stamp) (type : string)
    (details : list (string * DetailValue)) :
  let st' := addLogEntry r s type details st in
  (∀ cu, currentUser r = Some cu ->
     activityLog st' =
       ActivityLog.mk (stamp_id s) (User.id cu) (User.username cu)
                      (stamp_time s) type details
         :: take 49 (activityLog st) ∧
     length (activityLog st') = Nat.min 50 (S (length (activityLog st))) ∧
     (length (activityLog st') <= 50)%nat) ∧
  (currentUser r = None -> st' = st).
Proof.
  intros st'. subst st'. unfold addLogEntry. split.
  - intros cu ->. rewrite activityLog_setActivityLog.
    split; [reflexivity|]. cbn [length]. rewrite length_take.
    split; [|apply le_n_S, Nat.le_min_l].
    rewrite <- Nat.succ_min_distr. reflexivity.
  - intros ->. reflexivity.
Qed.

(** C2 at a concrete log: fifty entries of [bob] are there when [ada] logs
    an event; hers comes first, fifty entries remain, and [bob]'s oldest
    one is gone. *)
Lemma addLogEntry_front_cap50_witness :
  let st' := addLogEntry sample_state_full_log sample_stamp "NOTES_GENERATED" []
                         sample_state_full_log in
  head (activityLog st') =
    Some (ActivityLog.mk "log-new" "id-ada" "ada" "2024-05-02T09:30:00.000Z"
                         "NOTES_GENERATED" []) ∧
  length (activityLog st') = 50%nat ∧
  ActivityLog.id (sample_log_entry 49) ∉ map ActivityLog.id (activityLog st').
Proof.
  destruct (addLogEntry_front_cap50 sample_state_full_log sample_state_full_log
              sample_stamp "NOTES_GENERATED" []) as [Hin _].
  destruct (Hin sample_user eq_refl) as (Heq & Hlen & _).
  split; [rewrite Heq; reflexivity|].
  split; [rewrite Hlen; reflexivity|].
  rewrite Heq. apply (bool_decide_unpack _). vm_compute. exact I.
Defined.

(** ** Stats of the logged-in user *)

Lemma users_setUsers (v : list User.t) (st : AppState) : users (setUsers v st) = v.
Proof. reflexivity. Qed.

Lemma currentUserId_setUsers (v : list User.t) (st : AppState) :
  currentUserId (setUsers v st) = currentUserId st.
Proof. reflexivity. Qed.

(** The list [updateUserStats] writes. *)
Lemma updateUserStats_logged_in (r st : AppState) (cid : string)
    (updateFn : UserStats.t -> UserStats.t) :
  currentUserId r = Some cid -> cid ≠ EmptyString ->
  updateUserStats r updateFn st =
    setUsers
      (map (fun user => if String.eqb (User.id user) cid
                        then with_stats updateFn user else user)
           (users st))
      st.
Proof.
  intros Hcid Hne. unfold updateUserStats. rewrite Hcid.
  apply truthy_true in Hne. rewrite Hne. reflexivity.
Qed.

(** Looking up a user by id after a stats update: the user found is the one
    found before, with the stats updated. *)
Lemma find_after_stats_update (cid : string) (updateFn : UserStats.t -> UserStats.t)
    (us : list User.t) :
  List.find (fun u => String.eqb (User.id u) cid)
    (map (fun user => if String.eqb (User.id user) cid
                      then with_stats updateFn user else user) us)
  = option_map (with_stats updateFn)
      (List.find (fun u => String.eqb (User.id u) cid) us).
Proof.
  induction us as [|u us IH]; simpl; [reflexivity|].
  destruct (String.eqb (User.id u) cid) eqn:Hu; simpl; rewrite Hu.
  - reflexivity.
  - exact IH.
Qed.

Lemma or_zero_id (n : Z) : or_zero n = n.
Proof. unfold or_zero. destruct (Z.eqb_spec n 0); congruence. Qed.

Lemma or_else_empty (s : string) : JS.or_else (Some s) EmptyString = s.
Proof.
  unfold JS.or_else. destruct (JS.truthy s) eqn:H; [reflexivity|].
  apply truthy_false in H. congruence.
Qed.

(** ** Daily streak *)

(** The streak, given the two date strings the handler computed: for an
    activity completed by a logged-in user, if the stored
    [lastActivityDate] is today's string nothing changes; otherwise the users
    with the logged-in id get [lastActivityDate] set to today and
    [currentStreak] set to the previous streak plus one when the stored date
    is the string computed for yesterday, to 1 in every other case, and
    every other stats field,
    every other user field and every other part of the state stays as it
    was. *)
Lemma handleActivityCompletion_streak (st : AppState) (d : Today)
    (cu : User.t) :
  logged_in st cu ->
  let st' := handleActivityCompletion st d st in
  let stats := User.stats cu in
  let last := UserStats.lastActivityDate stats in
  (last = todayStr d -> st' = st) ∧
  (last ≠ todayStr d ->
     let newStreak :=
       if decide (last = yesterdayStr d)
       then UserStats.currentStreak stats + 1 else 1 in
     let stats' :=
       UserStats.mk
         (UserStats.quizzesCompleted stats) (UserStats.quizzesAttempted stats)
         (UserStats.topicsMastered stats) (UserStats.totalScorePoints stats)
         (UserStats.totalQuestionsAnswered stats)
         (UserStats.timeSpentLearningInSeconds stats)
         (UserStats.topicPerformance stats) (UserStats.badges stats)
         newStreak (todayStr d) in
     currentUser st' =
       Some (User.mk (User.id cu) (User.username cu) (User.password cu)
                     (User.isAdmin cu) (User.profilePictureUrl cu) stats') ∧
     st' = setUsers (users st') st ∧
     length (users st') = length (users st) ∧
     ∀ i u, users st !! i = Some u -> User.id u ≠ User.id cu ->
            users st' !! i = Some u).
Proof.
  intros (cid & Hcid & Hne & Hcu) st' stats last.
  assert (Hid : User.id cu = cid).
  { unfold currentUser in Hcu. rewrite Hcid in Hcu.
    apply find_some in Hcu as [_ Hcu]. apply String.eqb_eq in Hcu. exact Hcu. }
  subst st'. unfold handleActivityCompletion. rewrite Hcu, or_else_empty.
  fold stats last. split.
  - intros ->. rewrite String.eqb_refl. reflexivity.
  - intros Hlast. cbv zeta.
    destruct (String.eqb_spec (todayStr d) last) as [Heq|_];
      [symmetry in Heq; contradiction|].
    rewrite or_zero_id.
    assert (Hstreak :
      (if String.eqb last (yesterdayStr d)
       then UserStats.currentStreak stats + 1 else 1)
      = (if decide (last = yesterdayStr d)
         then UserStats.currentStreak stats + 1 else 1)).
    { destruct (String.eqb_spec last (yesterdayStr d));
        destruct (decide (last = yesterdayStr d)); congruence. }
    rewrite Hstreak.
    rewrite (updateUserStats_logged_in st st cid _ Hcid Hne).
    split; [|split; [|split]].
    + unfold currentUser. rewrite currentUserId_setUsers, Hcid, users_setUsers.
      rewrite find_after_stats_update.
      unfold currentUser in Hcu. rewrite Hcid in Hcu. rewrite Hcu. reflexivity.
    + rewrite users_setUsers. reflexivity.
    + rewrite users_setUsers, length_map. reflexivity.
    + intros i u Hi Hu. rewrite users_setUsers.
      change (map ?f ?l) with (f <$> l). rewrite list_lookup_fmap, Hi. simpl.
      destruct (String.eqb_spec (User.id u) cid); [congruence|reflexivity].
Qed.

(** At a concrete user: [ada] was last active on the day computed for
    yesterday, with a streak of 4; completing an activity today makes it 5
    and touches nothing else. *)
Lemma handleActivityCompletion_streak_witness :
  currentUser (handleActivityCompletion sample_state_streak sample_today
                                        sample_state_streak) =
    Some (User.mk "id-ada" "ada" "secret" false None
                  (UserStats.mk 3 4 [] 21 30 0 ∅ [] 5 "2024-05-02")).
Proof.
  assert (Hin : logged_in sample_state_streak
                  (User.mk "id-ada" "ada" "secret" false None
                     (UserStats.mk 3 4 [] 21 30 0 ∅ [] 4 "2024-05-01"))).
  { exists "id-ada". split; [reflexivity|]. split; [discriminate|reflexivity]. }
  destruct (handleActivityCompletion_streak sample_state_streak sample_today _ Hin)
    as [_ Hnew].
  destruct Hnew as (Hcu & _); [discriminate|].
  exact Hcu.
Defined.

(** C6 fails on the day after the clocks go back.  In Central European
    time, at 2024-10-28T10:00Z, today's string is 2024-10-28.  Its UTC
    midnight is 01:00 local time on the 28th; the local day of the month
    lowered by one gives 01:00 on the 27th, which is still summer time and
    so 23:00Z on the 26th: the string computed for yesterday is
    2024-10-26.  [ada], last active on 2024-10-27 with a streak of 4, is
    set back to a streak of 1.  With a host on UTC the same instant gives
    2024-10-27 and a streak of 5. *)
Theorem handleActivityCompletion_after_clock_change :
  let streaks (st : AppState) :=
    map (fun u => (UserStats.currentStreak (User.stats u),
                   UserStats.lastActivityDate (User.stats u))) (users st) in
  let berlin := Today_of (mkClock sample_now sample_zone_berlin) in
  let utc := Today_of (mkClock sample_now sample_zone_utc) in
  let st := sample_state_streak_october in
  streaks st = [(4, "2024-10-27")] ∧
  JSDate.isoDate sample_now = "2024-10-28" ∧
  JSDate.isoDate (sample_now - JSDate.msPerDay) = "2024-10-27" ∧
  berlin = mkToday "2024-10-28" "2024-10-26" ∧
  streaks (handleActivityCompletion st berlin st) = [(1, "2024-10-28")] ∧
  utc = mkToday "2024-10-28" "2024-10-27" ∧
  streaks (handleActivityCompletion st utc st) = [(5, "2024-10-28")].
Proof. vm_compute. repeat split. Qed.

(** ** Registration *)

Lemma existsb_username_false (name : string) (us : list User.t) :
  existsb (fun u => String.eqb (User.username u) name) us = false ↔
  ∀ u, u ∈ us -> User.username u ≠ name.
Proof.
  split.
  - intros H u Hu Hname.
    assert (Hex : existsb (fun u => String.eqb (User.username u) name) us = true).
    { apply existsb_exists. exists u. split.
      - apply list_elem_of_In, Hu.
      - apply String.eqb_eq, Hname. }
    congruence.
  - intros H. apply not_true_is_false. intros Hex.
    apply existsb_exists in Hex as (u & Hu & Hname).
    apply String.eqb_eq in Hname. apply list_elem_of_In in Hu.
    exact (H u Hu Hname).
Qed.

(** The writes of [addLogEntry] stay inside the activity log. *)
Lemma users_addLogEntry (r st : AppState) (s : Stamp) (type : string)
    (details : list (string * DetailValue)) :
  users (addLogEntry r s type details st) = users st.
Proof. unfold addLogEntry. destruct (currentUser r); reflexivity. Qed.

Lemma currentUserId_addLogEntry (r st : AppState) (s : Stamp) (type : string)
    (details : list (string * DetailValue)) :
  currentUserId (addLogEntry r s type details st) = currentUserId st.
Proof. unfold addLogEntry. destruct (currentUser r); reflexivity. Qed.

Lemma gameState_addLogEntry (r st : AppState) (s : Stamp) (type : string)
    (details : list (string * DetailValue)) :
  gameState (addLogEntry r s type details st) = gameState st.
Proof. unfold addLogEntry. destruct (currentUser r); reflexivity. Qed.

Lemma find_id_fresh (newId : string) (us : list User.t) (newUser : User.t) :
  User.id newUser = newId -> newId ∉ map User.id us ->
  List.find (fun u => String.eqb (User.id u) newId) (us ++ [newUser]) = Some newUser.
Proof.
  intros Hid Hfresh. induction us as [|u us IH]; simpl.
  - rewrite Hid, String.eqb_refl. reflexivity.
  - simpl in Hfresh. apply not_elem_of_cons in Hfresh as [Hu Hus].
    destruct (String.eqb_spec (User.id u) newId); [congruence|].
    apply IH, Hus.
Qed.

(** C8: a registration with a non-empty username that no stored user holds
    and a non-empty password appends exactly one user record, carrying the
    submitted username and password, [isAdmin] false, and stats that start
    at zero quizzes completed and attempted, zero score points, zero
    questions answered, empty topic performance, no badges, streak 0 and an
    empty last-activity date; the current-user id becomes the id of that
    record, so that the new user is the current user whenever the id handed
    out is not the id of a stored user. *)
Theorem handleRegister_creates_user (st : AppState) (newId : string) (s : Stamp) :
  usernameInput st ≠ EmptyString ->
  passwordInput st ≠ EmptyString ->
  (∀ u, u ∈ users st -> User.username u ≠ usernameInput st) ->
  let st' := handleRegister st newId s st in
  let newUser := registered_user st newId in
  users st' = users st ++ [newUser] ∧
  User.username newUser = usernameInput st ∧
  User.password newUser = passwordInput st ∧
  User.isAdmin newUser = false ∧
  User.stats newUser =
    UserStats.mk 0 0 [] 0 0 0 ∅ [] 0 EmptyString ∧
  currentUserId st' = Some (User.id newUser) ∧
  (newId ∉ map User.id (users st) -> currentUser st' = Some newUser).
Proof.
  intros Hname Hpass Hnew st' newUser.
  assert (Hst' : st' =
    addLogEntry st s "USER_REGISTERED" []
      (setPasswordInput EmptyString
         (setUsernameInput EmptyString
            (setGameState HOME_SCREEN
               (setCurrentUserId (Some newId)
                  (setUsers (users st ++ [newUser])
                     (setAuthError EmptyString st))))))).
  { subst st'. unfold handleRegister.
    apply existsb_username_false in Hnew. rewrite Hnew.
    apply truthy_true in Hname, Hpass. rewrite Hname, Hpass. reflexivity. }
  repeat split.
  - rewrite Hst', users_addLogEntry. reflexivity.
  - rewrite Hst', currentUserId_addLogEntry. reflexivity.
  - intros Hfresh. unfold currentUser.
    rewrite Hst', currentUserId_addLogEntry, users_addLogEntry. simpl.
    change (um_users (userManagement st)) with (users st).
    apply find_id_fresh; [reflexivity | exact Hfresh].
Qed.

(** C8 at a concrete form: [grace] registers next to [ada]. *)
Lemma handleRegister_creates_user_witness :
  let st' := handleRegister sample_state_form "id-grace" sample_stamp
                            sample_state_form in
  users st' =
    [ sample_user;
      User.mk "id-grace" "grace" "hopper" false None
              (UserStats.mk 0 0 [] 0 0 0 ∅ [] 0 EmptyString) ] ∧
  currentUser st' =
    Some (User.mk "id-grace" "grace" "hopper" false None
                  (UserStats.mk 0 0 [] 0 0 0 ∅ [] 0 EmptyString)).
Proof.
  assert (Hnew : ∀ u, u ∈ users sample_state_form ->
                      User.username u ≠ usernameInput sample_state_form).
  { intros u Hu. apply list_elem_of_singleton in Hu. subst u. discriminate. }
  destruct (handleRegister_creates_user sample_state_form "id-grace" sample_stamp
              ltac:(discriminate) ltac:(discriminate) Hnew)
    as (Husers & _ & _ & _ & _ & _ & Hcu).
  split; [exact Husers|].
  apply Hcu. simpl. intros Hin. apply list_elem_of_singleton in Hin. discriminate.
Defined.

(** The user list after a registration attempt: the old list, or the old
    list with the new record at its end. *)
Lemma handleRegister_users (st : AppState) (newId : string) (s : Stamp) :
  users (handleRegister st newId s st) = users st ∨
  users (handleRegister st newId s st) = users st ++ [registered_user st newId].
Proof.
  unfold handleRegister.
  destruct (existsb _ (users st)); [left; reflexivity|].
  destruct (negb (JS.truthy (usernameInput st)) || negb (JS.truthy (passwordInput st)));
    [left; reflexivity|].
  right. rewrite users_addLogEntry. reflexivity.
Qed.

(** C9: a registration with an empty username, an empty password or a
    username that a stored user holds leaves the user list and the
    current-user id as they are and sets a non-empty authentication error;
    nothing but the error message changes.  In every case the user list
    afterwards is the old list, or the old list with the one complete
    record appended. *)
Theorem handleRegister_rejects (st : AppState) (newId : string) (s : Stamp) :
  let st' := handleRegister st newId s st in
  ((usernameInput st = EmptyString ∨ passwordInput st = EmptyString ∨
    ∃ u, u ∈ users st ∧ User.username u = usernameInput st) ->
   users st' = users st ∧
   currentUserId st' = currentUserId st ∧
   authError st' ≠ EmptyString ∧
   st' = setAuthError (authError st') st) ∧
  (users st' = users st ∨ users st' = users st ++ [registered_user st newId]).
Proof.
  intros st'. subst st'. unfold handleRegister.
  destruct (existsb _ (users st)) eqn:Hex.
  - split; [|left; reflexivity]. intros _. repeat split. discriminate.
  - destruct (JS.truthy (usernameInput st)) eqn:Hu;
      [destruct (JS.truthy (passwordInput st)) eqn:Hp|]; simpl.
    + split.
      * intros [H|[H|(u & Hin & Hname)]].
        -- apply truthy_true in Hu. contradiction.
        -- apply truthy_true in Hp. contradiction.
        -- exfalso. eapply existsb_username_false; eassumption.
      * right. rewrite users_addLogEntry. reflexivity.
    + split; [|left; reflexivity]. intros _. repeat split. discriminate.
    + split; [|left; reflexivity]. intros _. repeat split. discriminate.
Qed.

(** C9 at a concrete form: the name [ada] is taken. *)
Lemma handleRegister_rejects_witness :
  let st' := handleRegister sample_state_form_taken "id-2" sample_stamp
                            sample_state_form_taken in
  users st' = [sample_user] ∧ currentUserId st' = None ∧
  authError st' = "Username already exists.".
Proof.
  destruct (handleRegister_rejects sample_state_form_taken "id-2" sample_stamp)
    as [Hrej _].
  destruct Hrej as (Husers & Hid & _ & _).
  - right. right. exists sample_user. split; [|reflexivity].
    apply list_elem_of_singleton. reflexivity.
  - split; [exact Husers|]. split; [exact Hid|reflexivity].
Defined.

(** ** View router *)

(** C10 as stated fails: on the admin screen the router returns the admin
    panel to an administrator and nothing (after sending the user home) to
    anyone else, under one and the same screen value. *)
Lemma renderContent_admin_guard :
  gameState sample_state_admin_screen = ADMIN_PANEL ∧
  renderContent sample_admin sample_state_admin_screen
    = Some (show AdminPanelView) ∧
  renderContent sample_user sample_state_admin_screen = Some redirect_home ∧
  renderContent sample_admin sample_state_admin_screen
    ≠ renderContent sample_user sample_state_admin_screen.
Proof. repeat split. discriminate. Qed.

(** The quiz screen reads the question at the current index: with two
    questions and the index at 2 the render throws. *)
Example quiz_index_past_end_throws :
  let st := setCurrentQuestionIndex 2 sample_state_quiz in
  length (questions st) = 2%nat ∧
  renderContent sample_user st = None ∧ App_render st = RenderThrows.
Proof. repeat split. Qed.

(** C10, amended: the router is one switch over the screen value with
    four guarded cases.  [ADMIN_PANEL] returns the admin panel to an
    administrator and, to anyone else, nothing after sending the user
    home.  [QUIZ_IN_PROGRESS] returns the loader while the question list
    is empty and the question panel when the current index points at a
    question.  [HISTORICAL_CHAT_SESSION] and [SCIENCE_FAIR_BUDDY_PLAN]
    return their panel when a scientist, or a project idea, is selected,
    and nothing after sending the user home otherwise.  Two renders with
    the same screen value return the same result provided that on these
    four screens they agree on what the guard reads.  On every other
    screen the result depends on the screen value alone: it is a panel,
    no redirect, and two screens that have a case of their own never
    share their panel.  [LOGIN_SCREEN], [REAL_WORLD_CONNECTIONS_INPUT] and
    every number that is no member of the enum reach the default
    branch. *)
Theorem renderContent_dispatch (cu1 cu2 : User.t) (st1 st2 : AppState) :
  (gameState st1 = ADMIN_PANEL ->
   renderContent cu1 st1 =
     Some (if User.isAdmin cu1 then show AdminPanelView else redirect_home)) ∧
  (gameState st1 = QUIZ_IN_PROGRESS ->
   (questions st1 = [] -> renderContent cu1 st1 = Some (show QuizLoaderView)) ∧
   (is_Some (questions st1 !! currentQuestionIndex st1) ->
    renderContent cu1 st1 = Some (show QuizQuestionView))) ∧
  (gameState st1 = HISTORICAL_CHAT_SESSION ->
   renderContent cu1 st1 =
     Some (if selectedScientist st1 is Some _ then show HistoricalChatView
           else redirect_home)) ∧
  (gameState st1 = SCIENCE_FAIR_BUDDY_PLAN ->
   renderContent cu1 st1 =
     Some (if selectedProjectIdea st1 is Some _ then show ScienceFairPlanView
           else redirect_home)) ∧
  (gameState st1 = gameState st2 ->
   (gameState st1 = ADMIN_PANEL -> User.isAdmin cu1 = User.isAdmin cu2) ->
   (gameState st1 = QUIZ_IN_PROGRESS ->
      (questions st1 = [] ↔ questions st2 = []) ∧
      (is_Some (questions st1 !! currentQuestionIndex st1)
       ↔ is_Some (questions st2 !! currentQuestionIndex st2))) ->
   (gameState st1 = HISTORICAL_CHAT_SESSION ->
      (selectedScientist st1 = None ↔ selectedScientist st2 = None)) ->
   (gameState st1 = SCIENCE_FAIR_BUDDY_PLAN ->
      (selectedProjectIdea st1 = None ↔ selectedProjectIdea st2 = None)) ->
   renderContent cu1 st1 = renderContent cu2 st2) ∧
  (gameState st1 = gameState st2 -> guarded (gameState st1) = false ->
   renderContent cu1 st1 = renderContent cu2 st2 ∧
   ∃ panel, renderContent cu1 st1 = Some (show panel) ∧ panel ≠ NullView) ∧
  (guarded (gameState st1) = false -> caseless (gameState st1) = false ->
   guarded (gameState st2) = false -> caseless (gameState st2) = false ->
   renderContent cu1 st1 = renderContent cu2 st2 ->
   gameState st1 = gameState st2) ∧
  (caseless (gameState st1) = true ->
   renderContent cu1 st1 = Some (show UnknownGameStateView)) ∧
  (∀ v, (v < 0 ∨ 38 <= v) ->
        renderContent_raw cu1 v st1 = Some (show UnknownGameStateView)).
Proof.
  split; [|split; [|split; [|split; [|split; [|split; [|split; [|split]]]]]]].
  - intros Hgs. unfold renderContent. rewrite Hgs.
    destruct (User.isAdmin cu1); reflexivity.
  - intros Hgs. unfold renderContent, render_quiz. rewrite Hgs. split.
    + intros ->. reflexivity.
    + intros [q Hq]. rewrite Hq.
      destruct (questions st1); [discriminate Hq | reflexivity].
  - intros Hgs. unfold renderContent. rewrite Hgs.
    destruct (selectedScientist st1); reflexivity.
  - intros Hgs. unfold renderContent. rewrite Hgs.
    destruct (selectedProjectIdea st1); reflexivity.
  - intros Hgs Hadmin Hquiz Hchat Hplan. unfold renderContent.
    rewrite <- Hgs. destruct (gameState st1); try reflexivity.
    + destruct (Hquiz eq_refl) as [Hempty Hindex]. unfold render_quiz.
      destruct (questions st1) as [|q1 l1] eqn:H1,
               (questions st2) as [|q2 l2] eqn:H2.
      * reflexivity.
      * destruct Hempty as [Hempty _]. discriminate (Hempty eq_refl).
      * destruct Hempty as [_ Hempty]. discriminate (Hempty eq_refl).
      * cbn [length Nat.eqb].
        destruct ((q1 :: l1) !! currentQuestionIndex st1) as [c1|] eqn:E1,
                 ((q2 :: l2) !! currentQuestionIndex st2) as [c2|] eqn:E2;
          try reflexivity.
        -- destruct Hindex as [Hindex _].
           destruct (Hindex (mk_is_Some _ _ eq_refl)) as [x Hx]. discriminate.
        -- destruct Hindex as [_ Hindex].
           destruct (Hindex (mk_is_Some _ _ eq_refl)) as [x Hx]. discriminate.
    + rewrite (Hadmin eq_refl). reflexivity.
    + specialize (Hchat eq_refl).
      destruct (selectedScientist st1), (selectedScientist st2);
        try reflexivity.
      * destruct Hchat as [_ Hchat]. discriminate (Hchat eq_refl).
      * destruct Hchat as [Hchat _]. discriminate (Hchat eq_refl).
    + specialize (Hplan eq_refl).
      destruct (selectedProjectIdea st1), (selectedProjectIdea st2);
        try reflexivity.
      * destruct Hplan as [_ Hplan]. discriminate (Hplan eq_refl).
      * destruct Hplan as [Hplan _]. discriminate (Hplan eq_refl).
  - intros Hgs Hguard. unfold renderContent. rewrite <- Hgs.
    destruct (gameState st1); try discriminate Hguard;
      (split; [reflexivity|]); eexists; (split; [reflexivity | discriminate]).
  - intros Hg1 Hc1 Hg2 Hc2. unfold renderContent.
    destruct (gameState st1); try discriminate Hg1; try discriminate Hc1;
      destruct (gameState st2); try discriminate Hg2; try discriminate Hc2;
      intros Hsame; try reflexivity; discriminate Hsame.
  - unfold renderContent.
    destruct (gameState st1); intros Hc; try discriminate Hc; reflexivity.
  - intros v Hv. unfold renderContent_raw, GameState_of_Z.
    destruct (Z.ltb_spec v 0) as [|Hpos]; [reflexivity|].
    destruct Hv as [Hv|Hv]; [lia|].
    rewrite (lookup_ge_None_2 GameState_members (Z.to_nat v)); [reflexivity|].
    change (length GameState_members) with 38%nat. lia.
Qed.

(** C10 at concrete renders: the notes screen shows the notes view to
    [ada] and to an administrator alike; on the admin screen [ada] is sent
    home; the quiz screen shows [ada] the question at the index. *)
Lemma renderContent_dispatch_witness :
  renderContent sample_user (setGameState NOTES_DISPLAY sample_state)
    = renderContent sample_admin
        (setGameState NOTES_DISPLAY sample_state_full_log) ∧
  renderContent sample_user sample_state_admin_screen = Some redirect_home ∧
  renderContent sample_user sample_state_quiz = Some (show QuizQuestionView).
Proof.
  destruct (renderContent_dispatch sample_user sample_admin
              (setGameState NOTES_DISPLAY sample_state)
              (setGameState NOTES_DISPLAY sample_state_full_log))
    as (_ & _ & _ & _ & _ & Hplain & _).
  destruct (Hplain eq_refl eq_refl) as [Heq _].
  destruct (renderContent_dispatch sample_user sample_user
              sample_state_admin_screen sample_state_admin_screen)
    as (Hadmin & _).
  destruct (renderContent_dispatch sample_user sample_user
              sample_state_quiz sample_state_quiz)
    as (_ & Hquiz & _).
  destruct (Hquiz eq_refl) as [_ Hindex].
  split; [exact Heq|]. split; [exact (Hadmin eq_refl)|].
  apply Hindex. eexists. reflexivity.
Defined.

(** ** Badges *)

Section BadgeFacts.

Variable BADGE_KEYS : list BadgeType.
Variable BADGE_DEFINITIONS : BadgeType -> BadgeDefinition.t.

Lemma hasBadge_false (cu : User.t) (kind : BadgeType) :
  hasBadge cu kind = false ↔
  kind ∉ badge_ids (UserStats.badges (User.stats cu)).
Proof.
  unfold hasBadge, badge_ids.
  induction (UserStats.badges (User.stats cu)) as [|b bs IH]; simpl.
  - split; [intros _ H; inversion H | reflexivity].
  - rewrite orb_false_iff, IH, not_elem_of_cons, bool_decide_eq_false.
    split; intros [H1 H2]; (split; [congruence | exact H2]).
Qed.

Lemma earned_loop_elem (cu : User.t) (snapshot : UserStats.t) (quiz : QuizResult)
    (env : BadgeEnv) (keys : list BadgeType) (b : Badge.t) :
  b ∈ earned_loop BADGE_DEFINITIONS cu snapshot quiz env keys ↔
  ∃ kind, kind ∈ keys ∧ hasBadge cu kind = false ∧
          BadgeDefinition.criteria (BADGE_DEFINITIONS kind) snapshot quiz = true ∧
          b = badge_of BADGE_DEFINITIONS env kind.
Proof.
  induction keys as [|k keys IH]; simpl.
  - split; [intros H; inversion H | intros (kind & H & _); inversion H].
  - destruct (hasBadge cu k) eqn:Hk; simpl;
      [|destruct (BadgeDefinition.criteria _ snapshot quiz) eqn:Hc].
    + rewrite IH. split.
      * intros (kind & Hin & H). exists kind. split; [right; exact Hin | exact H].
      * intros (kind & Hin & Hh & H). exists kind.
        apply elem_of_cons in Hin as [->|Hin]; [congruence|].
        split; [exact Hin|]. split; [exact Hh | exact H].
    + rewrite elem_of_cons, IH. split.
      * intros [->|(kind & Hin & H)].
        -- exists k. split; [left; reflexivity|]. repeat split; assumption.
        -- exists kind. split; [right; exact Hin | exact H].
      * intros (kind & Hin & Hh & Hcr & ->).
        apply elem_of_cons in Hin as [->|Hin]; [left; reflexivity|].
        right. exists kind. repeat split; assumption.
    + rewrite IH. split.
      * intros (kind & Hin & H). exists kind. split; [right; exact Hin | exact H].
      * intros (kind & Hin & Hh & Hcr & H). exists kind.
        apply elem_of_cons in Hin as [->|Hin]; [congruence|].
        repeat split; assumption.
Qed.

(** The kinds earned are picked from the keys, in their order. *)
Lemma earned_loop_sublist (cu : User.t) (snapshot : UserStats.t) (quiz : QuizResult)
    (env : BadgeEnv) (keys : list BadgeType) :
  badge_ids (earned_loop BADGE_DEFINITIONS cu snapshot quiz env keys) `sublist_of` keys.
Proof.
  induction keys as [|k keys IH]; simpl; [constructor|].
  destruct (hasBadge cu k); simpl;
    [|destruct (BadgeDefinition.criteria _ snapshot quiz)]; simpl.
  - apply sublist_cons, IH.
  - apply sublist_skip, IH.
  - apply sublist_cons, IH.
Qed.

Lemma awardBadges_earned (r st : AppState) (score questionCount : Z)
    (topic : string) (env : BadgeEnv) (cu : User.t) :
  currentUser r = Some cu ->
  fst (awardBadges BADGE_KEYS BADGE_DEFINITIONS r score questionCount topic env st) =
    earned_loop BADGE_DEFINITIONS cu (updatedStats (User.stats cu) score questionCount topic)
                (mkQuizResult score questionCount topic) env BADGE_KEYS.
Proof.
  intros Hcu. unfold awardBadges. rewrite Hcu.
  destruct (0 <? length _)%nat; reflexivity.
Qed.

End BadgeFacts.

Lemma updatedStats_unfold (stats : UserStats.t) (score questionCount : Z)
    (topic : string) :
  updatedStats stats score questionCount topic =
    UserStats.mk
      (UserStats.quizzesCompleted stats + 1)
      (UserStats.quizzesAttempted stats + 1)
      (UserStats.topicsMastered stats)
      (UserStats.totalScorePoints stats)
      (UserStats.totalQuestionsAnswered stats)
      (UserStats.timeSpentLearningInSeconds stats)
      (<[topic :=
           TopicPerf.mk
             (from_option TopicPerf.correct 0
                (UserStats.topicPerformance stats !! topic) + score)
             (from_option TopicPerf.total 0
                (UserStats.topicPerformance stats !! topic) + questionCount)]>
         (UserStats.topicPerformance stats))
      (UserStats.badges stats)
      (UserStats.currentStreak stats)
      (UserStats.lastActivityDate stats).
Proof. unfold updatedStats. rewrite !or_zero_id. reflexivity. Qed.

Lemma BadgeType_enumerated (kind : BadgeType) :
  kind ∈ [QUIZ_NOVICE; QUIZ_ADEPT; QUIZ_MASTER; TOPIC_ACE; PERFECT_SCORE].
Proof. destruct kind; set_solver. Qed.

(** C4: with a user logged in, [awardBadges] returns a badge of a kind of
    the table exactly when the user does not hold that kind yet and the
    criterion of the kind holds on the snapshot made of the stored stats
    with [quizzesCompleted] and [quizzesAttempted] one higher and the
    topic's correct and total counts raised by the score and the question
    count (the criterion also receives the score, the question count and
    the topic).  Every badge returned is the one built for a kind of the
    table, and its id is one of the five members of [BadgeType].  With no
    user logged in nothing is returned. *)
Theorem awardBadges_exact (BADGE_KEYS : list BadgeType)
    (BADGE_DEFINITIONS : BadgeType -> BadgeDefinition.t)
    (r st : AppState) (score questionCount : Z) (topic : string) (env : BadgeEnv) :
  let earned :=
    fst (awardBadges BADGE_KEYS BADGE_DEFINITIONS r score questionCount topic env st) in
  (currentUser r = None -> earned = []) ∧
  (∀ cu, currentUser r = Some cu ->
     let stats := User.stats cu in
     let perf := UserStats.topicPerformance stats !! topic in
     let snapshot :=
       UserStats.mk
         (UserStats.quizzesCompleted stats + 1)
         (UserStats.quizzesAttempted stats + 1)
         (UserStats.topicsMastered stats)
         (UserStats.totalScorePoints stats)
         (UserStats.totalQuestionsAnswered stats)
         (UserStats.timeSpentLearningInSeconds stats)
         (<[topic :=
              TopicPerf.mk (from_option TopicPerf.correct 0 perf + score)
                           (from_option TopicPerf.total 0 perf + questionCount)]>
            (UserStats.topicPerformance stats))
         (UserStats.badges stats)
         (UserStats.currentStreak stats)
         (UserStats.lastActivityDate stats) in
     (∀ kind, kind ∈ BADGE_KEYS ->
        ((∃ b, b ∈ earned ∧ Badge.id b = kind) ↔
         ((kind ∉ badge_ids (UserStats.badges stats)) ∧
          BadgeDefinition.criteria (BADGE_DEFINITIONS kind) snapshot
            (mkQuizResult score questionCount topic) = true))) ∧
     (∀ b, b ∈ earned ->
        Badge.id b ∈ BADGE_KEYS ∧
        b = badge_of BADGE_DEFINITIONS env (Badge.id b) ∧
        Badge.id b ∈ [QUIZ_NOVICE; QUIZ_ADEPT; QUIZ_MASTER; TOPIC_ACE;
                      PERFECT_SCORE])).
Proof.
  intros earned. split.
  - intros Hcu. subst earned. unfold awardBadges. rewrite Hcu. reflexivity.
  - intros cu Hcu stats perf snapshot. subst earned.
    rewrite (awardBadges_earned _ _ _ _ _ _ _ _ cu Hcu).
    rewrite updatedStats_unfold. fold stats perf snapshot. split.
    + intros kind Hkind. split.
      * intros (b & Hb & Hid).
        apply earned_loop_elem in Hb as (k & _ & Hh & Hc & ->).
        simpl in Hid. subst k.
        split; [apply hasBadge_false, Hh | exact Hc].
      * intros [Hh Hc]. exists (badge_of BADGE_DEFINITIONS env kind).
        split; [|reflexivity]. apply earned_loop_elem. exists kind.
        split; [exact Hkind|]. split; [apply hasBadge_false, Hh|].
        split; [exact Hc | reflexivity].
    + intros b Hb. apply earned_loop_elem in Hb as (k & Hk & _ & _ & ->).
      simpl. split; [exact Hk|]. split; [reflexivity | apply BadgeType_enumerated].
Qed.

(** C4 at a concrete quiz: [ada] finishes her first quiz with 3 of 5; of
    the sample table exactly the novice badge is awarded. *)
Lemma awardBadges_exact_witness :
  badge_ids
    (fst (awardBadges sample_keys sample_definitions sample_state 3 5 "Light"
                      sample_badge_env sample_state))
  = [QUIZ_NOVICE] ∧
  ∃ b, b ∈ fst (awardBadges sample_keys sample_definitions sample_state 3 5
                            "Light" sample_badge_env sample_state) ∧
       Badge.id b = QUIZ_NOVICE.
Proof.
  split; [reflexivity|].
  destruct (awardBadges_exact sample_keys sample_definitions sample_state
              sample_state 3 5 "Light" sample_badge_env) as [_ Hin].
  destruct (Hin sample_user eq_refl) as [Hiff _].
  apply (Hiff QUIZ_NOVICE).
  - constructor.
  - split; [|reflexivity]. simpl. intros H. inversion H.
Defined.

(** ** What the bookkeeping helpers leave alone *)

Lemma bookkeeping_only_refl (st : AppState) : bookkeeping_only st st.
Proof. repeat split. Qed.

Lemma bookkeeping_only_trans (st1 st2 st3 : AppState) :
  bookkeeping_only st1 st2 -> bookkeeping_only st2 st3 -> bookkeeping_only st1 st3.
Proof.
  unfold bookkeeping_only.
  intros (A1 & A2 & A3 & A4 & A5 & A6 & A7) (B1 & B2 & B3 & B4 & B5 & B6 & B7).
  repeat split; congruence.
Qed.

Lemma addLogEntry_bookkeeping (r st : AppState) (s : Stamp) (type : string)
    (details : list (string * DetailValue)) :
  bookkeeping_only st (addLogEntry r s type details st).
Proof. unfold addLogEntry. destruct (currentUser r); repeat split. Qed.

Lemma updateUserStats_bookkeeping (r st : AppState)
    (updateFn : UserStats.t -> UserStats.t) :
  bookkeeping_only st (updateUserStats r updateFn st).
Proof.
  unfold updateUserStats.
  destruct (currentUserId r) as [cid|]; [destruct (JS.truthy cid)|];
    repeat split.
Qed.

Lemma handleActivityCompletion_bookkeeping (r st : AppState) (d : Today) :
  bookkeeping_only st (handleActivityCompletion r d st).
Proof.
  unfold handleActivityCompletion.
  destruct (currentUser r); [|apply bookkeeping_only_refl].
  destruct (String.eqb _ _); [apply bookkeeping_only_refl|].
  apply updateUserStats_bookkeeping.
Qed.

Lemma updateLeaderboard_bookkeeping (r st : AppState) (username : string)
    (pointsToAdd : Z) (pic : option string) :
  bookkeeping_only st (updateLeaderboard r username pointsToAdd pic st).
Proof. repeat split. Qed.

Lemma log_badges_bookkeeping (r : AppState) (env : BadgeEnv) (earned : list Badge.t)
    (st : AppState) :
  bookkeeping_only st
    (fold_left
       (fun st' badge =>
          addLogEntry r (logStampAt env (Badge.id badge)) "BADGE_EARNED"
                      [("badgeName", DStr (Badge.name badge))] st')
       earned st) ∧
  users (fold_left
       (fun st' badge =>
          addLogEntry r (logStampAt env (Badge.id badge)) "BADGE_EARNED"
                      [("badgeName", DStr (Badge.name badge))] st')
       earned st) = users st.
Proof.
  revert st. induction earned as [|b earned IH]; intros st; simpl.
  - split; [apply bookkeeping_only_refl | reflexivity].
  - destruct (IH (addLogEntry r (logStampAt env (Badge.id b)) "BADGE_EARNED"
                    [("badgeName", DStr (Badge.name b))] st)) as [Hb Hu].
    split.
    + eapply bookkeeping_only_trans; [apply addLogEntry_bookkeeping | exact Hb].
    + rewrite Hu. apply users_addLogEntry.
Qed.

Lemma awardBadges_bookkeeping (BADGE_KEYS : list BadgeType)
    (BADGE_DEFINITIONS : BadgeType -> BadgeDefinition.t)
    (r st : AppState) (score questionCount : Z) (topic : string) (env : BadgeEnv) :
  let st' := snd (awardBadges BADGE_KEYS BADGE_DEFINITIONS r score questionCount
                              topic env st) in
  bookkeeping_only st st' ∧ users st' = users st.
Proof.
  unfold awardBadges. destruct (currentUser r) as [cu|]; simpl;
    [|split; [apply bookkeeping_only_refl | reflexivity]].
  destruct (0 <? length _)%nat; simpl;
    [|split; [apply bookkeeping_only_refl | reflexivity]].
  match goal with
  | |- context [fold_left _ ?earned ?st0] =>
      destruct (log_badges_bookkeeping r env earned st0) as [Hb Hu]
  end.
  split.
  - eapply bookkeeping_only_trans; [|exact Hb]. repeat split.
  - rewrite Hu. reflexivity.
Qed.

Lemma users_updateUserStats (r st : AppState) (updateFn : UserStats.t -> UserStats.t) :
  users (updateUserStats r updateFn st) = users st ∨
  ∃ cid, currentUserId r = Some cid ∧
         users (updateUserStats r updateFn st) =
           users_with_stats cid updateFn (users st).
Proof.
  unfold updateUserStats.
  destruct (currentUserId r) as [cid|]; [|left; reflexivity].
  destruct (JS.truthy cid); [|left; reflexivity].
  right. exists cid. split; reflexivity.
Qed.

(** ** Badges are awarded once *)

Lemma NoDup_fmap_eq {A B} (f : A -> B) (l : list A) (x y : A) :
  NoDup (map f l) -> x ∈ l -> y ∈ l -> f x = f y -> x = y.
Proof.
  intros Hnd Hx Hy Hf.
  apply list_elem_of_lookup in Hx as [i Hi], Hy as [j Hj].
  assert (i = j) as ->.
  { apply (NoDup_lookup _ i j (f x) Hnd);
      change (map f l) with (f <$> l); rewrite list_lookup_fmap.
    - rewrite Hi. reflexivity.
    - rewrite Hj. simpl. congruence. }
  congruence.
Qed.

Lemma users_with_stats_ids (cid : string) (updateFn : UserStats.t -> UserStats.t)
    (us : list User.t) :
  map User.id (users_with_stats cid updateFn us) = map User.id us.
Proof.
  unfold users_with_stats. rewrite map_map. apply map_ext.
  intros u. destruct (String.eqb _ _); reflexivity.
Qed.

(** A stats update keeps the invariant when it leaves the users of the
    updated id with distinct badge kinds. *)
Lemma users_with_stats_once (cid : string) (updateFn : UserStats.t -> UserStats.t)
    (us : list User.t) :
  badges_once_list us ->
  (∀ u, u ∈ us -> User.id u = cid ->
        NoDup (badge_ids (UserStats.badges (updateFn (User.stats u))))) ->
  badges_once_list (users_with_stats cid updateFn us).
Proof.
  intros [Hids Hbadges] Hnew. split.
  - rewrite users_with_stats_ids. exact Hids.
  - intros u' Hu'. unfold users_with_stats in Hu'.
    apply list_elem_of_In, in_map_iff in Hu' as (u & <- & Hu).
    apply list_elem_of_In in Hu.
    destruct (String.eqb_spec (User.id u) cid) as [Hid|_].
    + simpl. apply Hnew; assumption.
    + apply Hbadges, Hu.
Qed.

Lemma users_with_stats_keeps_badges (cid : string)
    (updateFn : UserStats.t -> UserStats.t) (us : list User.t) :
  (∀ s, UserStats.badges (updateFn s) = UserStats.badges s) ->
  badges_once_list us -> badges_once_list (users_with_stats cid updateFn us).
Proof.
  intros Hkeep Hinv. apply users_with_stats_once; [exact Hinv|].
  intros u Hu _. rewrite Hkeep. apply Hinv, Hu.
Qed.

Lemma updateUserStats_keeps_badges (r st : AppState)
    (updateFn : UserStats.t -> UserStats.t) :
  (∀ s, UserStats.badges (updateFn s) = UserStats.badges s) ->
  badges_once st -> badges_once (updateUserStats r updateFn st).
Proof.
  intros Hkeep Hinv. unfold badges_once.
  destruct (users_updateUserStats r st updateFn) as [->|(cid & _ & ->)].
  - exact Hinv.
  - apply users_with_stats_keeps_badges; assumption.
Qed.

Lemma handleActivityCompletion_once (r st : AppState) (d : Today) :
  badges_once st -> badges_once (handleActivityCompletion r d st).
Proof.
  intros Hinv. unfold handleActivityCompletion.
  destruct (currentUser r); [|exact Hinv].
  destruct (String.eqb _ _); [exact Hinv|].
  apply updateUserStats_keeps_badges; [reflexivity | exact Hinv].
Qed.

Lemma handleRegister_once (st : AppState) (newId : string) (s : Stamp) :
  newId ∉ map User.id (users st) ->
  badges_once st -> badges_once (handleRegister st newId s st).
Proof.
  intros Hfresh [Hids Hbadges].
  destruct (handleRegister_users st newId s) as [Heq|Heq];
    unfold badges_once; rewrite Heq; [split; assumption|].
  split.
  - rewrite map_app. simpl. apply NoDup_app. split; [exact Hids|].
    split; [|apply NoDup_singleton].
    intros x Hx Hx'. apply list_elem_of_singleton in Hx'. congruence.
  - intros u Hu. apply elem_of_app in Hu as [Hu|Hu]; [apply Hbadges, Hu|].
    apply list_elem_of_singleton in Hu. subst u. simpl. constructor.
Qed.

Section AwardedOnce.

Variable BADGE_KEYS : list BadgeType.
Variable BADGE_DEFINITIONS : BadgeType -> BadgeDefinition.t.

(** The keys of an object are distinct. *)
Hypothesis BADGE_KEYS_distinct : NoDup BADGE_KEYS.

Lemma earned_not_held (r st : AppState) (score questionCount : Z) (topic : string)
    (env : BadgeEnv) (cu : User.t) (b : Badge.t) :
  currentUser r = Some cu ->
  b ∈ fst (awardBadges BADGE_KEYS BADGE_DEFINITIONS r score questionCount topic
                       env st) ->
  Badge.id b ∉ badge_ids (UserStats.badges (User.stats cu)).
Proof.
  intros Hcu Hb. rewrite (awardBadges_earned _ _ _ _ _ _ _ _ cu Hcu) in Hb.
  apply earned_loop_elem in Hb as (kind & _ & Hh & _ & ->).
  apply hasBadge_false, Hh.
Qed.

Lemma earned_distinct (r st : AppState) (score questionCount : Z) (topic : string)
    (env : BadgeEnv) :
  NoDup (badge_ids (fst (awardBadges BADGE_KEYS BADGE_DEFINITIONS r score
                                     questionCount topic env st))).
Proof.
  unfold awardBadges. destruct (currentUser r) as [cu|]; [|constructor].
  destruct (0 <? length _)%nat; simpl;
    eapply sublist_NoDup; eauto using earned_loop_sublist.
Qed.

(** Appending what [awardBadges] returns to the badges of the user it was
    computed for keeps the kinds distinct. *)
Lemma appended_distinct (r st : AppState) (score questionCount : Z) (topic : string)
    (env : BadgeEnv) (cu : User.t) :
  currentUser r = Some cu ->
  NoDup (badge_ids (UserStats.badges (User.stats cu))) ->
  NoDup (badge_ids
           (UserStats.badges (User.stats cu) ++
            fst (awardBadges BADGE_KEYS BADGE_DEFINITIONS r score questionCount
                             topic env st))).
Proof.
  intros Hcu Hheld. unfold badge_ids. rewrite map_app. apply NoDup_app.
  split; [exact Hheld|]. split; [|apply earned_distinct].
  intros kind Hk Hk'.
  apply list_elem_of_In, in_map_iff in Hk' as (b & <- & Hb).
  apply list_elem_of_In in Hb.
  exact (earned_not_held _ _ _ _ _ _ _ _ Hcu Hb Hk).
Qed.

Lemma currentUser_elem (st : AppState) (cu : User.t) :
  currentUser st = Some cu ->
  cu ∈ users st ∧ currentUserId st = Some (User.id cu).
Proof.
  unfold currentUser. destruct (currentUserId st) as [cid|]; [|discriminate].
  intros H. apply find_some in H as [Hin Hid].
  apply String.eqb_eq in Hid. subst cid.
  split; [apply list_elem_of_In, Hin | reflexivity].
Qed.

(** The completion of a quiz, and every other answer, keeps the invariant. *)
Lemma handleAnswer_once (st st' : AppState) (answer : option string) (env : QuizEnv) :
  handleAnswer BADGE_KEYS BADGE_DEFINITIONS st answer env st = Some st' ->
  badges_once st -> badges_once st'.
Proof.
  unfold handleAnswer, handleAnswer_timeout. intros H Hinv.
  destruct (Z.of_nat (currentQuestionIndex st) <? _).
  { injection H as <-. destruct (0 <? timePerQuestion st); exact Hinv. }
  destruct (score_loop _ _ _ _) as [finalScore|]; [|discriminate].
  destruct (currentUser st) as [cu|] eqn:Hcu; [|injection H as <-; exact Hinv].
  destruct (topic st) as [tp|]; [|injection H as <-; exact Hinv].
  destruct (JS.truthy tp); [|injection H as <-; exact Hinv].
  destruct (awardBadges _ _ st finalScore _ tp (qe_badges env) _)
    as [earned st2] eqn:Haward.
  injection H as <-.
  pose proof (awardBadges_bookkeeping BADGE_KEYS BADGE_DEFINITIONS st
                (setGameState QUIZ_SCORE
                   (setScore finalScore (handleAnswer_now st answer st)))
                finalScore (Z.of_nat (length (questions st))) tp (qe_badges env))
    as [_ Husers].
  rewrite Haward in Husers. simpl in Husers.
  change (um_users (userManagement st)) with (users st) in Husers.
  assert (Hearned : earned =
    fst (awardBadges BADGE_KEYS BADGE_DEFINITIONS st finalScore
           (Z.of_nat (length (questions st))) tp (qe_badges env)
           (setGameState QUIZ_SCORE
              (setScore finalScore (handleAnswer_now st answer st))))).
  { rewrite Haward. reflexivity. }
  apply handleActivityCompletion_once.
  unfold badges_once. rewrite users_addLogEntry.
  change (users (updateLeaderboard ?r ?u ?p ?pic ?s)) with (users s).
  destruct (users_updateUserStats st st2
              (quiz_stats_update tp finalScore (Z.of_nat (length (questions st)))
                                 earned))
    as [->|(cid & Hcid & ->)]; rewrite Husers; [exact Hinv|].
  apply users_with_stats_once; [exact Hinv|].
  intros u Hu Hid. simpl.
  destruct (currentUser_elem st cu Hcu) as [Hcu_in Hcu_id].
  assert (u = cu) as ->.
  { apply (NoDup_fmap_eq User.id (users st)); [apply Hinv | exact Hu | exact Hcu_in|].
    congruence. }
  rewrite Hearned. apply appended_distinct; [exact Hcu|].
  apply Hinv, Hcu_in.
Qed.

End AwardedOnce.

(** C3 fails when the last answer is given twice.  [ada], who holds no
    badge, is at the last question of a quiz, a question of type Q&A, and
    submits the form twice within the 500 ms.  The second call is made
    from the render that follows the first write, and that render still
    shows the form.  Both callbacks read the user of their own render,
    who holds no badge: the first one awards Quiz Novice and Perfect
    Score and appends them; the second one, run on the state the first
    one left, is handed the same two badges, although the stored user
    holds them by then, and appends them again. *)
Theorem double_submit_repeats_badges :
  let held (st : AppState) :=
    (badge_ids ∘ UserStats.badges ∘ User.stats) <$> currentUser st in
  let fire := fire sample_keys sample_definitions in
  let page1 := submit (Some "Violet") sample_quiz_env (sample_state_essay, []) in
  let page2 := submit (Some "Violet") sample_quiz_env page1 in
  held sample_state_essay = Some [] ∧
  App_render page1.1 = Main (show QuizQuestionView) ∧
  ∃ first second st3 st4,
    page2.2 = [first; second] ∧
    held (pa_render first) = Some [] ∧
    held (pa_render second) = Some [] ∧
    fire first page2.1 = Some st3 ∧
    held st3 = Some [QUIZ_NOVICE; PERFECT_SCORE] ∧
    badge_ids
      (awardBadges sample_keys sample_definitions (pa_render second) 2 2
                   "Light" sample_badge_env st3).1
      = [QUIZ_NOVICE; PERFECT_SCORE] ∧
    fire second st3 = Some st4 ∧
    held st4 = Some [QUIZ_NOVICE; PERFECT_SCORE; QUIZ_NOVICE; PERFECT_SCORE] ∧
    ¬ badges_once st4.
Proof.
  intros held fire page1 page2.
  split; [reflexivity|]. split; [reflexivity|].
  set (first := mkPendingAnswer sample_state_essay (Some "Violet")
                                sample_quiz_env).
  set (second := mkPendingAnswer page1.1 (Some "Violet") sample_quiz_env).
  set (st3 := default sample_state_essay (fire first page2.1)).
  set (st4 := default sample_state_essay (fire second st3)).
  assert (Hheld : held st4
                  = Some [QUIZ_NOVICE; PERFECT_SCORE; QUIZ_NOVICE; PERFECT_SCORE])
    by (vm_compute; reflexivity).
  exists first, second, st3, st4.
  split; [reflexivity|].
  split; [reflexivity|]. split; [reflexivity|].
  split; [vm_compute; reflexivity|].
  split; [vm_compute; reflexivity|].
  split; [vm_compute; reflexivity|].
  split; [vm_compute; reflexivity|].
  split; [exact Hheld|].
  clearbody st4. intros [_ Hbadges]. unfold held in Hheld.
  destruct (currentUser st4) as [cu|] eqn:Hcu; [|discriminate Hheld].
  simpl in Hheld. injection Hheld as Hids.
  destruct (currentUser_elem st4 cu Hcu) as [Hin _].
  specialize (Hbadges cu Hin). rewrite Hids in Hbadges.
  apply NoDup_cons in Hbadges as [Hnot _]. apply Hnot.
  right. left.
Qed.

(** ** Quiz score *)

Lemma array_set_lookup (arr : list Answer) (i : nat) (v : Answer) :
  array_set arr i v !! i = Some v.
Proof.
  unfold array_set. destruct (Nat.ltb_spec i (length arr)) as [Hlt|Hge].
  - apply list_lookup_insert_eq, Hlt.
  - rewrite lookup_app_r by exact Hge.
    rewrite lookup_app_r; rewrite length_replicate; [|reflexivity].
    rewrite Nat.sub_diag. reflexivity.
Qed.

Lemma array_set_length (arr : list Answer) (i : nat) (v : Answer) :
  length (array_set arr i v) = Nat.max (length arr) (S i).
Proof.
  unfold array_set. destruct (Nat.ltb_spec i (length arr)) as [Hlt|Hge].
  - rewrite length_insert. lia.
  - rewrite !length_app, length_replicate. simpl. lia.
Qed.

(** The loop counts the matching indices, as long as no recorded cell lies
    beyond the last question. *)
Lemma score_loop_count (questions : list QuizQuestion.t) (answers : list Answer) :
  ∀ (index : nat) (before : list Answer) (finalScore : Z),
    length before = index ->
    (index + length answers <= length questions)%nat ->
    score_loop questions index answers finalScore =
      Some (finalScore +
            Z.of_nat (length (List.filter (matches_at (before ++ answers) questions)
                                          (seq index (length answers))))).
Proof.
  induction answers as [|ans rest IH]; intros index before finalScore Hlen Hfit.
  - simpl. rewrite Z.add_0_r. reflexivity.
  - simpl in Hfit.
    assert (Hcell : (before ++ ans :: rest) !! index = Some ans).
    { rewrite lookup_app_r by lia. rewrite Hlen, Nat.sub_diag. reflexivity. }
    destruct (lookup_lt_is_Some_2 questions index ltac:(lia)) as [q Hq].
    assert (Hrest : ∀ acc,
      score_loop questions (S index) rest acc =
        Some (acc + Z.of_nat (length (List.filter
                                (matches_at (before ++ ans :: rest) questions)
                                (seq (S index) (length rest)))))).
    { intros acc.
      rewrite (IH (S index) (before ++ [ans]) acc).
      - rewrite <- app_assoc. reflexivity.
      - rewrite length_app. simpl. lia.
      - lia. }
    cbn [length seq List.filter score_loop].
    unfold matches_at at 1. rewrite Hcell, Hq.
    destruct ans as [| | |s]; simpl.
    + apply Hrest.
    + apply Hrest.
    + apply Hrest.
    + rewrite Hrest. destruct (String.eqb s (QuizQuestion.answer q)); simpl.
      * f_equal. lia.
      * reflexivity.
Qed.

Lemma final_newAnswers_length (st : AppState) (answer : option string) :
  S (currentQuestionIndex st) = length (questions st) ->
  (length (userAnswers st) <= length (questions st))%nat ->
  length (newAnswers_of st answer) = length (questions st).
Proof.
  intros Hlast Hlen. unfold newAnswers_of, spread.
  rewrite array_set_length, length_map. lia.
Qed.

Lemma final_score_loop (st : AppState) (answer : option string) :
  S (currentQuestionIndex st) = length (questions st) ->
  (length (userAnswers st) <= length (questions st))%nat ->
  score_loop (questions st) 0 (newAnswers_of st answer) 0 =
    Some (Z.of_nat (length (matching_question_indices (newAnswers_of st answer)
                                                      (questions st)))).
Proof.
  intros Hlast Hlen.
  rewrite (score_loop_count _ _ 0%nat [] 0 eq_refl).
  - simpl. rewrite (final_newAnswers_length st answer Hlast Hlen). reflexivity.
  - rewrite (final_newAnswers_length st answer Hlast Hlen). lia.
Qed.

(** The writes that follow the score of a completed quiz are bookkeeping. *)
Lemma handleAnswer_final (BADGE_KEYS : list BadgeType)
    (BADGE_DEFINITIONS : BadgeType -> BadgeDefinition.t)
    (st : AppState) (answer : option string) (env : QuizEnv) :
  S (currentQuestionIndex st) = length (questions st) ->
  (length (userAnswers st) <= length (questions st))%nat ->
  ∃ st',
    handleAnswer BADGE_KEYS BADGE_DEFINITIONS st answer env st = Some st' ∧
    bookkeeping_only
      (setGameState QUIZ_SCORE
         (setScore
            (Z.of_nat (length (matching_question_indices
                                 (newAnswers_of st answer) (questions st))))
            (handleAnswer_now st answer st)))
      st'.
Proof.
  intros Hlast Hlen. unfold handleAnswer, handleAnswer_timeout.
  destruct (Z.ltb_spec (Z.of_nat (currentQuestionIndex st))
                       (Z.of_nat (length (questions st)) - 1)) as [Hlt|_];
    [lia|].
  rewrite (final_score_loop st answer Hlast Hlen).
  set (finalScore := Z.of_nat (length (matching_question_indices _ _))).
  set (st1 := setGameState QUIZ_SCORE (setScore finalScore _)).
  destruct (currentUser st) as [cu|];
    [|eexists; split; [reflexivity | apply bookkeeping_only_refl]].
  destruct (topic st) as [tp|];
    [|eexists; split; [reflexivity | apply bookkeeping_only_refl]].
  destruct (JS.truthy tp);
    [|eexists; split; [reflexivity | apply bookkeeping_only_refl]].
  pose proof (awardBadges_bookkeeping BADGE_KEYS BADGE_DEFINITIONS st st1
                finalScore (Z.of_nat (length (questions st))) tp (qe_badges env))
    as [Haward _].
  destruct (awardBadges _ _ st finalScore _ tp (qe_badges env) st1)
    as [earned st2]. simpl in Haward.
  eexists. split; [reflexivity|].
  eapply bookkeeping_only_trans; [exact Haward|].
  eapply bookkeeping_only_trans; [apply updateUserStats_bookkeeping|].
  eapply bookkeeping_only_trans; [apply updateLeaderboard_bookkeeping|].
  eapply bookkeeping_only_trans; [apply addLogEntry_bookkeeping|].
  apply handleActivityCompletion_bookkeeping.
Qed.

Lemma matching_question_indices_elem (recorded : list Answer)
    (questions : list QuizQuestion.t) (index : nat) :
  index ∈ matching_question_indices recorded questions ↔
  ∃ s q, recorded !! index = Some (Str s) ∧ questions !! index = Some q ∧
         s = QuizQuestion.answer q.
Proof.
  unfold matching_question_indices.
  rewrite list_elem_of_In, filter_In, in_seq. unfold matches_at. split.
  - intros [_ H]. destruct (recorded !! index) as [[| | |s]|]; try discriminate.
    destruct (questions !! index) as [q|]; [|discriminate].
    apply String.eqb_eq in H. exists s, q. repeat split. exact H.
  - intros (s & q & -> & Hq & ->). rewrite Hq. split.
    + apply lookup_lt_Some in Hq. lia.
    + apply String.eqb_refl.
Qed.

(** C5: when the last question of a quiz is answered (the current index is
    the last one and no answer is recorded beyond it), the handler ends in
    the score screen with a score equal to the number of question indices
    at which the recorded answer is a string equal to the question's
    [answer] field.  That number lies between 0 and the number of
    questions, and an index whose recorded answer is [null] is not among
    those counted; the answer just given, [null] on a timer expiry, is the
    one recorded at the current index. *)
Theorem handleAnswer_final_score (BADGE_KEYS : list BadgeType)
    (BADGE_DEFINITIONS : BadgeType -> BadgeDefinition.t)
    (st : AppState) (answer : option string) (env : QuizEnv) :
  S (currentQuestionIndex st) = length (questions st) ->
  (length (userAnswers st) <= length (questions st))%nat ->
  let recorded := newAnswers_of st answer in
  let matching := matching_question_indices recorded (questions st) in
  (∃ st', handleAnswer BADGE_KEYS BADGE_DEFINITIONS st answer env st = Some st' ∧
          score st' = Z.of_nat (length matching) ∧
          gameState st' = QUIZ_SCORE) ∧
  0 <= Z.of_nat (length matching) <= Z.of_nat (length (questions st)) ∧
  (∀ index, index ∈ matching ↔
            ∃ s q, recorded !! index = Some (Str s) ∧
                   questions st !! index = Some q ∧
                   s = QuizQuestion.answer q) ∧
  (∀ index, recorded !! index = Some Null -> index ∉ matching) ∧
  recorded !! currentQuestionIndex st = Some (Answer_of answer).
Proof.
  intros Hlast Hlen recorded matching.
  split; [|split; [|split; [|split]]].
  - destruct (handleAnswer_final BADGE_KEYS BADGE_DEFINITIONS st answer env
                Hlast Hlen) as (st' & Hrun & Hframe).
    exists st'. split; [exact Hrun|].
    destruct Hframe as (_ & Hgs & _ & _ & Hquiz & _).
    split; [|exact Hgs]. unfold score. rewrite Hquiz. reflexivity.
  - split; [lia|]. apply Nat2Z.inj_le.
    unfold matching, matching_question_indices.
    etransitivity; [apply filter_length_le|]. rewrite length_seq. reflexivity.
  - intros index. apply matching_question_indices_elem.
  - intros index Hnull Hin.
    apply matching_question_indices_elem in Hin as (s & q & Hs & _).
    congruence.
  - apply array_set_lookup.
Qed.

(** C5 at a concrete quiz: the first question was answered correctly, the
    second one timed out; the score is 1 of 2. *)
Lemma handleAnswer_final_score_witness :
  score <$> sample_timed_out = Some 1 ∧
  gameState <$> sample_timed_out = Some QUIZ_SCORE ∧
  matching_question_indices (newAnswers_of sample_state_quiz None)
                            (questions sample_state_quiz) = [0%nat].
Proof.
  destruct (handleAnswer_final_score sample_keys sample_definitions
              sample_state_quiz None sample_quiz_env eq_refl (le_n 2))
    as ((st' & Hrun & Hscore & Hgs) & _).
  unfold sample_timed_out. rewrite Hrun. simpl. rewrite Hscore, Hgs.
  repeat split.
Defined.

(** ** API errors *)

Lemma withApiErrorHandler_rejected {A} (error : Thrown) (st : AppState) :
  withApiErrorHandler (A := A) (Rejected error) st =
    (None, setIsLoading false (setApiError (Some (displayed_message error)) st)).
Proof.
  unfold withApiErrorHandler, displayed_message.
  destruct (JS.includes _ _); reflexivity.
Qed.

Lemma withApiErrorHandler_result {A} (apiCall : ApiOutcome A) (st : AppState) :
  fst (withApiErrorHandler apiCall st) = api_result apiCall.
Proof.
  destruct apiCall as [result|error]; [reflexivity|].
  rewrite withApiErrorHandler_rejected. reflexivity.
Qed.

Lemma content_untouched_refl (st : AppState) : content_untouched st st.
Proof. repeat split. Qed.

Lemma content_untouched_trans (st1 st2 st3 : AppState) :
  content_untouched st1 st2 -> content_untouched st2 st3 ->
  content_untouched st1 st3.
Proof.
  unfold content_untouched.
  intros (A1 & A2 & A3 & A4 & A5 & A6 & A7 & A8 & A9 & A10)
         (B1 & B2 & B3 & B4 & B5 & B6 & B7 & B8 & B9 & B10).
  repeat split; congruence.
Qed.

Lemma bookkeeping_content_untouched (st st' : AppState) :
  bookkeeping_only st st' -> leaderboard st' = leaderboard st ->
  content_untouched st st'.
Proof.
  intros (H1 & H2 & H3 & H4 & H5 & H6 & H7) Hboard.
  unfold content_untouched, questions, notes, inputPrompt.
  rewrite H4. repeat split; assumption.
Qed.

Lemma leaderboard_addLogEntry (r st : AppState) (s : Stamp) (type : string)
    (details : list (string * DetailValue)) :
  leaderboard (addLogEntry r s type details st) = leaderboard st.
Proof. unfold addLogEntry. destruct (currentUser r); reflexivity. Qed.

Lemma leaderboard_handleActivityCompletion (r st : AppState) (d : Today) :
  leaderboard (handleActivityCompletion r d st) = leaderboard st.
Proof.
  unfold handleActivityCompletion, updateUserStats.
  destruct (currentUser r); [|reflexivity].
  destruct (String.eqb _ _); [reflexivity|].
  destruct (currentUserId r) as [cid|]; [destruct (JS.truthy cid)|];
    reflexivity.
Qed.

Lemma withApiErrorHandler_content {A} (apiCall : ApiOutcome A) (st : AppState) :
  content_untouched st (snd (withApiErrorHandler apiCall st)) ∧
  users (snd (withApiErrorHandler apiCall st)) = users st ∧
  activityLog (snd (withApiErrorHandler apiCall st)) = activityLog st.
Proof.
  destruct apiCall as [result|error].
  - repeat split.
  - rewrite withApiErrorHandler_rejected. repeat split.
Qed.

(** The image loop of the virtual lab: every step comes back, with the
    image of its request or with none, and the loop navigates nowhere. *)
Lemma lab_images_steps (total : nat) (generateDiagramImage : nat -> ApiOutcome string)
    (steps : list VirtualLabStep.t) :
  ∀ (i : nat) (st : AppState),
    length (fst (lab_images total generateDiagramImage i steps st)) = length steps ∧
    (∀ k step, steps !! k = Some step ->
       fst (lab_images total generateDiagramImage i steps st) !! k =
         Some (step_with_image (api_result (generateDiagramImage (i + k)%nat)) step)) ∧
    content_untouched st (snd (lab_images total generateDiagramImage i steps st)).
Proof.
  induction steps as [|step rest IH]; intros i st.
  - simpl. split; [reflexivity|]. split; [|apply content_untouched_refl].
    intros k s H. inversion H.
  - cbn [lab_images].
    set (st1 := setLoadingMessage _ st).
    pose proof (withApiErrorHandler_result (generateDiagramImage i) st1) as Hres.
    pose proof (withApiErrorHandler_content (generateDiagramImage i) st1)
      as (Hcontent & _).
    destruct (withApiErrorHandler (generateDiagramImage i) st1) as [image st2].
    simpl in Hres, Hcontent. subst image.
    specialize (IH (S i) st2).
    destruct (lab_images total generateDiagramImage (S i) rest st2) as [more st3].
    simpl in IH. destruct IH as (Hlen & Hsteps & Hframe). simpl.
    split; [rewrite Hlen; reflexivity|]. split.
    + intros [|k] s Hk; simpl in Hk |- *.
      * injection Hk as <-. rewrite Nat.add_0_r. reflexivity.
      * rewrite (Hsteps k s Hk). f_equal. f_equal. f_equal. f_equal. lia.
    + eapply content_untouched_trans; [|exact Hframe].
      eapply content_untouched_trans; [|exact Hcontent].
      repeat split.
Qed.

Lemma addLogEntry_content (r st : AppState) (s : Stamp) (type : string)
    (details : list (string * DetailValue)) :
  content_untouched st (addLogEntry r s type details st).
Proof.
  apply bookkeeping_content_untouched;
    [apply addLogEntry_bookkeeping | apply leaderboard_addLogEntry].
Qed.

Lemma handleActivityCompletion_content (r st : AppState) (d : Today) :
  content_untouched st (handleActivityCompletion r d st).
Proof.
  apply bookkeeping_content_untouched;
    [apply handleActivityCompletion_bookkeeping
    |apply leaderboard_handleActivityCompletion].
Qed.

(** *** A failed request for content, handler by handler *)

Lemma screen_and_content_refl (st : AppState) : screen_and_content st st.
Proof. repeat split. Qed.

Lemma screen_and_content_trans (st1 st2 st3 : AppState) :
  screen_and_content st1 st2 -> screen_and_content st2 st3 ->
  screen_and_content st1 st3.
Proof.
  unfold screen_and_content.
  intros (a1 & a2 & a3 & a4 & a5 & a6 & a7 & a8 & a9 & a10 & a11)
         (b1 & b2 & b3 & b4 & b5 & b6 & b7 & b8 & b9 & b10 & b11).
  repeat split; etransitivity; eassumption.
Qed.

Lemma content_screen_and_content (st st' : AppState) :
  content_untouched st st' -> screen_and_content st st'.
Proof.
  intros (a1 & a2 & a3 & a4 & a5 & a6 & a7 & a8 & a9 & a10).
  unfold screen_and_content, virtualLabSteps, selectedScientist.
  rewrite a7. repeat split; assumption.
Qed.

(** One more write on top of writes that kept the screen and the content. *)
Lemma screen_and_content_write (f : AppState -> AppState) (st st1 : AppState) :
  screen_and_content st st1 -> screen_and_content st1 (f st1) ->
  screen_and_content st (f st1).
Proof. apply screen_and_content_trans. Qed.

Lemma generated_untouched_refl (c : Component) : generated_untouched c c.
Proof. repeat split. Qed.

Lemma generated_untouched_on_app (f : AppState -> AppState) (c : Component) :
  screen_and_content (app c) (f (app c)) -> generated_untouched c (on_app f c).
Proof. intros H. split; [exact H | repeat split]. Qed.

Lemma on_app_same (f : AppState -> AppState) (c : Component) :
  f (app c) = app c -> on_app f c = c.
Proof.
  destruct c as [st ? ? ? ? ? ? ? ?]. unfold on_app. simpl.
  intros ->. reflexivity.
Qed.

Lemma withApiErrorHandlerC_rejected {A} (error : Thrown) (c : Component) :
  withApiErrorHandlerC (A := A) (Rejected error) c =
    (None,
     on_app (fun st =>
               setIsLoading false (setApiError (Some (displayed_message error)) st))
            c).
Proof.
  unfold withApiErrorHandlerC, on_app.
  rewrite withApiErrorHandler_rejected. reflexivity.
Qed.

(** The writes before and around a failed request keep the screen and the
    content: the goal is peeled write by write. *)
Ltac kept_write :=
  first [ apply content_screen_and_content, addLogEntry_content
        | apply content_screen_and_content, handleActivityCompletion_content
        | repeat split ].

Ltac kept_writes :=
  repeat (apply screen_and_content_write; [|kept_write]);
  apply screen_and_content_refl.

Lemma selectedProjectIdea_write (f : AppState -> AppState) (st st1 : AppState) :
  selectedProjectIdea st1 = selectedProjectIdea st ->
  selectedProjectIdea (f st1) = selectedProjectIdea st1 ->
  selectedProjectIdea (f st1) = selectedProjectIdea st.
Proof. intros H1 H2. rewrite H2. exact H1. Qed.

Lemma selectedProjectIdea_addLogEntry (r st : AppState) (s : Stamp)
    (type : string) (details : list (string * DetailValue)) :
  selectedProjectIdea (addLogEntry r s type details st) = selectedProjectIdea st.
Proof.
  destruct (addLogEntry_content r st s type details)
    as (_ & _ & _ & _ & _ & _ & H & _).
  unfold selectedProjectIdea. rewrite H. reflexivity.
Qed.

Lemma selectedProjectIdea_handleActivityCompletion (r st : AppState) (d : Today) :
  selectedProjectIdea (handleActivityCompletion r d st) = selectedProjectIdea st.
Proof.
  destruct (handleActivityCompletion_content r st d)
    as (_ & _ & _ & _ & _ & _ & H & _).
  unfold selectedProjectIdea. rewrite H. reflexivity.
Qed.

Ltac idea_writes :=
  first
    [ reflexivity
    | repeat (apply selectedProjectIdea_write;
              [|first [ apply selectedProjectIdea_addLogEntry
                      | apply selectedProjectIdea_handleActivityCompletion
                      | reflexivity ]]);
      reflexivity ].

Ltac failed_request :=
  rewrite withApiErrorHandlerC_rejected;
  cbv beta iota zeta delta [JS.truthy_opt];
  split;
    [split; [cbn [app on_app]; kept_writes | repeat split]
    |split; [cbn [app on_app]; idea_writes|];
     split; [intros _; split; reflexivity | discriminate]].

Ltac skipped_request :=
  split; [apply generated_untouched_refl|];
  split; [reflexivity|];
  split; [discriminate | reflexivity].

Lemma handleGenerateNotes_failed (r st : AppState) (error : Thrown) (env : DoneEnv) :
  let st' := handleGenerateNotes r (Rejected error) env st in
  let sent := match topic r, grade r with
              | Some tp, Some _ => JS.truthy tp
              | _, _ => false
              end in
  screen_and_content st st' ∧
  selectedProjectIdea st' = selectedProjectIdea st ∧
  (sent = true ->
   apiError st' = Some (displayed_message error) ∧ isLoading st' = false) ∧
  (sent = false -> st' = st).
Proof.
  cbv zeta. unfold handleGenerateNotes.
  destruct (topic r) as [tp|];
    [|split; [apply screen_and_content_refl|];
      split; [reflexivity|]; split; [discriminate | reflexivity]].
  destruct (grade r) as [g|];
    [|split; [apply screen_and_content_refl|];
      split; [reflexivity|]; split; [discriminate | reflexivity]].
  destruct (JS.truthy tp);
    [|split; [apply screen_and_content_refl|];
      split; [reflexivity|]; split; [discriminate | reflexivity]].
  rewrite withApiErrorHandler_rejected.
  split; [kept_writes|]. split; [reflexivity|].
  split; [intros _; split; reflexivity | discriminate].
Qed.

Lemma handleGenerateVirtualLab_failed (r st : AppState) (error : Thrown)
    (generateDiagramImage : nat -> ApiOutcome string) (env : DoneEnv) :
  let st' := handleGenerateVirtualLab r (Rejected error) generateDiagramImage env st in
  screen_and_content st st' ∧
  selectedProjectIdea st' = selectedProjectIdea st ∧
  (JS.truthy (inputPrompt r) = true ->
   apiError st' = Some (displayed_message error) ∧ isLoading st' = false) ∧
  (JS.truthy (inputPrompt r) = false -> st' = st).
Proof.
  cbv zeta. unfold handleGenerateVirtualLab.
  destruct (JS.truthy (inputPrompt r));
    [|split; [apply screen_and_content_refl|];
      split; [reflexivity|]; split; [discriminate | reflexivity]].
  rewrite withApiErrorHandler_rejected.
  split; [kept_writes|]. split; [idea_writes|].
  split; [intros _; split; reflexivity | discriminate].
Qed.

(** The image loops of the real-world examples and of the project plan:
    as for the lab, every item comes back, with the picture of its request
    or with none. *)
Lemma example_images_items (total : nat)
    (generateDiagramImage : nat -> ApiOutcome string)
    (examples : list RealWorldExample.t) :
  ∀ (i : nat) (st : AppState),
    length (fst (example_images total generateDiagramImage i examples st)) =
      length examples ∧
    (∀ k example, examples !! k = Some example ->
       fst (example_images total generateDiagramImage i examples st) !! k =
         Some (example_with_image (api_result (generateDiagramImage (i + k)%nat))
                                  example)).
Proof.
  induction examples as [|example rest IH]; intros i st.
  - simpl. split; [reflexivity|]. intros k s H. inversion H.
  - cbn [example_images].
    set (st1 := setLoadingMessage _ st).
    pose proof (withApiErrorHandler_result (generateDiagramImage i) st1) as Hres.
    destruct (withApiErrorHandler (generateDiagramImage i) st1) as [image st2].
    simpl in Hres. subst image.
    specialize (IH (S i) st2).
    destruct (example_images total generateDiagramImage (S i) rest st2)
      as [others st3].
    simpl in IH. destruct IH as (Hlen & Hitems). simpl.
    split; [rewrite Hlen; reflexivity|].
    intros [|k] s Hk; simpl in Hk |- *.
    + injection Hk as <-. rewrite Nat.add_0_r. reflexivity.
    + rewrite (Hitems k s Hk). f_equal. f_equal. f_equal. f_equal. lia.
Qed.

Lemma plan_images_items (total : nat)
    (generateDiagramImage : nat -> ApiOutcome string)
    (steps : list ScienceFairProjectStep.t) :
  ∀ (i : nat) (st : AppState),
    length (fst (plan_images total generateDiagramImage i steps st)) =
      length steps ∧
    (∀ k step, steps !! k = Some step ->
       fst (plan_images total generateDiagramImage i steps st) !! k =
         Some (plan_step_with_image (api_result (generateDiagramImage (i + k)%nat))
                                    step)).
Proof.
  induction steps as [|step rest IH]; intros i st.
  - simpl. split; [reflexivity|]. intros k s H. inversion H.
  - cbn [plan_images].
    set (st1 := setLoadingMessage _ st).
    pose proof (withApiErrorHandler_result (generateDiagramImage i) st1) as Hres.
    destruct (withApiErrorHandler (generateDiagramImage i) st1) as [image st2].
    simpl in Hres. subst image.
    specialize (IH (S i) st2).
    destruct (plan_images total generateDiagramImage (S i) rest st2)
      as [others st3].
    simpl in IH. destruct IH as (Hlen & Hitems). simpl.
    split; [rewrite Hlen; reflexivity|].
    intros [|k] s Hk; simpl in Hk |- *.
    + injection Hk as <-. rewrite Nat.add_0_r. reflexivity.
    + rewrite (Hitems k s Hk). f_equal. f_equal. f_equal. f_equal. lia.
Qed.

(** What every handler does when its request for content throws. *)
Lemma request_rejected_frame (req : Request) (error : Thrown) (env : DoneEnv)
    (r c : Component) :
  let c' := request_rejected req error env r c in
  generated_untouched c c' ∧
  selectedProjectIdea (app c') =
    match selects req r with
    | Some idea => Some idea
    | None => selectedProjectIdea (app c)
    end ∧
  (sends_request req r = true ->
   apiError (app c') = Some (displayed_message error) ∧
   isLoading (app c') = false) ∧
  (sends_request req r = false -> c' = c).
Proof.
  cbv zeta. destruct req; unfold request_rejected, selects, sends_request.
  - unfold handleGenerateDiagramIdeas.
    destruct (topic (app r)) as [tp|]; [|skipped_request].
    destruct (grade (app r)) as [g|]; [|skipped_request].
    destruct (JS.truthy tp); [|skipped_request].
    failed_request.
  - unfold handleGenerateDiagram. failed_request.
  - unfold handleGenerateQuiz.
    destruct (topic (app r)) as [tp|]; [|skipped_request].
    destruct (grade (app r)) as [g|]; [|skipped_request].
    destruct (JS.truthy tp); [|skipped_request].
    failed_request.
  - destruct (handleGenerateNotes_failed (app r) (app c) error env)
      as (Hkept & Hidea & Hsent & Hskip).
    split; [apply generated_untouched_on_app; exact Hkept|].
    split; [exact Hidea|].
    split; [exact Hsent|].
    intros H. apply on_app_same, Hskip, H.
  - unfold handleGenerateDeepDive.
    destruct (topic (app r)) as [tp|]; [|skipped_request].
    destruct (grade (app r)) as [g|]; [|skipped_request].
    destruct (JS.truthy tp); [|skipped_request].
    failed_request.
  - unfold generateAndSetStudyPlan.
    destruct (currentUser (app r)) as [cu|]; [|skipped_request].
    failed_request.
  - destruct (handleGenerateVirtualLab_failed (app r) (app c) error
                generateDiagramImage env)
      as (Hkept & Hidea & Hsent & Hskip).
    split; [apply generated_untouched_on_app; exact Hkept|].
    split; [exact Hidea|].
    split; [exact Hsent|].
    intros H. apply on_app_same, Hskip, H.
  - unfold handleGenerateRealWorldExamples.
    destruct (topic (app r)) as [tp|]; [|skipped_request].
    destruct (JS.truthy tp); [|skipped_request].
    failed_request.
  - unfold handleGenerateAIStory.
    destruct (JS.truthy (inputPrompt (app r))); [|skipped_request].
    failed_request.
  - unfold handleGenerateScienceFairIdeas.
    destruct (JS.truthy (inputPrompt (app r))); [|skipped_request].
    failed_request.
  - unfold handleGenerateScienceFairPlan.
    destruct (JS.truthy (inputPrompt (app r))); [|skipped_request].
    failed_request.
  - unfold handleExplainImage.
    destruct (scienceLensImage r) as [picture|]; [|skipped_request].
    destruct (JS.truthy (inputPrompt (app r))); [|skipped_request].
    failed_request.
Qed.

(** C7 as stated fails: the request for the picture of a lab step throws;
    the wrapper stores the message and returns [null], and the handler
    still stores the step, without a picture, and moves to the lab
    screen. *)
Lemma image_error_still_navigates :
  gameState sample_state_lab = VIRTUAL_LAB_INPUT ∧
  virtualLabSteps sample_state_lab = [] ∧
  apiError sample_lab_image_fails = Some "quota exceeded" ∧
  gameState sample_lab_image_fails = VIRTUAL_LAB_DISPLAY ∧
  virtualLabSteps sample_lab_image_fails = [sample_lab_step] ∧
  gameState sample_lab_image_fails ≠ gameState sample_state_lab ∧
  virtualLabSteps sample_lab_image_fails ≠ virtualLabSteps sample_state_lab.
Proof. repeat split; discriminate. Qed.

(** C7, amended: when a wrapped call throws, [withApiErrorHandler] stores
    the message of the error (the fixed explanatory message when the text
    contains 'API key not valid', a fixed fallback when what was thrown is
    no [Error]), clears the loading flag and returns [null].  When the call
    that throws is a handler's request for its content, the handler
    performs no navigation and leaves the generated content unchanged, for
    each of the twelve handlers that await the wrapper: diagram ideas,
    diagram, quiz and worksheet, notes, deep dive, study plan, virtual
    lab, real-world examples, story, project ideas, project plan and
    science lens; a handler that returns before its request changes
    nothing at all.  The exception is the request for a picture made per
    item after the content arrived (lab steps, real-world examples, steps
    of the project plan): the handler stores every item and moves to the
    display screen whatever happens to these requests, and an item whose
    picture request throws is kept without a picture. *)
Theorem api_error_handling (st : AppState) (error : Thrown) (env : DoneEnv) :
  (∀ A : Type,
     withApiErrorHandler (A := A) (Rejected error) st =
       (None, setIsLoading false (setApiError (Some (displayed_message error)) st))) ∧
  (∀ message, error = ErrorObject message ->
     displayed_message error =
       if JS.includes "API key not valid" message then api_key_message
       else message) ∧
  (error = NotAnError ->
     displayed_message error = "An unexpected error occurred.") ∧
  (let st' := handleGenerateNotes st (Rejected error) env st in
   content_untouched st st' ∧
   users st' = users st ∧ activityLog st' = activityLog st ∧
   (∀ tp g, topic st = Some tp -> tp ≠ EmptyString -> grade st = Some g ->
            apiError st' = Some (displayed_message error) ∧
            isLoading st' = false)) ∧
  (∀ generateDiagramImage,
     let st' := handleGenerateVirtualLab st (Rejected error)
                  generateDiagramImage env st in
     content_untouched st st' ∧
     (inputPrompt st ≠ EmptyString ->
      apiError st' = Some (displayed_message error) ∧ isLoading st' = false)) ∧
  (∀ steps generateDiagramImage,
     inputPrompt st ≠ EmptyString ->
     let st' := handleGenerateVirtualLab st (Resolved steps)
                  generateDiagramImage env st in
     gameState st' = VIRTUAL_LAB_DISPLAY ∧
     length (virtualLabSteps st') = length steps ∧
     ∀ k step, steps !! k = Some step ->
       virtualLabSteps st' !! k =
         Some (step_with_image (api_result (generateDiagramImage k)) step)) ∧
  (∀ (req : Request) (r c : Component),
     let c' := request_rejected req error env r c in
     generated_untouched c c' ∧
     selectedProjectIdea (app c') =
       match selects req r with
       | Some idea => Some idea
       | None => selectedProjectIdea (app c)
       end ∧
     (sends_request req r = true ->
      apiError (app c') = Some (displayed_message error) ∧
      isLoading (app c') = false) ∧
     (sends_request req r = false -> c' = c)) ∧
  (∀ (r c : Component) examples generateDiagramImage,
     sends_request (RealWorldExamplesRequest generateDiagramImage) r = true ->
     let c' := handleGenerateRealWorldExamples r (Resolved examples)
                 generateDiagramImage env c in
     gameState (app c') = REAL_WORLD_CONNECTIONS_DISPLAY ∧
     length (realWorldExamples c') = length examples ∧
     ∀ k example, examples !! k = Some example ->
       realWorldExamples c' !! k =
         Some (example_with_image (api_result (generateDiagramImage k)) example)) ∧
  (∀ (r c : Component) idea steps generateDiagramImage,
     sends_request (ScienceFairPlanRequest idea generateDiagramImage) r = true ->
     let c' := handleGenerateScienceFairPlan r idea (Resolved steps)
                 generateDiagramImage c in
     gameState (app c') = SCIENCE_FAIR_BUDDY_PLAN ∧
     length (scienceFairProjectPlan c') = length steps ∧
     ∀ k step, steps !! k = Some step ->
       scienceFairProjectPlan c' !! k =
         Some (plan_step_with_image (api_result (generateDiagramImage k)) step)).
Proof.
  split; [intros A; apply withApiErrorHandler_rejected|].
  split; [intros message ->; reflexivity|].
  split; [intros ->; reflexivity|].
  split; [|split; [|split; [|split; [|split]]]].
  - cbv zeta. unfold handleGenerateNotes.
    destruct (topic st) as [tp|] eqn:Htopic;
      [|split; [apply content_untouched_refl|];
        split; [reflexivity|]; split; [reflexivity|]; intros; discriminate].
    destruct (grade st) as [g|] eqn:Hgrade;
      [|split; [apply content_untouched_refl|];
        split; [reflexivity|]; split; [reflexivity|]; intros; discriminate].
    destruct (JS.truthy tp) eqn:Htruthy.
    + rewrite withApiErrorHandler_rejected. repeat split.
    + split; [apply content_untouched_refl|].
      split; [reflexivity|]. split; [reflexivity|].
      intros tp' g' [= <-] Hne _. apply truthy_false in Htruthy. contradiction.
  - intros generateDiagramImage. cbv zeta. unfold handleGenerateVirtualLab.
    destruct (JS.truthy (inputPrompt st)) eqn:Htruthy.
    + rewrite withApiErrorHandler_rejected. split.
      * set (s1 := setLoadingMessage _ (setIsLoading true st)).
        set (s2 := addLogEntry st _ _ _ s1).
        set (s3 := handleActivityCompletion st _ s2).
        apply (content_untouched_trans st s1); [repeat split|].
        apply (content_untouched_trans s1 s2); [apply addLogEntry_content|].
        apply (content_untouched_trans s2 s3);
          [apply handleActivityCompletion_content|].
        repeat split.
      * intros _. split; reflexivity.
    + split; [apply content_untouched_refl|].
      intros Hne. apply truthy_false in Htruthy. contradiction.
  - intros steps generateDiagramImage Hprompt. cbv zeta.
    unfold handleGenerateVirtualLab.
    apply truthy_true in Hprompt. rewrite Hprompt.
    cbn [withApiErrorHandler].
    match goal with
    | |- context [lab_images ?t ?f ?i ?l ?s] =>
        destruct (lab_images_steps t f l i s) as (Hlen & Hsteps & _);
        destruct (lab_images t f i l s) as [stepsWithImages s1]
    end.
    simpl in Hlen, Hsteps. split; [reflexivity|]. split; [exact Hlen|].
    intros k step Hk. exact (Hsteps k step Hk).
  - intros req r c. apply request_rejected_frame.
  - intros r c examples generateDiagramImage Hsent. cbv zeta.
    unfold sends_request in Hsent. unfold handleGenerateRealWorldExamples.
    destruct (topic (app r)) as [tp|]; [|discriminate]. rewrite Hsent.
    unfold withApiErrorHandlerC. cbn [withApiErrorHandler fst snd].
    match goal with
    | |- context [example_images ?t ?f ?i ?l ?s] =>
        destruct (example_images_items t f l i s) as (Hlen & Hitems);
        destruct (example_images t f i l s) as [examplesWithImages s1]
    end.
    simpl in Hlen, Hitems. split; [reflexivity|]. split; [exact Hlen|].
    intros k example Hk. exact (Hitems k example Hk).
  - intros r c idea steps generateDiagramImage Hsent. cbv zeta.
    unfold sends_request in Hsent. unfold handleGenerateScienceFairPlan.
    rewrite Hsent.
    unfold withApiErrorHandlerC. cbn [withApiErrorHandler fst snd].
    match goal with
    | |- context [plan_images ?t ?f ?i ?l ?s] =>
        destruct (plan_images_items t f l i s) as (Hlen & Hitems);
        destruct (plan_images t f i l s) as [stepsWithImages s1]
    end.
    simpl in Hlen, Hitems. split; [reflexivity|]. split; [exact Hlen|].
    intros k step Hk. exact (Hitems k step Hk).
Qed.

(** C7 at concrete requests: the notes for 'Light' cannot be generated
    because the key is rejected, and [ada] stays on the topic screen with
    the fixed message; the story asked for cannot be written because
    the quota is used up, and [ada] stays on the form, with no story. *)
Lemma api_error_handling_witness :
  (let st' := handleGenerateNotes sample_state_topic
                (Rejected (ErrorObject "[400] API key not valid. Pass a valid key."))
                sample_done_env sample_state_topic in
   gameState st' = TOPIC_SELECTION ∧ notes st' = [] ∧
   apiError st' = Some api_key_message ∧ isLoading st' = false) ∧
  (let c' := handleGenerateAIStory sample_component_story
               (Rejected (ErrorObject "quota exceeded")) sample_done_env
               sample_component_story in
   gameState (app c') = AI_STORY_WEAVER_INPUT ∧ aiStory c' = EmptyString ∧
   apiError (app c') = Some "quota exceeded" ∧ isLoading (app c') = false).
Proof.
  split.
  - destruct (api_error_handling sample_state_topic
                (ErrorObject "[400] API key not valid. Pass a valid key.")
                sample_done_env)
      as (_ & _ & _ & Hnotes & _).
    destruct Hnotes as (Hcontent & _ & _ & Hshown).
    destruct Hcontent as (Hgs & _ & _ & Hn & _).
    destruct (Hshown "Light" G8 eq_refl ltac:(discriminate) eq_refl)
      as [Herr Hload].
    split; [exact Hgs|]. split; [exact Hn|]. split; [exact Herr | exact Hload].
  - destruct (api_error_handling sample_state_topic (ErrorObject "quota exceeded")
                sample_done_env)
      as (_ & _ & _ & _ & _ & _ & Hrequests & _).
    destruct (Hrequests AIStoryRequest sample_component_story
                sample_component_story)
      as (Hkept & _ & Hsent & _).
    destruct Hkept as ((Hgs & _) & _ & _ & _ & _ & _ & _ & _ & Hmore).
    destruct (Hsent eq_refl) as [Herr Hload].
    split; [exact Hgs|].
    split; [exact (f_equal mc_aiStory Hmore)|].
    split; [exact Herr | exact Hload].
Defined.

(** ** Limits of the statements above *)

(** The [+=] of the leaderboard updater writes into the entry that the
    previous array holds: after the call the previous array reads with the
    points added. *)
Lemma updater_writes_prev (cu : option User.t) (username : string)
    (pointsToAdd : Z) (pic : option string) (prev : list LeaderboardEntry.t)
    (i : nat) :
  board_index username prev = Some i ->
  fst (Leaderboard.updater cu username pointsToAdd pic prev) =
    alter (Leaderboard.bump pointsToAdd pic) i prev.
Proof.
  unfold board_index, Leaderboard.updater. intros ->. reflexivity.
Qed.

(** So the updater is not idempotent on the array it was given: run once
    more on that array, it adds the points a second time. *)
Example updater_run_twice :
  let prev := leaderboard sample_state_ada_on_board in
  let once := Leaderboard.updater (Some sample_user) "ada" 3 None prev in
  let twice := Leaderboard.updater (Some sample_user) "ada" 3 None (fst once) in
  LeaderboardEntry.score <$> snd once = [8; 7] ∧
  LeaderboardEntry.score <$> snd twice = [11; 7].
Proof. split; reflexivity. Qed.

(** The badge invariant is one of handlers fired from the current screen.
    The callback of [handleAnswer] closes over the user of its render: run
    a second time, against the state the first run left, it is handed the
    same badges again and appends them again. *)
Example stale_callback_repeats_badges :
  let st1 := sample_answered sample_state_quiz in
  (badge_ids ∘ UserStats.badges ∘ User.stats) <$> currentUser st1
    = Some [QUIZ_NOVICE; PERFECT_SCORE] ∧
  (λ st2, (badge_ids ∘ UserStats.badges ∘ User.stats) <$> currentUser st2)
    <$> handleAnswer_timeout sample_keys sample_definitions sample_state_quiz
          (Some "Violet") sample_quiz_env st1
    = Some (Some [QUIZ_NOVICE; PERFECT_SCORE; QUIZ_NOVICE; PERFECT_SCORE]).
Proof. split; vm_compute; reflexivity. Qed.

(** The score statement is one of a quiz that has a last question.  On an
    empty question list the answer written at index 0 has no question to be
    compared with, and the callback ends in a [TypeError]. *)
Example empty_quiz_throws :
  handleAnswer sample_keys sample_definitions sample_state_empty_quiz None
               sample_quiz_env sample_state_empty_quiz = None.
Proof. reflexivity. Qed.

(** While an error message is stored the component returns the error
    display, whatever the screen value: after the failed request for notes
    [ada] sees the message, and the topic screen again once she dismisses
    it. *)
Example api_error_is_displayed :
  let st' := handleGenerateNotes sample_state_topic
               (Rejected (ErrorObject "[400] API key not valid. Pass a valid key."))
               sample_done_env sample_state_topic in
  App_render st' = ApiErrorDisplay api_key_message ∧
  App_render (setApiError None st') = Main (show TopicSelectionView).
Proof. split; reflexivity. Qed.

(** * Further properties *)

(** ** Leaderboard: what every update keeps *)

Module BoardFacts.
Import LeaderboardEntry Leaderboard LeaderboardFacts.

Lemma bump_username (pointsToAdd : Z) (pic : option string) (e : t) :
  username (bump pointsToAdd pic e) = username e.
Proof. reflexivity. Qed.

Lemma usernames_alter_bump (pointsToAdd : Z) (pic : option string) (i : nat)
    (l : list t) :
  map username (alter (bump pointsToAdd pic) i l) = map username l.
Proof.
  revert i. induction l as [|e l IH]; intros [|i]; simpl; try reflexivity.
  f_equal. apply IH.
Qed.

Lemma usernames_top20 (l : list t) :
  NoDup (map username l) -> NoDup (map username (take 20 (sort_desc l))).
Proof.
  intros Hnd.
  assert (Hsorted : NoDup (map username (sort_desc l))).
  { rewrite (Permutation_map username (sort_desc_perm l)). exact Hnd. }
  rewrite <- (take_drop 20 (sort_desc l)), map_app in Hsorted.
  apply NoDup_app in Hsorted as [Htake _]. exact Htake.
Qed.

Lemma updater_usernames (cu : option User.t) (name : string) (pointsToAdd : Z)
    (pic : option string) (prev : list t) :
  NoDup (map username prev) ->
  NoDup (map username (snd (updater cu name pointsToAdd pic prev))).
Proof.
  intros Hnd. unfold updater.
  destruct (JS.findIndex _ prev) as [i|] eqn:Hfind; [|destruct cu as [u|]]; simpl.
  - apply usernames_top20. rewrite usernames_alter_bump. exact Hnd.
  - apply usernames_top20. rewrite map_app. simpl.
    apply NoDup_app. split; [exact Hnd|]. split; [|apply NoDup_singleton].
    intros x Hx Hx'. apply list_elem_of_singleton in Hx'. subst x.
    apply list_elem_of_In, in_map_iff in Hx as (e & He & Hin).
    apply list_elem_of_In in Hin.
    pose proof (findIndex_None _ _ Hfind e Hin) as Hp. simpl in Hp.
    apply String.eqb_neq in Hp. contradiction.
  - apply usernames_top20, Hnd.
Qed.

Lemma updater_descending (cu : option User.t) (name : string) (pointsToAdd : Z)
    (pic : option string) (prev : list t) :
  descending (snd (updater cu name pointsToAdd pic prev)) ∧
  (length (snd (updater cu name pointsToAdd pic prev)) <= 20)%nat.
Proof.
  unfold updater.
  destruct (JS.findIndex _ prev); [|destruct cu]; simpl;
    (split; [apply take_descending, sort_desc_descending
            |rewrite length_take; lia]).
Qed.

(** A list that is in descending order is left as it is by the sort. *)
Lemma insert_desc_front (x : t) (l : list t) :
  Forall (fun y => score y <= score x) l -> insert_desc x l = x :: l.
Proof.
  destruct l as [|y l]; [reflexivity|]. intros H.
  apply Forall_cons in H as [Hy _]. simpl.
  apply Z.leb_le in Hy. rewrite Hy. reflexivity.
Qed.

Lemma sort_desc_sorted (l : list t) : descending l -> sort_desc l = l.
Proof.
  induction l as [|x l IH]; [reflexivity|]. intros Hl.
  apply StronglySorted_inv in Hl as [Hl Hx]. simpl.
  rewrite (IH Hl). apply insert_desc_front.
  eapply Forall_impl; [exact Hx|]. intros y Hy. exact Hy.
Qed.

(** An entry that no entry of the list beats, added at the end, stays at
    the end: the sort is stable. *)
Lemma insert_desc_snoc (y x : t) (s : list t) :
  score x <= score y -> insert_desc y (s ++ [x]) = insert_desc y s ++ [x].
Proof.
  intros Hxy. induction s as [|z s IH]; simpl.
  - apply Z.leb_le in Hxy. rewrite Hxy. reflexivity.
  - destruct (score z <=? score y); [reflexivity|].
    rewrite IH. reflexivity.
Qed.

Lemma sort_desc_snoc (x : t) (l : list t) :
  (∀ y, y ∈ l -> score x <= score y) ->
  sort_desc (l ++ [x]) = sort_desc l ++ [x].
Proof.
  induction l as [|y l IH]; intros Hall; [reflexivity|]. simpl.
  rewrite IH by (intros z Hz; apply Hall; right; exact Hz).
  apply insert_desc_snoc, Hall. left.
Qed.

End BoardFacts.

(** X1: whatever updates are made, one after the other, a board on which
    no two entries share a username stays such a board; after at least one
    update it is in descending order of score and has at most 20
    entries. *)
Theorem board_all_usernames_distinct (calls : list BoardCall)
    (board : list LeaderboardEntry.t) :
  NoDup (map LeaderboardEntry.username board) ->
  NoDup (map LeaderboardEntry.username (board_all calls board)) ∧
  (calls ≠ [] ->
   Leaderboard.descending (board_all calls board) ∧
   (length (board_all calls board) <= 20)%nat).
Proof.
  revert board. induction calls as [|call calls IH] using rev_ind;
    intros board Hnd.
  - split; [exact Hnd|]. intros H. contradiction.
  - unfold board_all in *. rewrite fold_left_app. simpl.
    destruct (IH board Hnd) as [Hnames _].
    split; [apply BoardFacts.updater_usernames, Hnames|].
    intros _. apply BoardFacts.updater_descending.
Qed.

(** X1 on the empty board: [ada] scores twice, [bob] once. *)
Lemma board_all_usernames_distinct_witness :
  let board :=
    board_all [ mkBoardCall (Some sample_user) "ada" 3 None;
                mkBoardCall (Some sample_admin) "bob" 5 None;
                mkBoardCall (Some sample_user) "ada" 4 None ] [] in
  NoDup (map LeaderboardEntry.username board) ∧
  map LeaderboardEntry.username board = ["ada"; "bob"] ∧
  map LeaderboardEntry.score board = [7; 5].
Proof.
  intros board.
  destruct (board_all_usernames_distinct
              [ mkBoardCall (Some sample_user) "ada" 3 None;
                mkBoardCall (Some sample_admin) "bob" 5 None;
                mkBoardCall (Some sample_user) "ada" 4 None ] []
              (NoDup_nil_2 (A := string))) as [Hnd _].
  split; [exact Hnd|]. split; reflexivity.
Defined.

(** X2: on a full board of 20 a logged-in newcomer gets on the board
    exactly when the points beat the score of some entry; with points equal
    to the lowest score the newcomer stays out. *)
Theorem newcomer_enters_full_board (st : AppState) (cu : User.t)
    (username : string) (pointsToAdd : Z) (pic : option string) :
  length (leaderboard st) = 20%nat ->
  board_index username (leaderboard st) = None ->
  currentUser st = Some cu ->
  (Leaderboard.fresh cu username pointsToAdd pic
     ∈ board_after st username pointsToAdd pic
   ↔ ∃ y, y ∈ leaderboard st ∧ LeaderboardEntry.score y < pointsToAdd).
Proof.
  intros Hlen Hnone Hcu.
  rewrite (board_after_pushed st username pointsToAdd pic cu Hnone Hcu).
  set (prev := leaderboard st) in *.
  set (x := Leaderboard.fresh cu username pointsToAdd pic).
  assert (Hx_new : x ∉ prev).
  { intros Hin. pose proof (findIndex_None _ _ Hnone x Hin) as Hp.
    simpl in Hp. rewrite String.eqb_refl in Hp. discriminate. }
  split.
  - intros Hin.
    destruct (decide (Exists (fun y => LeaderboardEntry.score y < pointsToAdd) prev))
      as [Hex|Hno].
    + apply Exists_exists in Hex. exact Hex.
    + exfalso. apply Hx_new.
      rewrite BoardFacts.sort_desc_snoc in Hin.
      * rewrite take_app_le in Hin
          by (rewrite (Permutation_length (LeaderboardFacts.sort_desc_perm prev)); lia).
        apply subseteq_take in Hin.
        rewrite LeaderboardFacts.sort_desc_perm in Hin. exact Hin.
      * intros y Hy. simpl.
        destruct (Z.le_gt_cases pointsToAdd (LeaderboardEntry.score y)) as [Hle|Hgt];
          [exact Hle|].
        exfalso. apply Hno, Exists_exists. exists y. split; [exact Hy | lia].
  - intros (y & Hy & Hlt).
    destruct (LeaderboardFacts.top20_survives x (prev ++ [x])) as [Hin|[Hfull Hall]].
    + apply elem_of_app. right. apply list_elem_of_singleton. reflexivity.
    + exact Hin.
    + set (s := Leaderboard.sort_desc (prev ++ [x])) in *.
      assert (Hlen_s : length s = 21%nat).
      { unfold s. rewrite (Permutation_length (LeaderboardFacts.sort_desc_perm _)).
        rewrite length_app. simpl. lia. }
      assert (Hy' : y ∈ s).
      { unfold s. rewrite LeaderboardFacts.sort_desc_perm.
        apply elem_of_app. left. exact Hy. }
      assert (Hx' : x ∈ s).
      { unfold s. rewrite LeaderboardFacts.sort_desc_perm.
        apply elem_of_app. right. apply list_elem_of_singleton. reflexivity. }
      rewrite <- (take_drop 20 s) in Hy', Hx'.
      apply elem_of_app in Hy' as [Hy'|Hy'].
      * (* an entry with fewer points is on the board: impossible *)
        specialize (Hall y Hy'). simpl in Hall. lia.
      * (* the entry with fewer points is the one that was cut *)
        apply elem_of_app in Hx' as [Hx'|Hx']; [exact Hx'|].
        exfalso.
        destruct (drop 20 s) as [|z [|z' rest]] eqn:Hd.
        -- inversion Hy'.
        -- apply list_elem_of_singleton in Hy', Hx'.
           assert (Heq : LeaderboardEntry.score x = LeaderboardEntry.score y)
             by congruence.
           simpl in Heq. lia.
        -- assert (length (drop 20 s) = 1%nat) as Hl
             by (rewrite length_drop; lia).
           rewrite Hd in Hl. simpl in Hl. lia.
Qed.

(** X2 on the board of twenty players at 10 points: 1 point does not get
    [ada] on it. *)
Lemma newcomer_enters_full_board_witness :
  ¬ (Leaderboard.fresh sample_user "ada" 1 None
       ∈ board_after sample_state_full_board "ada" 1 None).
Proof.
  intros Hin.
  apply (newcomer_enters_full_board sample_state_full_board sample_user "ada" 1
           None eq_refl eq_refl eq_refl) in Hin as (y & Hy & Hlt).
  assert (Hall : Forall (fun y => ¬ LeaderboardEntry.score y < 1)
                        (leaderboard sample_state_full_board)).
  { apply (bool_decide_unpack _). vm_compute. exact I. }
  rewrite Forall_forall in Hall. exact (Hall y Hy Hlt).
Defined.

(** X3: an update that does not overflow the board loses nobody and
    changes nobody else: with the user on a board of at most 20 entries the
    new board is a rearrangement of the old one with only the user's entry
    updated; with the user absent from a board of fewer than 20 entries and
    someone logged in, it is a rearrangement of the old board and the fresh
    entry. *)
Theorem update_without_cut (st : AppState) (username : string) (pointsToAdd : Z)
    (pic : option string) :
  (∀ i, board_index username (leaderboard st) = Some i ->
        (length (leaderboard st) <= 20)%nat ->
        board_after st username pointsToAdd pic
          ≡ₚ alter (Leaderboard.bump pointsToAdd pic) i (leaderboard st)) ∧
  (∀ cu, board_index username (leaderboard st) = None ->
         currentUser st = Some cu ->
         (length (leaderboard st) < 20)%nat ->
         board_after st username pointsToAdd pic
           ≡ₚ leaderboard st ++ [Leaderboard.fresh cu username pointsToAdd pic]).
Proof.
  split.
  - intros i Hi Hlen. rewrite (board_after_found st username pointsToAdd pic i Hi).
    rewrite take_ge; [apply LeaderboardFacts.sort_desc_perm|].
    rewrite (Permutation_length (LeaderboardFacts.sort_desc_perm _)), length_alter.
    exact Hlen.
  - intros cu Hnone Hcu Hlen.
    rewrite (board_after_pushed st username pointsToAdd pic cu Hnone Hcu).
    rewrite take_ge; [apply LeaderboardFacts.sort_desc_perm|].
    rewrite (Permutation_length (LeaderboardFacts.sort_desc_perm _)), length_app.
    simpl. lia.
Qed.

(** X3 on a board of two: [bob] keeps his entry when [ada] scores. *)
Lemma update_without_cut_witness :
  LeaderboardEntry.mk "id-bob" "bob" 7 None
    ∈ board_after sample_state_ada_on_board "ada" 3 None.
Proof.
  destruct (update_without_cut sample_state_ada_on_board "ada" 3 None)
    as [Hfound _].
  rewrite (Hfound 1%nat eq_refl ltac:(simpl; lia)).
  simpl. left.
Defined.

Lemma bump_nothing (pic : option string) (e : LeaderboardEntry.t) :
  JS.truthy_opt pic = false -> Leaderboard.bump 0 pic e = e.
Proof.
  intros Hpic. destruct e as [uid name sc url]. unfold Leaderboard.bump. simpl.
  rewrite Hpic, Z.add_0_r. reflexivity.
Qed.

(** X4: on a board in descending order with at most 20 entries, an update
    that adds no points and brings no picture for a user who is on the
    board changes nothing: equal scores keep their places. *)
Theorem update_nothing (st : AppState) (username : string) (pic : option string)
    (i : nat) :
  Leaderboard.descending (leaderboard st) ->
  (length (leaderboard st) <= 20)%nat ->
  board_index username (leaderboard st) = Some i ->
  JS.truthy_opt pic = false ->
  board_after st username 0 pic = leaderboard st.
Proof.
  intros Hsorted Hlen Hi Hpic.
  rewrite (board_after_found st username 0 pic i Hi).
  rewrite list_alter_id by (intros e; apply bump_nothing, Hpic).
  rewrite BoardFacts.sort_desc_sorted by exact Hsorted.
  apply take_ge, Hlen.
Qed.

(** X4 on the board of [bob] and [ada]. *)
Lemma update_nothing_witness :
  board_after sample_state_ada_on_board "ada" 0 None
  = leaderboard sample_state_ada_on_board.
Proof.
  apply (update_nothing sample_state_ada_on_board "ada" None 1%nat).
  - repeat constructor; simpl; lia.
  - simpl. lia.
  - reflexivity.
  - reflexivity.
Defined.

(** ** Activity log: the calls of a session *)

Lemma addLogEntry_entry_of (call : LogCall) (st : AppState) :
  addLogEntry (lc_render call) (lc_stamp call) (lc_type call) (lc_details call) st
  = match entry_of call with
    | Some newLog => setActivityLog (newLog :: take 49 (activityLog st)) st
    | None => st
    end.
Proof.
  unfold addLogEntry, entry_of. destruct (currentUser (lc_render call)); reflexivity.
Qed.

Lemma take_49_50 {A} (x : A) (l : list A) :
  x :: take 49 (take 50 l) = take 50 (x :: l).
Proof. rewrite take_take. reflexivity. Qed.

Lemma setActivityLog_twice (v w : list ActivityLog.t) (st : AppState) :
  setActivityLog v (setActivityLog w st) = setActivityLog v st.
Proof. reflexivity. Qed.

(** The state after a run of calls. *)
Lemma log_all_entries (calls : list LogCall) (st : AppState) :
  log_all calls st =
    match omap entry_of calls with
    | [] => st
    | written =>
        setActivityLog (take 50 (rev written ++ activityLog st)) st
    end.
Proof.
  induction calls as [|call calls IH] using rev_ind; [reflexivity|].
  unfold log_all in *. rewrite fold_left_app. simpl.
  rewrite addLogEntry_entry_of, omap_app, IH. simpl.
  destruct (entry_of call) as [newLog|]; simpl.
  - destruct (omap entry_of calls) as [|e es]; simpl; [reflexivity|].
    rewrite activityLog_setActivityLog, setActivityLog_twice, take_49_50.
    change (e :: es ++ [newLog]) with ((e :: es) ++ [newLog]).
    rewrite rev_app_distr. reflexivity.
  - rewrite app_nil_r. reflexivity.
Qed.

(** X5: the activity log is a bounded history, newest first.  After any run
    of [addLogEntry] calls the log consists of the entries written (those
    of calls fired under a logged-in user), the latest first, followed by
    the old log, all cut to 50; a run that writes nothing changes nothing,
    and no run writes anything but the log. *)
Theorem log_all_newest_first (calls : list LogCall) (st : AppState) :
  let written := omap entry_of calls in
  (written = [] -> log_all calls st = st) ∧
  (written ≠ [] ->
   activityLog (log_all calls st) = take 50 (rev written ++ activityLog st)) ∧
  ((length (activityLog st) <= 50)%nat ->
   activityLog (log_all calls st) = take 50 (rev written ++ activityLog st)) ∧
  log_all calls st = setActivityLog (activityLog (log_all calls st)) st.
Proof.
  intros written. rewrite log_all_entries. fold written.
  destruct written as [|e es] eqn:Hw.
  - split; [reflexivity|]. split; [intros H; contradiction|].
    split; [|destruct st as [? ? ? ? ? ? ? []]; reflexivity].
    intros Hlen. simpl. rewrite take_ge by exact Hlen. reflexivity.
  - split; [discriminate|]. repeat split.
Qed.

(** X5 at a concrete run: [ada] logs two events on top of fifty of [bob];
    a call fired from the login form writes nothing. *)
Lemma log_all_newest_first_witness :
  let calls :=
    [ mkLogCall sample_state_full_log sample_stamp "QUIZ_STARTED" [];
      mkLogCall sample_state_form sample_stamp "USER_LOGIN" [];
      mkLogCall sample_state_full_log sample_stamp "QUIZ_COMPLETED" [] ] in
  map ActivityLog.type (take 3 (activityLog (log_all calls sample_state_full_log)))
    = ["QUIZ_COMPLETED"; "QUIZ_STARTED"; "QUIZ_STARTED"] ∧
  length (activityLog (log_all calls sample_state_full_log)) = 50%nat.
Proof.
  intros calls.
  destruct (log_all_newest_first calls sample_state_full_log)
    as (_ & _ & Hlog & _).
  rewrite (Hlog ltac:(simpl; lia)). split; reflexivity.
Defined.

(** ** Stats updates *)

Lemma with_stats_compose (f g : UserStats.t -> UserStats.t) (user : User.t) :
  with_stats f (with_stats g user) = with_stats (f ∘ g) user.
Proof. reflexivity. Qed.

(** X6: stats updates fired from one render compose: the second is applied
    to what the first one wrote, so none of the two is lost. *)
Theorem updateUserStats_compose (r st : AppState)
    (f g : UserStats.t -> UserStats.t) :
  updateUserStats r f (updateUserStats r g st) = updateUserStats r (f ∘ g) st.
Proof.
  unfold updateUserStats.
  destruct (currentUserId r) as [cid|]; [|reflexivity].
  destruct (JS.truthy cid); [|reflexivity].
  rewrite users_setUsers. unfold setUsers, with_userManagement. simpl.
  f_equal. f_equal. rewrite map_map. apply map_ext. intros user.
  destruct (String.eqb (User.id user) cid) eqn:Hid; simpl.
  - rewrite Hid. reflexivity.
  - rewrite Hid. reflexivity.
Qed.

(** What a completed activity does: nothing, or the streak update of the
    users with the logged-in id. *)
Lemma handleActivityCompletion_cases (st : AppState) (d : Today) :
  handleActivityCompletion st d st = st ∨
  ∃ cu cid newStreak,
    currentUser st = Some cu ∧ currentUserId st = Some cid ∧
    handleActivityCompletion st d st =
      setUsers (users_with_stats cid (streak_update newStreak (todayStr d))
                                 (users st)) st.
Proof.
  unfold handleActivityCompletion.
  destruct (currentUser st) as [cu|] eqn:Hcu; [|left; reflexivity].
  destruct (String.eqb _ _); [left; reflexivity|].
  unfold updateUserStats.
  destruct (currentUserId st) as [cid|] eqn:Hcid; [|left; reflexivity].
  destruct (JS.truthy cid); [|left; reflexivity].
  right. eexists cu, cid, _. repeat split.
Qed.

(** X7: a day counts once.  After [handleActivityCompletion], a second
    completion on the same day, fired from the state the first one left,
    changes nothing. *)
Theorem handleActivityCompletion_once_a_day (st : AppState) (d : Today) :
  let st1 := handleActivityCompletion st d st in
  handleActivityCompletion st1 d st1 = st1.
Proof.
  intros st1. subst st1.
  destruct (handleActivityCompletion_cases st d)
    as [Hsame|(cu & cid & newStreak & Hcu & Hcid & Heq)].
  - rewrite !Hsame. reflexivity.
  - rewrite Heq.
    set (f := streak_update newStreak (todayStr d)).
    set (st1 := setUsers _ st).
    assert (Hcu1 : currentUser st1 = Some (with_stats f cu)).
    { unfold currentUser, st1. rewrite currentUserId_setUsers, Hcid, users_setUsers.
      unfold users_with_stats. rewrite find_after_stats_update.
      unfold currentUser in Hcu. rewrite Hcid in Hcu. rewrite Hcu. reflexivity. }
    unfold handleActivityCompletion. rewrite Hcu1, or_else_empty. simpl.
    rewrite String.eqb_refl. reflexivity.
Qed.

(** ** Badges: what an award writes *)

Lemma log_badges_entries (r : AppState) (cu : User.t) (env : BadgeEnv)
    (earned : list Badge.t) (st : AppState) :
  currentUser r = Some cu ->
  fold_left
    (fun st' badge =>
       addLogEntry r (logStampAt env (Badge.id badge)) "BADGE_EARNED"
                   [("badgeName", DStr (Badge.name badge))] st')
    earned st
  = log_all
      (map (fun badge =>
              mkLogCall r (logStampAt env (Badge.id badge)) "BADGE_EARNED"
                        [("badgeName", DStr (Badge.name badge))]) earned)
      st ∧
  omap entry_of
    (map (fun badge =>
            mkLogCall r (logStampAt env (Badge.id badge)) "BADGE_EARNED"
                      [("badgeName", DStr (Badge.name badge))]) earned)
  = map (badge_log_entry cu env) earned.
Proof.
  intros Hcu. split.
  - unfold log_all. revert st.
    induction earned as [|b earned IH]; intros st; [reflexivity|].
    simpl. apply IH.
  - induction earned as [|b earned IH]; [reflexivity|].
    simpl. rewrite <- IH. unfold entry_of at 1. simpl. rewrite Hcu.
    reflexivity.
Qed.

(** X8: an award that earns nothing writes nothing.  An award that earns
    badges stores exactly them for the badge window, opens the window, and
    logs one BADGE_EARNED entry per badge, the last earned first, on top of
    the old log cut to 50; nothing else is written.  The badges come in
    the order of the keys of the table. *)
Theorem awardBadges_writes (BADGE_KEYS : list BadgeType)
    (BADGE_DEFINITIONS : BadgeType -> BadgeDefinition.t)
    (r st : AppState) (score questionCount : Z) (topic : string) (env : BadgeEnv) :
  let earned :=
    fst (awardBadges BADGE_KEYS BADGE_DEFINITIONS r score questionCount topic env st) in
  let st' :=
    snd (awardBadges BADGE_KEYS BADGE_DEFINITIONS r score questionCount topic env st) in
  (earned = [] -> st' = st) ∧
  (∀ cu, currentUser r = Some cu -> earned ≠ [] ->
     newBadges st' = earned ∧
     showBadgeModal st' = true ∧
     activityLog st' =
       take 50 (rev (map (badge_log_entry cu env) earned) ++ activityLog st) ∧
     leaderboard st' = leaderboard st ∧ users st' = users st ∧
     bookkeeping_only st st') ∧
  badge_ids earned `sublist_of` BADGE_KEYS.
Proof.
  intros earned st'.
  assert (Hsub : badge_ids earned `sublist_of` BADGE_KEYS).
  { subst earned. unfold awardBadges.
    destruct (currentUser r); [|apply sublist_nil_l].
    destruct (0 <? length _)%nat; apply earned_loop_sublist. }
  split; [|split; [|exact Hsub]]; clear Hsub.
  - subst earned st'. unfold awardBadges.
    destruct (currentUser r) as [cu|]; [|reflexivity].
    destruct (0 <? length _)%nat eqn:Hpos; [|reflexivity].
    simpl. intros Hnil. rewrite Hnil in Hpos. discriminate.
  - intros cu Hcu Hne.
    pose proof (awardBadges_bookkeeping BADGE_KEYS BADGE_DEFINITIONS r st score
                  questionCount topic env) as [Hbook Husers].
    fold st' in Hbook, Husers.
    assert (Hst' : st' =
      log_all
        (map (fun badge =>
                mkLogCall r (logStampAt env (Badge.id badge)) "BADGE_EARNED"
                          [("badgeName", DStr (Badge.name badge))]) earned)
        (setShowBadgeModal true (setNewBadges earned st))).
    { subst earned st'. unfold awardBadges in *. rewrite Hcu in *.
      destruct (0 <? length _)%nat eqn:Hpos.
      - simpl. apply (log_badges_entries r cu env _ _ Hcu).
      - simpl in Hne. apply Nat.ltb_ge in Hpos.
        destruct (earned_loop _ _ _ _ _ _); [contradiction | simpl in Hpos; lia]. }
    destruct (log_badges_entries r cu env earned st Hcu) as [_ Hentries].
    assert (Hmap : map (badge_log_entry cu env) earned ≠ []).
    { destruct earned; [contradiction | discriminate]. }
    split; [|split; [|split; [|split; [|split; [exact Husers | exact Hbook]]]]].
    + rewrite Hst', log_all_entries, Hentries.
      destruct (map (badge_log_entry cu env) earned); [contradiction | reflexivity].
    + rewrite Hst', log_all_entries, Hentries.
      destruct (map (badge_log_entry cu env) earned); [contradiction | reflexivity].
    + rewrite Hst', log_all_entries, Hentries.
      destruct (map (badge_log_entry cu env) earned); [contradiction | reflexivity].
    + rewrite Hst', log_all_entries, Hentries.
      destruct (map (badge_log_entry cu env) earned); [contradiction | reflexivity].
Qed.

(** X8 at [ada]'s first faultless quiz: two badges, two log entries. *)
Lemma awardBadges_writes_witness :
  let st' := snd (awardBadges sample_keys sample_definitions sample_state_quiz
                              2 2 "Light" sample_badge_env sample_state_quiz) in
  badge_ids (newBadges st') = [QUIZ_NOVICE; PERFECT_SCORE] ∧
  showBadgeModal st' = true ∧
  map ActivityLog.details (activityLog st')
    = [ [("badgeName", DStr "Perfect Score")];
        [("badgeName", DStr "Quiz Novice")] ].
Proof.
  intros st'.
  destruct (awardBadges_writes sample_keys sample_definitions sample_state_quiz
              sample_state_quiz 2 2 "Light" sample_badge_env) as (_ & Hwrites & _).
  destruct (Hwrites sample_user eq_refl ltac:(discriminate))
    as (Hnew & Hmodal & Hlog & _).
  fold st' in Hnew, Hmodal, Hlog.
  rewrite Hnew, Hmodal, Hlog. repeat split.
Defined.

(** ** Quiz: from the first answer to the score *)

(** X9: an answer to a question that is not the last one records the
    answer, moves to the next question and restarts the timer of a timed
    quiz; it writes neither the score nor the screen, the questions, the
    users, the leaderboard or the log. *)
Theorem handleAnswer_advances (BADGE_KEYS : list BadgeType)
    (BADGE_DEFINITIONS : BadgeType -> BadgeDefinition.t)
    (st : AppState) (answer : option string) (env : QuizEnv) :
  (S (currentQuestionIndex st) < length (questions st))%nat ->
  ∃ st',
    handleAnswer BADGE_KEYS BADGE_DEFINITIONS st answer env st = Some st' ∧
    currentQuestionIndex st' = S (currentQuestionIndex st) ∧
    userAnswers st' = newAnswers_of st answer ∧
    timeLeft st' =
      (if 0 <? timePerQuestion st then timePerQuestion st else timeLeft st) ∧
    score st' = score st ∧
    gameState st' = gameState st ∧
    userManagement st' = userManagement st ∧
    selections st' = selections st ∧
    dataLoading st' = dataLoading st ∧
    newFeatures st' = newFeatures st ∧
    authState st' = authState st ∧
    gamification st' = gamification st.
Proof.
  intros Hnext. unfold handleAnswer, handleAnswer_timeout.
  change (currentQuestionIndex (handleAnswer_now st answer st))
    with (currentQuestionIndex st).
  destruct (Z.ltb_spec (Z.of_nat (currentQuestionIndex st))
                       (Z.of_nat (length (questions st)) - 1)) as [_|Hge]; [|lia].
  eexists. split; [reflexivity|].
  destruct (0 <? timePerQuestion st); repeat split.
Qed.

(** X9 at a concrete quiz: the first of two questions is answered. *)
Lemma handleAnswer_advances_witness :
  let st := sample_state_quiz_start in
  ∃ st',
    handleAnswer sample_keys sample_definitions st (Some "Refraction")
                 sample_quiz_env st = Some st' ∧
    currentQuestionIndex st' = 1%nat ∧
    userAnswers st' = [Str "Refraction"; Null] ∧
    timeLeft st' = 30 ∧ gameState st' = QUIZ_IN_PROGRESS.
Proof.
  intros st.
  destruct (handleAnswer_advances sample_keys sample_definitions st
              (Some "Refraction") sample_quiz_env ltac:(vm_compute; lia))
    as (st' & Hrun & Hidx & Hans & Htime & _ & Hgs & _).
  exists st'. split; [exact Hrun|].
  split; [exact Hidx|]. split; [exact Hans|]. split; [exact Htime | exact Hgs].
Defined.

(** *** The last answer of a logged-in user *)

Lemma currentUser_has_id (st : AppState) (cu : User.t) :
  currentUser st = Some cu -> currentUserId st = Some (User.id cu).
Proof.
  unfold currentUser. destruct (currentUserId st) as [cid|]; [|discriminate].
  intros Hfind. apply find_some in Hfind as [_ Heq].
  apply String.eqb_eq in Heq. congruence.
Qed.

Lemma gamification_updateUserStats (r st : AppState)
    (updateFn : UserStats.t -> UserStats.t) :
  gamification (updateUserStats r updateFn st) = gamification st.
Proof.
  unfold updateUserStats. destruct (currentUserId r) as [cid|]; [|reflexivity].
  destruct (JS.truthy cid); reflexivity.
Qed.

Lemma gamification_handleActivityCompletion (r st : AppState) (d : Today) :
  gamification (handleActivityCompletion r d st) = gamification st.
Proof.
  unfold handleActivityCompletion. destruct (currentUser r); [|reflexivity].
  destruct (String.eqb _ _); [reflexivity|]. apply gamification_updateUserStats.
Qed.

(** The streak update as a stats update of the logged-in user. *)
Lemma handleActivityCompletion_day_update (r st : AppState) (d : Today)
    (cu : User.t) :
  currentUser r = Some cu ->
  handleActivityCompletion r d st = st ∧ day_update cu d = id ∨
  handleActivityCompletion r d st = updateUserStats r (day_update cu d) st.
Proof.
  intros Hcu. unfold handleActivityCompletion, day_update. rewrite Hcu.
  rewrite or_else_empty.
  destruct (String.eqb (todayStr d) _); [left; split; reflexivity|].
  right. reflexivity.
Qed.

Lemma users_with_stats_id (cid : string) (us : list User.t) :
  users_with_stats cid id us = us.
Proof.
  unfold users_with_stats. induction us as [|u us IH]; [reflexivity|].
  simpl. rewrite IH. destruct (String.eqb (User.id u) cid); [|reflexivity].
  destruct u; reflexivity.
Qed.

Lemma users_with_stats_compose (cid : string)
    (f g : UserStats.t -> UserStats.t) (us : list User.t) :
  users_with_stats cid f (users_with_stats cid g us)
  = users_with_stats cid (f ∘ g) us.
Proof.
  unfold users_with_stats. rewrite map_map. apply map_ext. intros user.
  destruct (String.eqb (User.id user) cid) eqn:Hid; simpl; rewrite Hid;
    reflexivity.
Qed.

(** The state an award leaves. *)
Lemma awardBadges_state (BADGE_KEYS : list BadgeType)
    (BADGE_DEFINITIONS : BadgeType -> BadgeDefinition.t)
    (r st : AppState) (score questionCount : Z) (topic : string)
    (env : BadgeEnv) (cu : User.t) :
  currentUser r = Some cu ->
  let earned :=
    earned_loop BADGE_DEFINITIONS cu
      (updatedStats (User.stats cu) score questionCount topic)
      (mkQuizResult score questionCount topic) env BADGE_KEYS in
  awardBadges BADGE_KEYS BADGE_DEFINITIONS r score questionCount topic env st =
    (earned,
     match earned with
     | [] => st
     | _ =>
         setActivityLog
           (take 50 (rev (map (badge_log_entry cu env) earned) ++ activityLog st))
           (setShowBadgeModal true (setNewBadges earned st))
     end).
Proof.
  intros Hcu earned. unfold awardBadges. rewrite Hcu. fold earned.
  destruct (log_badges_entries r cu env earned
              (setShowBadgeModal true (setNewBadges earned st)) Hcu)
    as [Hfold Hentries].
  destruct earned as [|b bs] eqn:Hearned; [reflexivity|].
  rewrite <- Hearned in *.
  assert (Hpos : (0 <? length earned)%nat = true).
  { rewrite Hearned. reflexivity. }
  rewrite Hpos. f_equal. rewrite Hfold, log_all_entries, Hentries.
  rewrite Hearned. reflexivity.
Qed.

(** The last answer of a logged-in user with a topic, written out. *)
Lemma handleAnswer_completed (BADGE_KEYS : list BadgeType)
    (BADGE_DEFINITIONS : BadgeType -> BadgeDefinition.t)
    (st : AppState) (answer : option string) (env : QuizEnv)
    (cu : User.t) (tp : string) :
  S (currentQuestionIndex st) = length (questions st) ->
  (length (userAnswers st) <= length (questions st))%nat ->
  currentUser st = Some cu -> topic st = Some tp -> tp ≠ EmptyString ->
  let finalScore := finalScore_of st answer in
  let questionCount := Z.of_nat (length (questions st)) in
  let earned :=
    earned_loop BADGE_DEFINITIONS cu
      (updatedStats (User.stats cu) finalScore questionCount tp)
      (mkQuizResult finalScore questionCount tp) (qe_badges env) BADGE_KEYS in
  handleAnswer BADGE_KEYS BADGE_DEFINITIONS st answer env st =
    Some
      (handleActivityCompletion st (qe_today env)
         (addLogEntry st (qe_completed env) "QUIZ_COMPLETED"
            [("topic", DStr tp); ("score", DNum finalScore);
             ("questionCount", DNum questionCount)]
            (updateLeaderboard st (User.username cu) finalScore
               (User.profilePictureUrl cu)
               (updateUserStats st
                  (quiz_stats_update tp finalScore questionCount earned)
                  (snd (awardBadges BADGE_KEYS BADGE_DEFINITIONS st finalScore
                          questionCount tp (qe_badges env)
                          (setGameState QUIZ_SCORE
                             (setScore finalScore
                                (handleAnswer_now st answer st))))))))).
Proof.
  intros Hlast Hlen Hcu Htopic Htp finalScore questionCount earned.
  unfold handleAnswer, handleAnswer_timeout.
  destruct (Z.ltb_spec (Z.of_nat (currentQuestionIndex st))
                       (Z.of_nat (length (questions st)) - 1)) as [Hlt|_];
    [lia|].
  rewrite (final_score_loop st answer Hlast Hlen). fold (finalScore_of st answer).
  fold finalScore. rewrite Hcu, Htopic.
  apply truthy_true in Htp. rewrite Htp. fold questionCount.
  rewrite (awardBadges_state BADGE_KEYS BADGE_DEFINITIONS st _ finalScore
             questionCount tp (qe_badges env) cu Hcu).
  fold earned. reflexivity.
Qed.

(** The users after the last answer of a logged-in user with a topic. *)
Lemma handleAnswer_completed_users (BADGE_KEYS : list BadgeType)
    (BADGE_DEFINITIONS : BadgeType -> BadgeDefinition.t)
    (st : AppState) (answer : option string) (env : QuizEnv)
    (cu : User.t) (tp : string) :
  S (currentQuestionIndex st) = length (questions st) ->
  (length (userAnswers st) <= length (questions st))%nat ->
  currentUser st = Some cu -> User.id cu ≠ EmptyString ->
  topic st = Some tp -> tp ≠ EmptyString ->
  let finalScore := finalScore_of st answer in
  let questionCount := Z.of_nat (length (questions st)) in
  let earned :=
    earned_loop BADGE_DEFINITIONS cu
      (updatedStats (User.stats cu) finalScore questionCount tp)
      (mkQuizResult finalScore questionCount tp) (qe_badges env) BADGE_KEYS in
  ∃ st',
    handleAnswer BADGE_KEYS BADGE_DEFINITIONS st answer env st = Some st' ∧
    users st' =
      users_with_stats (User.id cu)
        (day_update cu (qe_today env)
           ∘ quiz_stats_update tp finalScore questionCount earned)
        (users st) ∧
    currentUserId st' = currentUserId st.
Proof.
  intros Hlast Hlen Hcu Hid Htopic Htp finalScore questionCount earned.
  pose proof (currentUser_has_id st cu Hcu) as Hcid.
  set (q := quiz_stats_update tp finalScore questionCount earned).
  set (f := day_update cu (qe_today env) ∘ q).
  eexists.
  split; [apply (handleAnswer_completed BADGE_KEYS BADGE_DEFINITIONS st answer
                   env cu tp Hlast Hlen Hcu Htopic Htp)|].
  fold finalScore questionCount earned q.
  set (st2 := snd (awardBadges _ _ st finalScore questionCount tp _ _)).
  destruct (awardBadges_bookkeeping BADGE_KEYS BADGE_DEFINITIONS st
              (setGameState QUIZ_SCORE
                 (setScore finalScore (handleAnswer_now st answer st)))
              finalScore questionCount tp (qe_badges env))
    as [[Hcid2 _] Hst2].
  fold st2 in Hcid2, Hst2.
  change (users st2 = users st) in Hst2.
  change (currentUserId st2 = currentUserId st) in Hcid2.
  set (st5 := addLogEntry st _ _ _ _).
  assert (Hst5 : users st5 = users_with_stats (User.id cu) q (users st)).
  { subst st5. rewrite users_addLogEntry. unfold updateLeaderboard.
    change (users (setLeaderboard ?v ?s)) with (users s).
    rewrite (updateUserStats_logged_in st st2 (User.id cu) q Hcid Hid).
    rewrite users_setUsers, Hst2. reflexivity. }
  assert (Hid5 : currentUserId st5 = currentUserId st).
  { subst st5. rewrite currentUserId_addLogEntry. unfold updateLeaderboard.
    change (currentUserId (setLeaderboard ?v ?s)) with (currentUserId s).
    rewrite (updateUserStats_logged_in st st2 (User.id cu) q Hcid Hid).
    rewrite currentUserId_setUsers. exact Hcid2. }
  set (st' := handleActivityCompletion st (qe_today env) st5).
  assert (Husers : users st' = users_with_stats (User.id cu) f (users st) ∧
                   currentUserId st' = currentUserId st).
  { subst st' f.
    destruct (handleActivityCompletion_day_update st st5 (qe_today env) cu Hcu)
      as [[-> Hday]| ->].
    - rewrite Hday, Hst5. split; [reflexivity | exact Hid5].
    - rewrite (updateUserStats_logged_in st st5 (User.id cu) _ Hcid Hid).
      rewrite users_setUsers, currentUserId_setUsers, Hst5.
      split; [apply users_with_stats_compose | exact Hid5]. }
  exact Husers.
Qed.

(** X10: the last answer of a logged-in user with a topic writes the stats
    of the users with the logged-in id, and of nobody else: one more
    completed quiz, the attempts as they were, the score and the number of
    questions added to the totals and to the topic's performance (which is
    the one the badge criteria saw), the earned badges after the old ones,
    and today as the day of the last activity. *)
Theorem quiz_completion_stats (BADGE_KEYS : list BadgeType)
    (BADGE_DEFINITIONS : BadgeType -> BadgeDefinition.t)
    (st : AppState) (answer : option string) (env : QuizEnv)
    (cu : User.t) (tp : string) :
  S (currentQuestionIndex st) = length (questions st) ->
  (length (userAnswers st) <= length (questions st))%nat ->
  currentUser st = Some cu -> User.id cu ≠ EmptyString ->
  topic st = Some tp -> tp ≠ EmptyString ->
  let finalScore := finalScore_of st answer in
  let questionCount := Z.of_nat (length (questions st)) in
  let earned :=
    earned_loop BADGE_DEFINITIONS cu
      (updatedStats (User.stats cu) finalScore questionCount tp)
      (mkQuizResult finalScore questionCount tp) (qe_badges env) BADGE_KEYS in
  let old := User.stats cu in
  let perf := default (TopicPerf.mk 0 0) (UserStats.topicPerformance old !! tp) in
  ∃ st' cu',
    handleAnswer BADGE_KEYS BADGE_DEFINITIONS st answer env st = Some st' ∧
    users st' =
      users_with_stats (User.id cu)
        (day_update cu (qe_today env)
           ∘ quiz_stats_update tp finalScore questionCount earned)
        (users st) ∧
    currentUser st' = Some cu' ∧
    User.id cu' = User.id cu ∧
    User.username cu' = User.username cu ∧
    User.password cu' = User.password cu ∧
    UserStats.quizzesCompleted (User.stats cu')
      = UserStats.quizzesCompleted old + 1 ∧
    UserStats.quizzesAttempted (User.stats cu')
      = UserStats.quizzesAttempted old ∧
    UserStats.totalScorePoints (User.stats cu')
      = UserStats.totalScorePoints old + finalScore ∧
    UserStats.totalQuestionsAnswered (User.stats cu')
      = UserStats.totalQuestionsAnswered old + questionCount ∧
    UserStats.topicPerformance (User.stats cu')
      = <[tp := TopicPerf.mk (TopicPerf.correct perf + finalScore)
                             (TopicPerf.total perf + questionCount)]>
          (UserStats.topicPerformance old) ∧
    UserStats.topicPerformance (User.stats cu')
      = UserStats.topicPerformance
          (updatedStats old finalScore questionCount tp) ∧
    UserStats.badges (User.stats cu') = UserStats.badges old ++ earned ∧
    UserStats.lastActivityDate (User.stats cu') = todayStr (qe_today env).
Proof.
  intros Hlast Hlen Hcu Hid Htopic Htp finalScore questionCount earned old perf.
  pose proof (currentUser_has_id st cu Hcu) as Hcid.
  set (q := quiz_stats_update tp finalScore questionCount earned).
  set (f := day_update cu (qe_today env) ∘ q).
  destruct (handleAnswer_completed_users BADGE_KEYS BADGE_DEFINITIONS st answer
              env cu tp Hlast Hlen Hcu Hid Htopic Htp)
    as (st' & Hrun & Husers & Hid').
  fold finalScore questionCount earned q f in Husers.
  exists st', (with_stats f cu).
  split; [exact Hrun|].
  split; [exact Husers|].
  split.
  { unfold currentUser. rewrite Hid', Hcid, Husers.
    unfold users_with_stats. rewrite find_after_stats_update.
    unfold currentUser in Hcu. rewrite Hcid in Hcu. rewrite Hcu. reflexivity. }
  assert (Hfields : ∀ s, 
    UserStats.quizzesCompleted (f s) = UserStats.quizzesCompleted (q s) ∧
    UserStats.quizzesAttempted (f s) = UserStats.quizzesAttempted (q s) ∧
    UserStats.totalScorePoints (f s) = UserStats.totalScorePoints (q s) ∧
    UserStats.totalQuestionsAnswered (f s)
      = UserStats.totalQuestionsAnswered (q s) ∧
    UserStats.topicPerformance (f s) = UserStats.topicPerformance (q s) ∧
    UserStats.badges (f s) = UserStats.badges (q s)).
  { intros s. subst f. unfold day_update, compose.
    destruct (String.eqb _ _); repeat split. }
  destruct (Hfields old) as (H1 & H2 & H3 & H4 & H5 & H6).
  change (User.stats (with_stats f cu)) with (f old).
  rewrite H1, H2, H3, H4, H5, H6.
  repeat (split; [reflexivity|]).
  split.
  { rewrite updatedStats_unfold. subst q perf. simpl.
    destruct (UserStats.topicPerformance old !! tp); reflexivity. }
  split; [reflexivity|].
  subst f. unfold day_update, compose.
  destruct (String.eqb (todayStr (qe_today env)) _) eqn:Hday; [|reflexivity].
  apply String.eqb_eq in Hday. rewrite Hday. reflexivity.
Qed.

(** X10 at [ada]'s faultless quiz on light. *)
Lemma quiz_completion_stats_witness :
  ∃ st' cu',
    handleAnswer sample_keys sample_definitions sample_state_quiz
                 (Some "Violet") sample_quiz_env sample_state_quiz = Some st' ∧
    currentUser st' = Some cu' ∧
    UserStats.quizzesCompleted (User.stats cu') = 1 ∧
    UserStats.totalScorePoints (User.stats cu') = 2 ∧
    UserStats.totalQuestionsAnswered (User.stats cu') = 2 ∧
    UserStats.topicPerformance (User.stats cu') !! "Light"
      = Some (TopicPerf.mk 2 2) ∧
    badge_ids (UserStats.badges (User.stats cu'))
      = [QUIZ_NOVICE; PERFECT_SCORE] ∧
    UserStats.lastActivityDate (User.stats cu') = "2024-05-02".
Proof.
  destruct (quiz_completion_stats sample_keys sample_definitions
              sample_state_quiz (Some "Violet") sample_quiz_env
              sample_user "Light")
    as (st' & cu' & Hrun & _ & Hcu' & _ & _ & _ & Hdone & _ & Hpoints & Hcount
        & Hperf & _ & Hbadges & Hday).
  - reflexivity.
  - vm_compute. lia.
  - reflexivity.
  - vm_compute. discriminate.
  - reflexivity.
  - vm_compute. discriminate.
  - exists st', cu'. split; [exact Hrun|]. split; [exact Hcu'|].
    split; [exact Hdone|]. split; [exact Hpoints|]. split; [exact Hcount|].
    split; [rewrite Hperf; reflexivity|].
    split; [rewrite Hbadges; reflexivity | exact Hday].
Defined.

(** X11: the same answer adds the score to the user's leaderboard entry
    (one call of the leaderboard update, with the user's picture), and
    writes the log: the QUIZ_COMPLETED entry on top, below it one
    BADGE_EARNED entry per earned badge, the last earned first, then the
    old log, cut to 50.  The badge window is opened with exactly the
    earned badges when there are any, and left alone otherwise. *)
Theorem quiz_completion_board_and_log (BADGE_KEYS : list BadgeType)
    (BADGE_DEFINITIONS : BadgeType -> BadgeDefinition.t)
    (st : AppState) (answer : option string) (env : QuizEnv)
    (cu : User.t) (tp : string) :
  S (currentQuestionIndex st) = length (questions st) ->
  (length (userAnswers st) <= length (questions st))%nat ->
  currentUser st = Some cu -> topic st = Some tp -> tp ≠ EmptyString ->
  let finalScore := finalScore_of st answer in
  let questionCount := Z.of_nat (length (questions st)) in
  let earned :=
    earned_loop BADGE_DEFINITIONS cu
      (updatedStats (User.stats cu) finalScore questionCount tp)
      (mkQuizResult finalScore questionCount tp) (qe_badges env) BADGE_KEYS in
  ∃ st',
    handleAnswer BADGE_KEYS BADGE_DEFINITIONS st answer env st = Some st' ∧
    leaderboard st' =
      board_all [mkBoardCall (Some cu) (User.username cu) finalScore
                             (User.profilePictureUrl cu)]
                (leaderboard st) ∧
    activityLog st' =
      take 50 (completed_log_entry cu env tp finalScore questionCount
                 :: rev (map (badge_log_entry cu (qe_badges env)) earned)
                 ++ activityLog st) ∧
    newBadges st' = (if earned is [] then newBadges st else earned) ∧
    showBadgeModal st' = (if earned is [] then showBadgeModal st else true).
Proof.
  intros Hlast Hlen Hcu Htopic Htp finalScore questionCount earned.
  eexists.
  split; [apply (handleAnswer_completed BADGE_KEYS BADGE_DEFINITIONS st answer
                   env cu tp Hlast Hlen Hcu Htopic Htp)|].
  fold finalScore questionCount earned.
  rewrite (awardBadges_state BADGE_KEYS BADGE_DEFINITIONS st _ finalScore
             questionCount tp (qe_badges env) cu Hcu).
  fold earned. cbv beta iota delta [snd].
  set (st1 := setGameState QUIZ_SCORE _).
  set (st2 := match earned with [] => st1 | _ => _ end).
  set (q := quiz_stats_update tp finalScore questionCount earned).
  unfold leaderboard, activityLog, newBadges, showBadgeModal.
  rewrite gamification_handleActivityCompletion.
  unfold addLogEntry. rewrite Hcu.
  unfold updateLeaderboard, leaderboard, activityLog.
  cbn [gamification setActivityLog setLeaderboard with_gamification
       gm_leaderboard gm_newBadges gm_activityLog gm_showBadgeModal].
  rewrite gamification_updateUserStats.
  assert (Hgam : gm_leaderboard (gamification st2)
                   = gm_leaderboard (gamification st) ∧
                 gm_newBadges (gamification st2)
                   = (if earned is [] then newBadges st else earned) ∧
                 gm_showBadgeModal (gamification st2)
                   = (if earned is [] then showBadgeModal st else true) ∧
                 take 49 (gm_activityLog (gamification st2))
                   = take 49 (rev (map (badge_log_entry cu (qe_badges env)) earned)
                              ++ activityLog st)).
  { subst st2. destruct earned as [|b bs]; [repeat split|].
    split; [reflexivity|]. split; [reflexivity|]. split; [reflexivity|].
    change (gm_activityLog (gamification (setActivityLog ?v ?s))) with v.
    rewrite take_take. reflexivity. }
  destruct Hgam as (Hboard & Hnew & Hmodal & Hlog).
  rewrite Hboard, Hnew, Hmodal, Hlog, Hcu.
  repeat split.
Qed.

(** X11 at [ada]'s faultless quiz on light: a newcomer's entry with 2
    points, and three log entries. *)
Lemma quiz_completion_board_and_log_witness :
  ∃ st',
    handleAnswer sample_keys sample_definitions sample_state_quiz
                 (Some "Violet") sample_quiz_env sample_state_quiz = Some st' ∧
    map (fun e => (LeaderboardEntry.username e, LeaderboardEntry.score e))
        (leaderboard st') = [("ada", 2)] ∧
    map ActivityLog.type (activityLog st')
      = ["QUIZ_COMPLETED"; "BADGE_EARNED"; "BADGE_EARNED"] ∧
    badge_ids (newBadges st') = [QUIZ_NOVICE; PERFECT_SCORE] ∧
    showBadgeModal st' = true.
Proof.
  destruct (quiz_completion_board_and_log sample_keys sample_definitions
              sample_state_quiz (Some "Violet") sample_quiz_env
              sample_user "Light")
    as (st' & Hrun & Hboard & Hlog & Hnew & Hmodal).
  - reflexivity.
  - vm_compute. lia.
  - reflexivity.
  - reflexivity.
  - vm_compute. discriminate.
  - exists st'. split; [exact Hrun|].
    split; [rewrite Hboard; reflexivity|].
    split; [rewrite Hlog; reflexivity|].
    split; [rewrite Hnew; reflexivity | rewrite Hmodal; reflexivity].
Defined.

(** *** A whole quiz *)

Lemma spread_answers (given : list (option string)) (n : nat) :
  spread (map Answer_of given ++ replicate n Null)
  = map Answer_of given ++ replicate n Null.
Proof.
  unfold spread. rewrite map_app. f_equal.
  - rewrite map_map. apply map_ext. intros [s|]; reflexivity.
  - induction n as [|n IH]; [reflexivity|]. simpl. rewrite IH. reflexivity.
Qed.

Lemma array_set_next (before after : list Answer) (old v : Answer) :
  array_set (before ++ old :: after) (length before) v = before ++ v :: after.
Proof.
  unfold array_set.
  destruct (Nat.ltb_spec (length before) (length (before ++ old :: after)))
    as [_|Hge]; [|rewrite length_app in Hge; simpl in Hge; lia].
  rewrite <- (Nat.add_0_r (length before)) at 1.
  rewrite insert_app_r. reflexivity.
Qed.

(** The answer written at the current index of a running quiz. *)
Lemma newAnswers_of_next (st : AppState) (given : list (option string))
    (n : nat) (answer : option string) :
  currentQuestionIndex st = length given ->
  userAnswers st = map Answer_of given ++ replicate (S n) Null ->
  newAnswers_of st answer = map Answer_of (given ++ [answer]) ++ replicate n Null.
Proof.
  intros Hidx Hans. unfold newAnswers_of. rewrite Hans, spread_answers, Hidx.
  rewrite <- (length_map Answer_of given). simpl.
  rewrite array_set_next, map_app, <- app_assoc. reflexivity.
Qed.

(** An answer to a question that is not the last one, written out. *)
Lemma handleAnswer_next (BADGE_KEYS : list BadgeType)
    (BADGE_DEFINITIONS : BadgeType -> BadgeDefinition.t)
    (st : AppState) (answer : option string) (env : QuizEnv) :
  (S (currentQuestionIndex st) < length (questions st))%nat ->
  handleAnswer BADGE_KEYS BADGE_DEFINITIONS st answer env st =
    Some
      (let st1 :=
         setCurrentQuestionIndex (S (currentQuestionIndex st))
           (setUserAnswers (newAnswers_of st answer) st) in
       if 0 <? timePerQuestion st then setTimeLeft (timePerQuestion st) st1
       else st1).
Proof.
  intros Hnext. unfold handleAnswer, handleAnswer_timeout.
  destruct (Z.ltb_spec (Z.of_nat (currentQuestionIndex st))
                       (Z.of_nat (length (questions st)) - 1)) as [_|Hge]; [|lia].
  reflexivity.
Qed.

(** All answers but the last one only move the quiz forward: the last
    answer is given from a state that differs from the first one in the
    index, the recorded answers and the timer only. *)
Lemma answer_all_to_last (BADGE_KEYS : list BadgeType)
    (BADGE_DEFINITIONS : BadgeType -> BadgeDefinition.t) (env : QuizEnv)
    (todo : list (option string)) (last : option string) :
  ∀ (given : list (option string)) (st : AppState),
    currentQuestionIndex st = length given ->
    userAnswers st = map Answer_of given ++ replicate (S (length todo)) Null ->
    length (questions st) = (length given + S (length todo))%nat ->
    ∃ st_last,
      answer_all BADGE_KEYS BADGE_DEFINITIONS (todo ++ [last]) env st
        = handleAnswer BADGE_KEYS BADGE_DEFINITIONS st_last last env st_last ∧
      currentQuestionIndex st_last = length (given ++ todo) ∧
      userAnswers st_last = map Answer_of (given ++ todo) ++ [Null] ∧
      score st_last = score st ∧
      userManagement st_last = userManagement st ∧
      gameState st_last = gameState st ∧
      selections st_last = selections st ∧
      dataLoading st_last = dataLoading st ∧
      newFeatures st_last = newFeatures st ∧
      authState st_last = authState st ∧
      gamification st_last = gamification st.
Proof.
  induction todo as [|answer todo IH]; intros given st Hidx Hans Hlen.
  - exists st. rewrite app_nil_r. simpl.
    split; [destruct (handleAnswer _ _ st last env st); reflexivity|].
    split; [exact Hidx|]. split; [exact Hans|]. repeat split.
  - simpl in Hlen.
    assert (Hnext : (S (currentQuestionIndex st) < length (questions st))%nat)
      by lia.
    change ((answer :: todo) ++ [last]) with (answer :: (todo ++ [last])).
    cbn [answer_all].
    rewrite (handleAnswer_next BADGE_KEYS BADGE_DEFINITIONS st answer env Hnext).
    cbv beta iota zeta.
    set (st1 := if 0 <? timePerQuestion st then _ else _).
    destruct (IH (given ++ [answer]) st1) as (st_last & Hrun & Hrest).
    + subst st1. rewrite length_app, Hidx. simpl.
      destruct (0 <? timePerQuestion st);
        (transitivity (S (length given)); [reflexivity | simpl; lia]).
    + subst st1. 
      rewrite <- (newAnswers_of_next st given (S (length todo)) answer Hidx Hans).
      destruct (0 <? timePerQuestion st); reflexivity.
    + subst st1. rewrite length_app. simpl.
      replace (questions (if 0 <? timePerQuestion st then _ else _))
        with (questions st) by (destruct (0 <? timePerQuestion st); reflexivity).
      lia.
    + exists st_last. split; [exact Hrun|].
      rewrite <- app_assoc in Hrest. simpl in Hrest.
      destruct Hrest as (H1 & H2 & H3 & H4 & H5 & H6 & H7 & H8 & H9 & H10).
      subst st1.
      destruct (0 <? timePerQuestion st);
        (split; [exact H1|]; split; [exact H2|]; split; [exact H3|];
         split; [exact H4|]; split; [exact H5|]; split; [exact H6|];
         split; [exact H7|]; split; [exact H8|]; split; [exact H9 | exact H10]).
Qed.

(** The state a successful request for a quiz leaves, written out. *)
Lemma handleGenerateQuiz_fresh (c : Component) (selectedDifficulty : Difficulty)
    (selectedCount selectedTime : Z) (result : list QuizQuestion.t)
    (env : DoneEnv) (tp : string) (g : Grade) :
  topic (app c) = Some tp -> tp ≠ EmptyString -> grade (app c) = Some g ->
  let c' := handleGenerateQuiz c selectedDifficulty selectedCount selectedTime
                               AppMode.quiz (Resolved result) env c in
  let started :=
    setGameState QUIZ_IN_PROGRESS
      ((if 0 <? selectedTime then setTimeLeft selectedTime else id)
         (setTimePerQuestion selectedTime
            (setScore 0
               (setCurrentQuestionIndex 0
                  (setUserAnswers (all_null (length result))
                     (setQuestions result
                        (setApiError None
                           (setLoadingMessage
                              ("Generating "
                                 +:+ Difficulty_to_string selectedDifficulty
                                 +:+ " " +:+ AppMode.to_string AppMode.quiz
                                 +:+ "...")
                              (setIsLoading true (app c)))))))))) in
  app c' =
    setIsLoading false
      (updateUserStats (app c) count_attempt
         (addLogEntry (app c) (de_stamp env) "QUIZ_STARTED"
            [("topic", DStr tp); ("grade", DNum (Grade_to_Z g));
             ("difficulty", DStr (Difficulty_to_string selectedDifficulty))]
            started)) ∧
  difficulty c' = Some selectedDifficulty ∧
  questionCount c' = selectedCount ∧
  appMode c' = appMode c.
Proof.
  intros Htopic Htp Hgrade. unfold handleGenerateQuiz.
  rewrite Htopic, Hgrade. apply truthy_true in Htp. rewrite Htp.
  cbv zeta. unfold withApiErrorHandlerC, withApiErrorHandler.
  destruct (0 <? selectedTime); repeat split.
Qed.

(** The quiz a successful request leaves. *)
Lemma handleGenerateQuiz_quiz_state (c : Component)
    (selectedDifficulty : Difficulty) (selectedCount selectedTime : Z)
    (result : list QuizQuestion.t) (env : DoneEnv) (tp : string) (g : Grade) :
  topic (app c) = Some tp -> tp ≠ EmptyString -> grade (app c) = Some g ->
  let c' := handleGenerateQuiz c selectedDifficulty selectedCount selectedTime
                               AppMode.quiz (Resolved result) env c in
  questions (app c') = result ∧
  userAnswers (app c') = replicate (length result) Null ∧
  currentQuestionIndex (app c') = 0%nat.
Proof.
  intros Htopic Htp Hgrade c'.
  destruct (handleGenerateQuiz_fresh c selectedDifficulty selectedCount
              selectedTime result env tp g Htopic Htp Hgrade) as (Happ & _).
  fold c' in Happ. rewrite Happ.
  unfold updateUserStats, addLogEntry.
  destruct (currentUserId (app c)) as [cid|];
    [destruct (JS.truthy cid)|];
    destruct (currentUser (app c)) as [cu|];
    destruct (0 <? selectedTime); repeat split.
Qed.

(** X12: a request for a quiz that succeeds starts the quiz whatever came
    back, an empty list of questions included: the questions are stored,
    every answer is [null], the index and the score are 0, the timer is set
    for a timed quiz and left as it was for an untimed one, an earlier
    error is cleared, and the attempt is counted at once for the users
    with the logged-in id.  A request that fails shows the error and
    leaves the quiz, the screen, the users and the log as they were.
    Either way the loading flag ends false. *)
Theorem handleGenerateQuiz_quiz (c : Component) (selectedDifficulty : Difficulty)
    (selectedCount selectedTime : Z)
    (generateQuizQuestions : ApiOutcome (list QuizQuestion.t))
    (env : DoneEnv) (tp : string) (g : Grade) :
  topic (app c) = Some tp -> tp ≠ EmptyString -> grade (app c) = Some g ->
  let c' := handleGenerateQuiz c selectedDifficulty selectedCount selectedTime
                               AppMode.quiz generateQuizQuestions env c in
  isLoading (app c') = false ∧
  selections (app c') =
    (if generateQuizQuestions is Resolved _
     then mkSelections (Some g) (Some tp) selectedTime
     else selections (app c)) ∧
  match generateQuizQuestions with
  | Resolved result =>
      gameState (app c') = QUIZ_IN_PROGRESS ∧
      questions (app c') = result ∧
      userAnswers (app c') = replicate (length result) Null ∧
      currentQuestionIndex (app c') = 0%nat ∧
      score (app c') = 0 ∧
      timeLeft (app c') =
        (if 0 <? selectedTime then selectedTime else timeLeft (app c)) ∧
      apiError (app c') = None ∧
      difficulty c' = Some selectedDifficulty ∧
      questionCount c' = selectedCount ∧
      users (app c') = users (updateUserStats (app c) count_attempt (app c)) ∧
      activityLog (app c') =
        log_after (app c) (de_stamp env) "QUIZ_STARTED"
          [("topic", DStr tp); ("grade", DNum (Grade_to_Z g));
           ("difficulty", DStr (Difficulty_to_string selectedDifficulty))] ∧
      leaderboard (app c') = leaderboard (app c)
  | Rejected error =>
      apiError (app c') = Some (displayed_message error) ∧
      gameState (app c') = gameState (app c) ∧
      questions (app c') = questions (app c) ∧
      quizState (app c') = quizState (app c) ∧
      userManagement (app c') = userManagement (app c) ∧
      gamification (app c') = gamification (app c) ∧
      difficulty c' = difficulty c ∧
      questionCount c' = questionCount c
  end.
Proof.
  intros Htopic Htp Hgrade c'.
  assert (Hsel : selections (app c) = mkSelections (Some g) (Some tp)
                                        (timePerQuestion (app c))).
  { unfold topic, grade, timePerQuestion in *.
    destruct (selections (app c)); simpl in *; congruence. }
  destruct generateQuizQuestions as [result|error].
  - destruct (handleGenerateQuiz_fresh c selectedDifficulty selectedCount
                selectedTime result env tp g Htopic Htp Hgrade)
      as (Happ & Hdiff & Hcount & _).
    fold c' in Happ, Hdiff, Hcount. rewrite Happ, Hdiff, Hcount.
    unfold updateUserStats, addLogEntry, log_after, addLogEntry.
    destruct (currentUserId (app c)) as [cid|];
      [destruct (JS.truthy cid)|];
      destruct (currentUser (app c)) as [cu|];
      destruct (0 <? selectedTime);
      (split; [reflexivity|]); (split; [simpl; rewrite Hsel; reflexivity|]);
      repeat split.
  - subst c'. unfold handleGenerateQuiz.
    rewrite Htopic, Hgrade. apply truthy_true in Htp. rewrite Htp.
    cbv zeta. unfold withApiErrorHandlerC, withApiErrorHandler, displayed_message.
    destruct (JS.includes _ _); repeat split.
Qed.

(** X12 at [ada]'s request for a hard quiz of two questions, 30 seconds
    each. *)
Lemma handleGenerateQuiz_quiz_witness :
  let c' := handleGenerateQuiz sample_component Hard 2 30 AppMode.quiz
              (Resolved sample_questions) sample_done_env sample_component in
  gameState (app c') = QUIZ_IN_PROGRESS ∧
  userAnswers (app c') = [Null; Null] ∧
  timeLeft (app c') = 30 ∧
  map (fun u => UserStats.quizzesAttempted (User.stats u)) (users (app c')) = [1] ∧
  map ActivityLog.type (activityLog (app c')) = ["QUIZ_STARTED"].
Proof.
  intros c'.
  destruct (handleGenerateQuiz_quiz sample_component Hard 2 30
              (Resolved sample_questions) sample_done_env "Light" G8)
    as (_ & _ & Hgs & _ & Hans & _ & _ & Htime & _ & _ & _ & Husers & Hlog & _).
  - reflexivity.
  - vm_compute. discriminate.
  - reflexivity.
  - fold c' in Hgs, Hans, Htime, Husers, Hlog.
    split; [exact Hgs|]. split; [exact Hans|]. split; [exact Htime|].
    split; [rewrite Husers; reflexivity | rewrite Hlog; reflexivity].
Defined.

Lemma filter_all {A} (p : A -> bool) (l : list A) :
  (∀ x, In x l -> p x = true) -> List.filter p l = l.
Proof.
  induction l as [|x l IH]; intros Hall; [reflexivity|].
  simpl. rewrite (Hall x) by (left; reflexivity).
  rewrite IH; [reflexivity|]. intros y Hy. apply Hall. right. exact Hy.
Qed.

Lemma filter_none {A} (p : A -> bool) (l : list A) :
  (∀ x, In x l -> p x = false) -> List.filter p l = [].
Proof.
  induction l as [|x l IH]; intros Hall; [reflexivity|].
  simpl. rewrite (Hall x) by (left; reflexivity).
  apply IH. intros y Hy. apply Hall. right. exact Hy.
Qed.

(** Every question answered with its own answer: every index matches. *)
Lemma matching_all_right (questions : list QuizQuestion.t) :
  matching_question_indices
    (map Answer_of (map (fun q => Some (QuizQuestion.answer q)) questions))
    questions
  = seq 0 (length questions).
Proof.
  unfold matching_question_indices. apply filter_all.
  intros index Hin. apply in_seq in Hin as [_ Hlt]. simpl in Hlt.
  unfold matches_at. rewrite map_map.
  destruct (lookup_lt_is_Some_2 questions index Hlt) as [q Hq].
  change (map ?f questions) with (f <$> questions).
  rewrite list_lookup_fmap, Hq. simpl. apply String.eqb_refl.
Qed.

(** No question answered: no index matches. *)
Lemma matching_all_null (questions : list QuizQuestion.t) (n : nat) :
  matching_question_indices (map Answer_of (replicate n None)) questions = [].
Proof.
  unfold matching_question_indices. apply filter_none.
  intros index _. unfold matches_at.
  destruct (map Answer_of (replicate n None) !! index) as [cell|] eqn:Hcell;
    [|reflexivity].
  change (map Answer_of (replicate n None))
    with (Answer_of <$> replicate n (@None string)) in Hcell.
  rewrite list_lookup_fmap in Hcell.
  destruct (replicate n None !! index) as [a|] eqn:Ha; [|discriminate].
  apply lookup_replicate in Ha as [-> _]. simpl in Hcell.
  injection Hcell as <-. reflexivity.
Qed.

(** X13: a quiz from the request to the score.  When the request returns
    at least one question and as many answers are given as there are
    questions, each from the screen the one before left, the quiz ends on
    the score screen; the score is the number of questions whose answer
    was given, and the recorded answers are the given ones ([null] where
    the time ran out).  No answer throws.  Every question answered with
    its own answer gives the full score, no question answered gives 0. *)
Theorem quiz_run (BADGE_KEYS : list BadgeType)
    (BADGE_DEFINITIONS : BadgeType -> BadgeDefinition.t)
    (c : Component) (selectedDifficulty : Difficulty)
    (selectedCount selectedTime : Z) (result : list QuizQuestion.t)
    (denv : DoneEnv) (env : QuizEnv) (answers : list (option string))
    (tp : string) (g : Grade) :
  topic (app c) = Some tp -> tp ≠ EmptyString -> grade (app c) = Some g ->
  result ≠ [] -> length answers = length result ->
  let c' := handleGenerateQuiz c selectedDifficulty selectedCount selectedTime
                               AppMode.quiz (Resolved result) denv c in
  ∃ st',
    answer_all BADGE_KEYS BADGE_DEFINITIONS answers env (app c') = Some st' ∧
    gameState st' = QUIZ_SCORE ∧
    score st' =
      Z.of_nat (length (matching_question_indices (map Answer_of answers)
                                                  result)) ∧
    userAnswers st' = map Answer_of answers ∧
    questions st' = result ∧
    (answers = map (fun q => Some (QuizQuestion.answer q)) result ->
     score st' = Z.of_nat (length result)) ∧
    (answers = replicate (length result) None -> score st' = 0).
Proof.
  intros Htopic Htp Hgrade Hresult Hlen c'.
  cut (∃ st',
         answer_all BADGE_KEYS BADGE_DEFINITIONS answers env (app c') = Some st' ∧
         gameState st' = QUIZ_SCORE ∧
         score st' =
           Z.of_nat (length (matching_question_indices (map Answer_of answers)
                                                       result)) ∧
         userAnswers st' = map Answer_of answers ∧
         questions st' = result).
  { intros (st' & Hrun & Hgs & Hscore & Hans & Hqs).
    exists st'. split; [exact Hrun|]. split; [exact Hgs|].
    split; [exact Hscore|]. split; [exact Hans|]. split; [exact Hqs|].
    split; intros Hgiven; rewrite Hscore, Hgiven.
    - rewrite matching_all_right, length_seq. reflexivity.
    - rewrite matching_all_null. reflexivity. }
  destruct (handleGenerateQuiz_quiz_state c selectedDifficulty selectedCount
              selectedTime result denv tp g Htopic Htp Hgrade)
    as (Hqs & Hans & Hidx).
  fold c' in Hqs, Hans, Hidx.
  assert (Hanswers : answers ≠ []).
  { intros ->. destruct result; [contradiction | discriminate]. }
  destruct (exists_last Hanswers) as (todo & last & ->).
  rewrite length_app in Hlen. simpl in Hlen.
  destruct (answer_all_to_last BADGE_KEYS BADGE_DEFINITIONS env todo last []
              (app c'))
    as (st_last & Hrun & Hidx' & Hans' & _ & _ & _ & _ & Hdata & _).
  { exact Hidx. }
  { rewrite Hans. replace (length result) with (S (length todo)) by lia.
    reflexivity. }
  { rewrite Hqs. simpl. lia. }
  simpl in Hidx', Hans'.
  assert (Hqs' : questions st_last = result).
  { unfold questions. rewrite Hdata. exact Hqs. }
  assert (Hlast : S (currentQuestionIndex st_last) = length (questions st_last)).
  { rewrite Hidx', Hqs'. lia. }
  assert (Hfit : (length (userAnswers st_last) <= length (questions st_last))%nat).
  { rewrite Hans', Hqs', length_app, length_map. simpl. lia. }
  destruct (handleAnswer_final BADGE_KEYS BADGE_DEFINITIONS st_last last env
              Hlast Hfit) as (st' & Hfinal & Hbook).
  assert (Hnew : newAnswers_of st_last last = map Answer_of (todo ++ [last])).
  { rewrite (newAnswers_of_next st_last todo 0 last Hidx' Hans').
    apply app_nil_r. }
  exists st'. split; [rewrite Hrun; exact Hfinal|].
  destruct Hbook as (_ & Hgs & _ & Hdata' & Hquiz & _).
  split; [exact Hgs|].
  split; [unfold score; rewrite Hquiz; simpl; rewrite Hnew, Hqs'; reflexivity|].
  split; [unfold userAnswers; rewrite Hquiz; simpl; exact Hnew|].
  unfold questions. rewrite Hdata'. exact Hqs'.
Qed.

(** X13 at [ada]'s quiz on light: the first answer is right, the second
    one wrong. *)
Lemma quiz_run_witness :
  ∃ st',
    answer_all sample_keys sample_definitions [Some "Reflection"; Some "Red"]
      sample_quiz_env
      (app (handleGenerateQuiz sample_component Hard 2 30 AppMode.quiz
              (Resolved sample_questions) sample_done_env sample_component))
    = Some st' ∧
    gameState st' = QUIZ_SCORE ∧ score st' = 1 ∧
    userAnswers st' = [Str "Reflection"; Str "Red"].
Proof.
  destruct (quiz_run sample_keys sample_definitions sample_component Hard 2 30
              sample_questions sample_done_env sample_quiz_env
              [Some "Reflection"; Some "Red"] "Light" G8)
    as (st' & Hrun & Hgs & Hscore & Hans & _).
  - reflexivity.
  - vm_compute. discriminate.
  - reflexivity.
  - discriminate.
  - reflexivity.
  - exists st'. split; [exact Hrun|]. split; [exact Hgs|].
    split; [exact Hscore | exact Hans].
Defined.

Lemma currentUser_with_stats (st st' : AppState) (cu : User.t)
    (f : UserStats.t -> UserStats.t) :
  currentUser st = Some cu ->
  users st' = users_with_stats (User.id cu) f (users st) ->
  currentUserId st' = currentUserId st ->
  currentUser st' = Some (with_stats f cu).
Proof.
  intros Hcu Husers Hid. pose proof (currentUser_has_id st cu Hcu) as Hcid.
  unfold currentUser in *. rewrite Hid, Hcid, Husers in *.
  unfold users_with_stats. rewrite find_after_stats_update, Hcu. reflexivity.
Qed.

(** X14: what a whole quiz adds to the stats of the logged-in user: one
    attempt (counted when the quiz starts), one completed quiz, the score
    and the number of questions (counted with the last answer), and today
    as the day of the last activity. *)
Theorem quiz_run_stats (BADGE_KEYS : list BadgeType)
    (BADGE_DEFINITIONS : BadgeType -> BadgeDefinition.t)
    (c : Component) (selectedDifficulty : Difficulty)
    (selectedCount selectedTime : Z) (result : list QuizQuestion.t)
    (denv : DoneEnv) (env : QuizEnv) (answers : list (option string))
    (tp : string) (g : Grade) (cu : User.t) :
  topic (app c) = Some tp -> tp ≠ EmptyString -> grade (app c) = Some g ->
  currentUser (app c) = Some cu -> User.id cu ≠ EmptyString ->
  result ≠ [] -> length answers = length result ->
  let c' := handleGenerateQuiz c selectedDifficulty selectedCount selectedTime
                               AppMode.quiz (Resolved result) denv c in
  let old := User.stats cu in
  ∃ st' cu',
    answer_all BADGE_KEYS BADGE_DEFINITIONS answers env (app c') = Some st' ∧
    currentUser st' = Some cu' ∧
    UserStats.quizzesAttempted (User.stats cu')
      = UserStats.quizzesAttempted old + 1 ∧
    UserStats.quizzesCompleted (User.stats cu')
      = UserStats.quizzesCompleted old + 1 ∧
    UserStats.totalScorePoints (User.stats cu')
      = UserStats.totalScorePoints old + score st' ∧
    UserStats.totalQuestionsAnswered (User.stats cu')
      = UserStats.totalQuestionsAnswered old + Z.of_nat (length result) ∧
    UserStats.lastActivityDate (User.stats cu') = todayStr (qe_today env).
Proof.
  intros Htopic Htp Hgrade Hcu Hid Hresult Hlen c' old.
  pose proof (currentUser_has_id (app c) cu Hcu) as Hcid.
  destruct (handleGenerateQuiz_fresh c selectedDifficulty selectedCount
              selectedTime result denv tp g Htopic Htp Hgrade) as (Happ & _).
  fold c' in Happ.
  destruct (handleGenerateQuiz_quiz_state c selectedDifficulty selectedCount
              selectedTime result denv tp g Htopic Htp Hgrade)
    as (Hqs & Hans & Hidx).
  fold c' in Hqs, Hans, Hidx.
  assert (Hstart : users (app c')
                     = users_with_stats (User.id cu) count_attempt (users (app c)) ∧
                   currentUserId (app c') = currentUserId (app c) ∧
                   topic (app c') = Some tp).
  { rewrite Happ.
    change (users (setIsLoading false ?s)) with (users s).
    change (currentUserId (setIsLoading false ?s)) with (currentUserId s).
    change (topic (setIsLoading false ?s)) with (topic s).
    rewrite (updateUserStats_logged_in (app c) _ (User.id cu) count_attempt
               Hcid Hid).
    rewrite users_setUsers, currentUserId_setUsers.
    change (topic (setUsers ?v ?s)) with (topic s).
    rewrite users_addLogEntry, currentUserId_addLogEntry.
    unfold addLogEntry. rewrite Hcu.
    destruct (0 <? selectedTime);
      (split; [reflexivity|]; split; [reflexivity | exact Htopic]). }
  destruct Hstart as (Husers1 & Hid1 & Htopic1).
  pose proof (currentUser_with_stats (app c) (app c') cu count_attempt Hcu
                Husers1 Hid1) as Hcu1.
  set (cu1 := with_stats count_attempt cu) in Hcu1.
  assert (Hanswers : answers ≠ []).
  { intros ->. destruct result; [contradiction | discriminate]. }
  destruct (exists_last Hanswers) as (todo & last & ->).
  rewrite length_app in Hlen. simpl in Hlen.
  destruct (answer_all_to_last BADGE_KEYS BADGE_DEFINITIONS env todo last []
              (app c'))
    as (st_last & Hrun & Hidx' & Hans' & _ & Hum & _ & Hsel & Hdata & _).
  { exact Hidx. }
  { rewrite Hans. replace (length result) with (S (length todo)) by lia.
    reflexivity. }
  { rewrite Hqs. simpl. lia. }
  simpl in Hidx', Hans'.
  assert (Hqs' : questions st_last = result).
  { unfold questions. rewrite Hdata. exact Hqs. }
  assert (Hlast : S (currentQuestionIndex st_last) = length (questions st_last)).
  { rewrite Hidx', Hqs'. lia. }
  assert (Hfit : (length (userAnswers st_last) <= length (questions st_last))%nat).
  { rewrite Hans', Hqs', length_app, length_map. simpl. lia. }
  assert (Hcu_last : currentUser st_last = Some cu1).
  { unfold currentUser, currentUserId, users in *. rewrite Hum. exact Hcu1. }
  assert (Htopic_last : topic st_last = Some tp).
  { unfold topic in *. rewrite Hsel. exact Htopic1. }
  destruct (handleAnswer_completed_users BADGE_KEYS BADGE_DEFINITIONS st_last
              last env cu1 tp Hlast Hfit Hcu_last Hid Htopic_last Htp)
    as (st' & Hfinal & Husers' & Hid').
  destruct (handleAnswer_final BADGE_KEYS BADGE_DEFINITIONS st_last last env
              Hlast Hfit) as (st'' & Hfinal' & Hbook).
  assert (st'' = st') by congruence. subst st''.
  destruct Hbook as (_ & _ & _ & _ & Hquiz & _).
  assert (Hscore : score st' = finalScore_of st_last last).
  { unfold score. rewrite Hquiz. reflexivity. }
  pose proof (currentUser_with_stats st_last st' cu1 _ Hcu_last Husers' Hid')
    as Hcu'.
  eexists st', _. split; [rewrite Hrun; exact Hfinal|].
  split; [exact Hcu'|].
  rewrite Hscore, Hqs'. subst cu1 old.
  change (User.stats (with_stats ?f ?u)) with (f (User.stats u)).
  unfold compose, day_update.
  change (UserStats.lastActivityDate
            (User.stats (with_stats count_attempt cu)))
    with (UserStats.lastActivityDate (User.stats cu)).
  destruct (String.eqb (todayStr (qe_today env)) _) eqn:Hday.
  - apply String.eqb_eq in Hday. repeat split. simpl. symmetry. exact Hday.
  - repeat split.
Qed.

(** X14 at [ada]'s quiz on light, both questions answered right. *)
Lemma quiz_run_stats_witness :
  ∃ st' cu',
    answer_all sample_keys sample_definitions [Some "Reflection"; Some "Violet"]
      sample_quiz_env
      (app (handleGenerateQuiz sample_component Hard 2 30 AppMode.quiz
              (Resolved sample_questions) sample_done_env sample_component))
    = Some st' ∧
    currentUser st' = Some cu' ∧
    UserStats.quizzesAttempted (User.stats cu') = 1 ∧
    UserStats.quizzesCompleted (User.stats cu') = 1 ∧
    UserStats.totalQuestionsAnswered (User.stats cu') = 2.
Proof.
  destruct (quiz_run_stats sample_keys sample_definitions sample_component
              Hard 2 30 sample_questions sample_done_env sample_quiz_env
              [Some "Reflection"; Some "Violet"] "Light" G8 sample_user)
    as (st' & cu' & Hrun & Hcu' & Htried & Hdone & _ & Hcount & _).
  - reflexivity.
  - vm_compute. discriminate.
  - reflexivity.
  - reflexivity.
  - vm_compute. discriminate.
  - discriminate.
  - reflexivity.
  - exists st', cu'. split; [exact Hrun|]. split; [exact Hcu'|].
    split; [exact Htried|]. split; [exact Hdone | exact Hcount].
Defined.

(** ** Accounts: registration, login, logout *)

Lemma addLogEntry_logged_out (r st : AppState) (s : Stamp) (type : string)
    (details : list (string * DetailValue)) :
  currentUser r = None -> addLogEntry r s type details st = st.
Proof. intros Hcu. unfold addLogEntry. rewrite Hcu. reflexivity. Qed.

(** The login form is what a render returns only when nobody is logged in. *)
Lemma login_form_logged_out (st : AppState) :
  App_render st = LoginForm -> currentUser st = None.
Proof.
  unfold App_render. destruct (JS.truthy_opt (apiError st)); [discriminate|].
  destruct (isLoading st); [discriminate|].
  destruct (currentUser st) as [cu|]; [|reflexivity].
  destruct (renderContent cu st); discriminate.
Qed.

(** An accepted registration, written out. *)
Lemma handleRegister_accepted (st : AppState) (newId : string) (s : Stamp) :
  usernameInput st ≠ EmptyString ->
  passwordInput st ≠ EmptyString ->
  (∀ u, u ∈ users st -> User.username u ≠ usernameInput st) ->
  handleRegister st newId s st =
    addLogEntry st s "USER_REGISTERED" []
      (setPasswordInput EmptyString
         (setUsernameInput EmptyString
            (setGameState HOME_SCREEN
               (setCurrentUserId (Some newId)
                  (setUsers (users st ++ [registered_user st newId])
                     (setAuthError EmptyString st)))))).
Proof.
  intros Hname Hpass Hnew. unfold handleRegister.
  apply existsb_username_false in Hnew. rewrite Hnew.
  apply truthy_true in Hname, Hpass. rewrite Hname, Hpass. reflexivity.
Qed.

(** X15: the forms of the login screen never write the activity log.  The
    screen is returned only while nobody is logged in, and [addLogEntry]
    reads the user of the render the handler was built in: neither
    USER_LOGIN nor USER_REGISTERED is recorded, whether the handler
    accepts or rejects. *)
Theorem login_form_writes_no_log (st : AppState) (newId : string) (s : Stamp) :
  App_render st = LoginForm ->
  gamification (handleLogin st s st) = gamification st ∧
  gamification (handleRegister st newId s st) = gamification st.
Proof.
  intros Hform. apply login_form_logged_out in Hform.
  unfold handleLogin, handleRegister.
  split.
  - destruct (List.find _ _); [|reflexivity].
    rewrite (addLogEntry_logged_out st _ _ _ _ Hform). reflexivity.
  - destruct (existsb _ _); [reflexivity|].
    destruct (negb _ || negb _); [reflexivity|].
    rewrite (addLogEntry_logged_out st _ _ _ _ Hform). reflexivity.
Qed.

(** X15 at [grace]'s registration: she is registered, the log stays empty. *)
Lemma login_form_writes_no_log_witness :
  map User.username
      (users (handleRegister sample_state_form "id-grace" sample_stamp
                             sample_state_form)) = ["ada"; "grace"] ∧
  activityLog (handleRegister sample_state_form "id-grace" sample_stamp
                              sample_state_form) = [].
Proof.
  split; [reflexivity|].
  destruct (login_form_writes_no_log sample_state_form "id-grace" sample_stamp)
    as [_ Hreg]; [reflexivity|].
  unfold activityLog. rewrite Hreg. reflexivity.
Defined.

Lemma find_credentials_fresh (name password : string) (us : list User.t)
    (newUser : User.t) :
  (∀ u, u ∈ us -> User.username u ≠ name) ->
  User.username newUser = name -> User.password newUser = password ->
  List.find (fun u => String.eqb (User.username u) name
                      && String.eqb (User.password u) password)
            (us ++ [newUser]) = Some newUser.
Proof.
  intros Hnew Hname Hpass. induction us as [|u us IH]; simpl.
  - rewrite Hname, Hpass, !String.eqb_refl. reflexivity.
  - destruct (String.eqb_spec (User.username u) name) as [Heq|_].
    + exfalso. apply (Hnew u); [left | exact Heq].
    + simpl. apply IH. intros v Hv. apply Hnew. right. exact Hv.
Qed.

(** A logout of [cu], field by field. *)
Lemma handleLogout_logged_in (c : Component) (s : Stamp) (cu : User.t) :
  currentUser (app c) = Some cu ->
  let c' := handleLogout c s c in
  users (app c') = users (app c) ∧
  currentUserId (app c') = None ∧
  gameState (app c') = LOGIN_SCREEN ∧
  activityLog (app c') = logout_entry cu s :: take 49 (activityLog (app c)) ∧
  leaderboard (app c') = leaderboard (app c) ∧
  quizState (app c') = quizState (app c) ∧
  authState (app c') = authState (app c).
Proof.
  intros Hcu. unfold handleLogout, resetSelections, addLogEntry. simpl.
  rewrite Hcu. repeat split.
Qed.

(** A login that finds a user, field by field. *)
Lemma handleLogin_accepts (st : AppState) (s : Stamp) (user : User.t) :
  List.find (fun u => String.eqb (User.username u) (usernameInput st)
                      && String.eqb (User.password u) (passwordInput st))
            (users st) = Some user ->
  let st' := handleLogin st s st in
  users st' = users st ∧
  currentUserId st' = Some (User.id user) ∧
  gameState st' = HOME_SCREEN ∧
  usernameInput st' = EmptyString ∧
  passwordInput st' = EmptyString ∧
  authError st' = EmptyString.
Proof.
  intros Hfind. unfold handleLogin. rewrite Hfind.
  unfold addLogEntry. destruct (currentUser st); repeat split.
Qed.

Lemma handleLogin_rejects (st : AppState) (s : Stamp) :
  List.find (fun u => String.eqb (User.username u) (usernameInput st)
                      && String.eqb (User.password u) (passwordInput st))
            (users st) = None ->
  handleLogin st s st = setAuthError "Invalid username or password." st.
Proof. intros Hfind. unfold handleLogin. rewrite Hfind. reflexivity. Qed.

Lemma typed_fields (username password : string) (st : AppState) :
  users (typed username password st) = users st ∧
  usernameInput (typed username password st) = username ∧
  passwordInput (typed username password st) = password.
Proof. repeat split. Qed.

(** X16: register, log out, log in again.  A newcomer whose registration
    is accepted (with an id no stored user has) is the current user.
    After a logout nobody is, the login screen is set and the USER_LOGOUT
    entry of the newcomer is on top of the log.  Typing the same username
    and password and logging in makes the newcomer the current user
    again, on the home screen, with no error shown and the user list as
    the registration left it. *)
Theorem register_logout_login (c : Component) (newId : string)
    (s s_out s_in : Stamp) :
  let st := app c in
  usernameInput st ≠ EmptyString ->
  passwordInput st ≠ EmptyString ->
  (∀ u, u ∈ users st -> User.username u ≠ usernameInput st) ->
  newId ∉ map User.id (users st) ->
  let newUser := registered_user st newId in
  let c1 := on_app (handleRegister st newId s) c in
  let c2 := handleLogout c1 s_out c1 in
  let st3 := typed (usernameInput st) (passwordInput st) (app c2) in
  let st4 := handleLogin st3 s_in st3 in
  currentUser (app c1) = Some newUser ∧
  currentUser (app c2) = None ∧
  gameState (app c2) = LOGIN_SCREEN ∧
  activityLog (app c2) =
    take 50 (logout_entry newUser s_out :: activityLog (app c1)) ∧
  currentUser st4 = Some newUser ∧
  gameState st4 = HOME_SCREEN ∧
  authError st4 = EmptyString ∧
  users st4 = users st ++ [newUser].
Proof.
  intros st Hname Hpass Hnew Hfresh newUser c1 c2 st3 st4.
  assert (Happ1 : app c1 =
    addLogEntry st s "USER_REGISTERED" []
      (setPasswordInput EmptyString
         (setUsernameInput EmptyString
            (setGameState HOME_SCREEN
               (setCurrentUserId (Some newId)
                  (setUsers (users st ++ [newUser])
                     (setAuthError EmptyString st))))))).
  { subst c1. unfold on_app, app at 1.
    apply handleRegister_accepted; assumption. }
  assert (Husers1 : users (app c1) = users st ++ [newUser]).
  { rewrite Happ1, users_addLogEntry. reflexivity. }
  assert (Hid1 : currentUserId (app c1) = Some newId).
  { rewrite Happ1, currentUserId_addLogEntry. reflexivity. }
  clear Happ1. clearbody c1.
  assert (Hfind : List.find (fun u => String.eqb (User.id u) newId)
                            (users st ++ [newUser]) = Some newUser).
  { apply find_id_fresh; [reflexivity | exact Hfresh]. }
  assert (Hcu1 : currentUser (app c1) = Some newUser).
  { unfold currentUser. rewrite Hid1, Husers1. exact Hfind. }
  destruct (handleLogout_logged_in c1 s_out newUser Hcu1)
    as (Husers2 & Hid2 & Hgs2 & Hlog2 & _).
  fold c2 in Husers2, Hid2, Hgs2, Hlog2. clearbody c2.
  rewrite Husers1 in Husers2.
  split; [exact Hcu1|].
  split; [unfold currentUser; rewrite Hid2; reflexivity|].
  split; [exact Hgs2|].
  split; [exact Hlog2|].
  destruct (typed_fields (usernameInput st) (passwordInput st) (app c2))
    as (Husers3 & Hname3 & Hpass3).
  fold st3 in Husers3, Hname3, Hpass3. clearbody st3.
  rewrite Husers2 in Husers3.
  assert (Hlogin : List.find
            (fun u => String.eqb (User.username u) (usernameInput st3)
                      && String.eqb (User.password u) (passwordInput st3))
            (users st3) = Some newUser).
  { rewrite Husers3, Hname3, Hpass3.
    apply find_credentials_fresh; [exact Hnew | reflexivity | reflexivity]. }
  destruct (handleLogin_accepts st3 s_in newUser Hlogin)
    as (Husers4 & Hid4 & Hgs4 & _ & _ & Herr4).
  fold st4 in Husers4, Hid4, Hgs4, Herr4. clearbody st4.
  rewrite Husers3 in Husers4.
  split; [unfold currentUser; rewrite Hid4, Husers4; exact Hfind|].
  split; [exact Hgs4|]. split; [exact Herr4 | exact Husers4].
Qed.

(** X16 at [grace]: registered, logged out, logged in again. *)
Lemma register_logout_login_witness :
  let c1 := on_app (handleRegister sample_state_form "id-grace" sample_stamp)
                   sample_component_form in
  let c2 := handleLogout c1 sample_stamp c1 in
  let st3 := typed "grace" "hopper" (app c2) in
  let st4 := handleLogin st3 sample_stamp st3 in
  map ActivityLog.type (activityLog (app c2)) = ["USER_LOGOUT"] ∧
  User.username <$> currentUser st4 = Some "grace" ∧
  gameState st4 = HOME_SCREEN.
Proof.
  intros c1 c2 st3 st4.
  assert (Hnew : ∀ u, u ∈ users (app sample_component_form) ->
                      User.username u ≠ usernameInput (app sample_component_form)).
  { intros u Hu. apply list_elem_of_singleton in Hu. subst u. discriminate. }
  assert (Hfresh : "id-grace" ∉ map User.id (users (app sample_component_form))).
  { simpl. intros Hin. apply list_elem_of_singleton in Hin. discriminate. }
  destruct (register_logout_login sample_component_form "id-grace" sample_stamp
              sample_stamp sample_stamp ltac:(discriminate) ltac:(discriminate)
              Hnew Hfresh)
    as (_ & _ & _ & Hlog & Hcu & Hgs & _).
  split; [reflexivity|].
  split; [|exact Hgs].
  exact (f_equal (fmap User.username) Hcu).
Defined.

Lemma find_nobody {A} (p : A -> bool) (l : list A) :
  (∀ x, In x l -> p x = false) -> List.find p l = None.
Proof.
  induction l as [|x l IH]; intros Hall; [reflexivity|].
  simpl. rewrite (Hall x) by (left; reflexivity).
  apply IH. intros y Hy. apply Hall. right. exact Hy.
Qed.

Lemma find_credentials (us : list User.t) (u : User.t) (password : string) :
  NoDup (map User.username us) -> u ∈ us ->
  List.find (fun v => String.eqb (User.username v) (User.username u)
                      && String.eqb (User.password v) password) us
  = if String.eqb (User.password u) password then Some u else None.
Proof.
  intros Hdistinct Hin. induction us as [|v us IH]; [inversion Hin|].
  simpl in Hdistinct. apply NoDup_cons in Hdistinct as [Hv Hdistinct].
  apply elem_of_cons in Hin as [->|Hin].
  - simpl. rewrite String.eqb_refl. simpl.
    destruct (String.eqb (User.password v) password); [reflexivity|].
    apply find_nobody. intros w Hw.
    destruct (String.eqb_spec (User.username w) (User.username v)) as [Heq|_];
      [|reflexivity].
    exfalso. apply Hv. rewrite <- Heq.
    apply list_elem_of_In, in_map, Hw.
  - simpl.
    destruct (String.eqb_spec (User.username v) (User.username u)) as [Heq|_].
    + exfalso. apply Hv. rewrite Heq. apply list_elem_of_fmap_2, Hin.
    + simpl. apply IH; assumption.
Qed.

(** X17: while no two users share a username, a username names one
    account.  A login with the username of a stored user and that user's
    password makes that user the current one, on the home screen, with
    the form emptied; with any other password it only shows the error
    and nobody else's account is entered.  A login with a username no
    user holds only shows the error too. *)
Theorem handleLogin_credentials (st : AppState) (s : Stamp) :
  NoDup (map User.username (users st)) ->
  let st' := handleLogin st s st in
  (∀ u, u ∈ users st -> User.username u = usernameInput st ->
     (User.password u = passwordInput st ->
        currentUserId st' = Some (User.id u) ∧
        gameState st' = HOME_SCREEN ∧
        usernameInput st' = EmptyString ∧
        passwordInput st' = EmptyString ∧
        authError st' = EmptyString ∧
        users st' = users st) ∧
     (User.password u ≠ passwordInput st ->
        st' = setAuthError "Invalid username or password." st)) ∧
  ((∀ u, u ∈ users st -> User.username u ≠ usernameInput st) ->
     st' = setAuthError "Invalid username or password." st).
Proof.
  intros Hdistinct st'. split.
  - intros u Hin Hname.
    pose proof (find_credentials (users st) u (passwordInput st) Hdistinct Hin)
      as Hfind.
    rewrite Hname in Hfind. split.
    + intros Hpass. apply String.eqb_eq in Hpass. rewrite Hpass in Hfind.
      destruct (handleLogin_accepts st s u Hfind)
        as (Husers & Hid & Hgs & Hu & Hp & Herr).
      repeat split; assumption.
    + intros Hpass. apply String.eqb_neq in Hpass. rewrite Hpass in Hfind.
      apply handleLogin_rejects, Hfind.
  - intros Hnone. apply handleLogin_rejects. apply find_nobody.
    intros u Hu.
    destruct (String.eqb_spec (User.username u) (usernameInput st)) as [Heq|_];
      [|reflexivity].
    exfalso. apply (Hnone u); [apply list_elem_of_In, Hu | exact Heq].
Qed.

(** X17 at [ada]'s account: the right password logs in, a wrong one does
    not. *)
Lemma handleLogin_credentials_witness :
  let right := typed "ada" "secret" sample_state_form in
  let wrong := typed "ada" "guess" sample_state_form in
  currentUserId (handleLogin right sample_stamp right) = Some "id-ada" ∧
  currentUserId (handleLogin wrong sample_stamp wrong) = None ∧
  authError (handleLogin wrong sample_stamp wrong)
    = "Invalid username or password.".
Proof.
  intros right wrong.
  assert (Hdistinct : ∀ st, users st = [sample_user] ->
                            NoDup (map User.username (users st))).
  { intros st ->. apply NoDup_singleton. }
  assert (Hin : sample_user ∈ [sample_user]) by apply list_elem_of_singleton, eq_refl.
  destruct (handleLogin_credentials right sample_stamp
              (Hdistinct right eq_refl)) as [Hright _].
  destruct (handleLogin_credentials wrong sample_stamp
              (Hdistinct wrong eq_refl)) as [Hwrong _].
  destruct (Hright sample_user Hin eq_refl) as [Hok _].
  destruct (Hwrong sample_user Hin eq_refl) as [_ Hno].
  destruct (Hok eq_refl) as (Hid & _).
  split; [exact Hid|].
  rewrite (Hno ltac:(discriminate)). split; reflexivity.
Defined.

(** X18: registration keeps the accounts well formed.  If no two users
    share a username and every user has a non-empty username and a
    non-empty password, the same holds after a registration attempt,
    accepted or rejected. *)
Theorem handleRegister_accounts_ok (st : AppState) (newId : string) (s : Stamp) :
  accounts_ok (users st) ->
  accounts_ok (users (handleRegister st newId s st)).
Proof.
  intros [Hdistinct Hfilled]. unfold handleRegister.
  destruct (existsb _ (users st)) eqn:Htaken; [split; assumption|].
  destruct (JS.truthy (usernameInput st)) eqn:Hname; [|split; assumption].
  destruct (JS.truthy (passwordInput st)) eqn:Hpass; [|split; assumption].
  simpl. rewrite users_addLogEntry.
  change (users (setPasswordInput ?a (setUsernameInput ?b (setGameState ?g
            (setCurrentUserId ?i (setUsers ?v ?x)))))) with v.
  pose proof (proj1 (existsb_username_false _ _) Htaken) as Hfree.
  apply truthy_true in Hname, Hpass. split.
  - rewrite map_app. simpl. apply NoDup_app. split; [exact Hdistinct|]. split.
    + intros name Hin Hnew. apply list_elem_of_singleton in Hnew. subst name.
      apply list_elem_of_fmap in Hin as (u & Hu & Hin).
      apply (Hfree u Hin). symmetry. exact Hu.
    + apply NoDup_singleton.
  - intros u Hin. apply elem_of_app in Hin as [Hin|Hin]; [apply Hfilled, Hin|].
    apply list_elem_of_singleton in Hin. subst u. split; assumption.
Qed.

(** X18 at [grace]'s registration. *)
Lemma handleRegister_accounts_ok_witness :
  accounts_ok (users (handleRegister sample_state_form "id-grace" sample_stamp
                                     sample_state_form)).
Proof.
  apply handleRegister_accounts_ok. split.
  - apply NoDup_singleton.
  - intros u Hu. apply list_elem_of_singleton in Hu. subst u.
    split; discriminate.
Defined.

(** ** Profile picture *)

Lemma find_after_picture (cid dataUrl : string) (us : list User.t) :
  List.find (fun u => String.eqb (User.id u) cid)
    (map (fun user => if String.eqb (User.id user) cid
                      then with_picture dataUrl user else user) us)
  = option_map (with_picture dataUrl)
      (List.find (fun u => String.eqb (User.id u) cid) us).
Proof.
  induction us as [|u us IH]; simpl; [reflexivity|].
  destruct (String.eqb (User.id u) cid) eqn:Hu; simpl; rewrite Hu.
  - reflexivity.
  - exact IH.
Qed.

Lemma scores_alter_bump_0 (pic : option string) (i : nat)
    (l : list LeaderboardEntry.t) :
  map LeaderboardEntry.score (alter (Leaderboard.bump 0 pic) i l)
  = map LeaderboardEntry.score l.
Proof.
  revert i. induction l as [|e l IH]; intros [|i]; simpl; try reflexivity.
  - rewrite Z.add_0_r. reflexivity.
  - f_equal. apply IH.
Qed.

(** The order of a board depends on its scores only. *)
Lemma descending_scores (l l' : list LeaderboardEntry.t) :
  map LeaderboardEntry.score l = map LeaderboardEntry.score l' ->
  Leaderboard.descending l -> Leaderboard.descending l'.
Proof.
  unfold Leaderboard.descending. revert l'.
  induction l as [|e l IH]; intros [|e' l'] Hscores Hsorted;
    try discriminate; [constructor|].
  simpl in Hscores. injection Hscores as He Hl.
  apply StronglySorted_inv in Hsorted as [Hsorted Hall].
  constructor; [apply IH; assumption|].
  rewrite <- He. clear IH Hsorted He. revert l' Hl.
  induction Hall as [|x l Hx Hall IH]; intros [|x' l'] Hl; try discriminate;
    [constructor|].
  simpl in Hl. injection Hl as Hx' Hl. constructor.
  - rewrite <- Hx'. exact Hx.
  - apply IH, Hl.
Qed.

(** X19: saving a profile picture.  The picture is stored with the users
    that have the logged-in id, so the current user carries it; the
    profile page is set.  On a board in descending order with at most 20
    entries and no negative score, the entry with the user's name gets
    the picture and no score or place changes; when the user has no
    entry, one with 0 points is added at the end if fewer than 20 entries
    are there, and the board is left as it is otherwise.  When nobody is
    logged in nothing is written. *)
Theorem handleSaveProfilePic_saves (c : Component) (dataUrl : string) :
  let board := leaderboard (app c) in
  let c' := handleSaveProfilePic c dataUrl c in
  (currentUser (app c) = None -> c' = c) ∧
  (∀ cu,
     currentUser (app c) = Some cu -> User.id cu ≠ EmptyString ->
     Leaderboard.descending board -> (length board <= 20)%nat ->
     (∀ e, e ∈ board -> 0 <= LeaderboardEntry.score e) ->
     currentUser (app c') = Some (with_picture dataUrl cu) ∧
     map User.stats (users (app c')) = map User.stats (users (app c)) ∧
     gameState (app c') = USER_PROFILE ∧
     editingProfilePic c' = None ∧
     activityLog (app c') = activityLog (app c) ∧
     leaderboard (app c') =
       match board_index (User.username cu) board with
       | Some i => alter (Leaderboard.bump 0 (Some dataUrl)) i board
       | None =>
           take 20 (board ++ [Leaderboard.fresh cu (User.username cu) 0
                                                (Some dataUrl)])
       end ∧
     map LeaderboardEntry.score (take (length board) (leaderboard (app c')))
       = map LeaderboardEntry.score board).
Proof.
  intros board c'. split.
  - intros Hnone. subst c'. unfold handleSaveProfilePic. rewrite Hnone.
    destruct (currentUserId (app c)); reflexivity.
  - intros cu Hcu Hid Hsorted Hlen Hscores.
    pose proof (currentUser_has_id (app c) cu Hcu) as Hcid.
    assert (Hc' : c' =
      on_app (setGameState USER_PROFILE)
        (setEditingProfilePic None
           (on_app (updateLeaderboard (app c) (User.username cu) 0 (Some dataUrl))
              (on_app (fun st =>
                 setUsers
                   (map (fun user => if String.eqb (User.id user) (User.id cu)
                                     then with_picture dataUrl user else user)
                        (users st)) st) c)))).
    { subst c'. unfold handleSaveProfilePic. rewrite Hcid, Hcu.
      apply truthy_true in Hid. rewrite Hid. reflexivity. }
    clearbody c'.
    assert (Hfields :
      users (app c') =
        map (fun user => if String.eqb (User.id user) (User.id cu)
                         then with_picture dataUrl user else user)
            (users (app c)) ∧
      currentUserId (app c') = currentUserId (app c) ∧
      gameState (app c') = USER_PROFILE ∧
      editingProfilePic c' = None ∧
      activityLog (app c') = activityLog (app c) ∧
      leaderboard (app c')
        = board_after (app c) (User.username cu) 0 (Some dataUrl)).
    { rewrite Hc'. repeat split. }
    destruct Hfields as (Husers & Hid' & Hgs & Hedit & Hlog & Hboard).
    assert (Hnew :
      board_after (app c) (User.username cu) 0 (Some dataUrl) =
        match board_index (User.username cu) board with
        | Some i => alter (Leaderboard.bump 0 (Some dataUrl)) i board
        | None =>
            take 20 (board ++ [Leaderboard.fresh cu (User.username cu) 0
                                                 (Some dataUrl)])
        end).
    { destruct (board_index (User.username cu) board) as [i|] eqn:Hi.
      - rewrite (board_after_found (app c) (User.username cu) 0 (Some dataUrl)
                   i Hi).
        fold board.
        rewrite BoardFacts.sort_desc_sorted.
        + apply take_ge. rewrite length_alter. exact Hlen.
        + apply (descending_scores board); [|exact Hsorted].
          symmetry. apply scores_alter_bump_0.
      - rewrite (board_after_pushed (app c) (User.username cu) 0 (Some dataUrl)
                   cu Hi Hcu).
        fold board. rewrite BoardFacts.sort_desc_snoc by exact Hscores.
        rewrite BoardFacts.sort_desc_sorted by exact Hsorted. reflexivity. }
    split.
    { unfold currentUser. rewrite Hid', Hcid, Husers, find_after_picture.
      unfold currentUser in Hcu. rewrite Hcid in Hcu. rewrite Hcu. reflexivity. }
    split.
    { rewrite Husers, map_map. apply map_ext. intros user.
      destruct (String.eqb (User.id user) (User.id cu)); reflexivity. }
    split; [exact Hgs|]. split; [exact Hedit|]. split; [exact Hlog|].
    rewrite Hboard, Hnew. split; [reflexivity|].
    destruct (board_index (User.username cu) board) as [i|].
    + rewrite <- (length_alter (Leaderboard.bump 0 (Some dataUrl)) board i)
        at 1.
      rewrite firstn_all. apply scores_alter_bump_0.
    + rewrite take_take.
      replace (length board `min` 20)%nat with (length board) by lia.
      rewrite take_app_length. reflexivity.
Qed.

(** X19 at [ada], second on the board behind [bob]: her entry gets the
    picture, the scores stay 7 and 5. *)
Lemma handleSaveProfilePic_saves_witness :
  let c' := handleSaveProfilePic sample_component_profile "data:image/png"
                                 sample_component_profile in
  User.profilePictureUrl <$> currentUser (app c') = Some (Some "data:image/png") ∧
  map LeaderboardEntry.score (leaderboard (app c')) = [7; 5] ∧
  map LeaderboardEntry.profilePictureUrl (leaderboard (app c'))
    = [None; Some "data:image/png"].
Proof.
  intros c'.
  destruct (handleSaveProfilePic_saves sample_component_profile "data:image/png")
    as [_ Hsaved].
  destruct (Hsaved sample_user) as (Hcu & _ & _ & _ & _ & Hboard & _).
  - reflexivity.
  - discriminate.
  - repeat constructor; simpl; lia.
  - simpl. lia.
  - intros e He. apply elem_of_cons in He as [->|He]; [simpl; lia|].
    apply list_elem_of_singleton in He. subst e. simpl. lia.
  - fold c' in Hcu, Hboard.
    split; [rewrite Hcu; reflexivity|].
    split; rewrite Hboard; reflexivity.
Defined.

(** ** Choosing a chapter *)

(** X20: the request a chapter choice fires reads the chapter of the
    render the choice was made in, not the chosen one.  In the modes that
    request content at once (diagram, notes, deep dive, real-world
    connections) a choice made while no chapter is stored only stores the
    chapter: nothing is requested and the screen stays.  In notes mode,
    with a chapter stored from before, the notes that arrive are shown and
    the chosen chapter is stored, but the loading message and the log
    entry name the chapter stored before. *)
Theorem selectTopic_stale_topic (c : Component) (selectedTopic : string)
    (apis : TopicApis) (env : DoneEnv) :
  let c' := selectTopic c selectedTopic apis env c in
  (fires_request (appMode c) = true -> topic (app c) = None ->
   c' = on_app (setTopic (Some selectedTopic)) c) ∧
  (∀ before g result cu,
     appMode c = Some AppMode.notes ->
     topic (app c) = Some before -> before ≠ EmptyString ->
     grade (app c) = Some g ->
     api_notes apis = Resolved result ->
     currentUser (app c) = Some cu ->
     topic (app c') = Some selectedTopic ∧
     notes (app c') = result ∧
     gameState (app c') = NOTES_DISPLAY ∧
     loadingMessage (app c') =
       "Generating study notes for " +:+ JS.dquote +:+ before +:+ JS.dquote
         +:+ "..." ∧
     activityLog (app c') =
       log_entry cu (de_stamp env) "NOTES_GENERATED"
                 [("topic", DStr before); ("grade", DNum (Grade_to_Z g))]
         :: take 49 (activityLog (app c))).
Proof.
  intros c'. split.
  - intros Hmode Htopic. subst c'. unfold selectTopic.
    destruct (appMode c) as [[]|]; try discriminate Hmode;
      unfold handleGenerateDiagramIdeas, handleGenerateNotes,
             handleGenerateDeepDive, handleGenerateRealWorldExamples;
      rewrite Htopic; reflexivity.
  - intros before g result cu Hmode Htopic Hbefore Hgrade Hnotes Hcu.
    subst c'. unfold selectTopic. rewrite Hmode.
    unfold handleGenerateNotes. rewrite Htopic, Hgrade.
    apply truthy_true in Hbefore. rewrite Hbefore, Hnotes.
    cbv zeta. unfold withApiErrorHandler.
    cbn [app on_app].
    set (st3 := addLogEntry (app c) _ _ _ _).
    assert (Hframe : ∀ st, 
      selections (handleActivityCompletion (app c) (de_today env) st)
        = selections st ∧
      dataLoading (handleActivityCompletion (app c) (de_today env) st)
        = dataLoading st ∧
      gameState (handleActivityCompletion (app c) (de_today env) st)
        = gameState st ∧
      gamification (handleActivityCompletion (app c) (de_today env) st)
        = gamification st).
    { intros st.
      destruct (handleActivityCompletion_bookkeeping (app c) st (de_today env))
        as (_ & Hgs & Hsel & Hdata & _).
      split; [exact Hsel|]. split; [exact Hdata|]. split; [exact Hgs|].
      apply gamification_handleActivityCompletion. }
    destruct (Hframe st3) as (Hsel & Hdata & Hgs & Hgam).
    unfold topic, notes, loadingMessage, activityLog.
    cbn [selections dataLoading gameState gamification setIsLoading
         with_dataLoading].
    rewrite Hsel, Hdata, Hgs, Hgam. subst st3.
    unfold addLogEntry. rewrite Hcu. repeat split.
Qed.

(** X20 at [ada] in notes mode: with no chapter stored the choice of
    [Sound] requests nothing; with [Light] stored from before, the notes
    arrive and are logged under [Light]. *)
Lemma selectTopic_stale_topic_witness :
  let first := on_app (setTopic None) sample_component_notes in
  let c1 := selectTopic first "Sound" sample_apis sample_done_env first in
  let c2 := selectTopic sample_component_notes "Sound" sample_apis
                        sample_done_env sample_component_notes in
  gameState (app c1) = TOPIC_SELECTION ∧ notes (app c1) = [] ∧
  topic (app c2) = Some "Sound" ∧ gameState (app c2) = NOTES_DISPLAY ∧
  map ActivityLog.details (activityLog (app c2))
    = [[("topic", DStr "Light"); ("grade", DNum 8)]].
Proof.
  intros first c1 c2.
  destruct (selectTopic_stale_topic first "Sound" sample_apis sample_done_env)
    as [Hfirst _].
  destruct (selectTopic_stale_topic sample_component_notes "Sound" sample_apis
              sample_done_env) as [_ Hsecond].
  destruct (Hsecond "Light" G8 [NoteSection.mk "Sound" ["Sound is a wave."]]
              sample_user)
    as (Htopic & _ & Hgs & _ & Hlog).
  - reflexivity.
  - reflexivity.
  - vm_compute. discriminate.
  - reflexivity.
  - reflexivity.
  - reflexivity.
  - fold c2 in Htopic, Hgs, Hlog. fold c1 in Hfirst.
    rewrite (Hfirst eq_refl eq_refl).
    split; [reflexivity|]. split; [reflexivity|].
    split; [exact Htopic|]. split; [exact Hgs|].
    rewrite Hlog. reflexivity.
Defined.

(** ** The virtual lab: what a request writes besides its content *)

Lemma withApiErrorHandler_error {A} (apiCall : ApiOutcome A) (st : AppState) :
  apiError (snd (withApiErrorHandler apiCall st)) = error_after apiCall ∧
  userManagement (snd (withApiErrorHandler apiCall st)) = userManagement st ∧
  gamification (snd (withApiErrorHandler apiCall st)) = gamification st.
Proof.
  destruct apiCall as [result|error]; [repeat split|].
  rewrite withApiErrorHandler_rejected. repeat split.
Qed.

(** After the image loop the stored error is the one of the last request. *)
Lemma lab_images_error (total : nat) (generateDiagramImage : nat -> ApiOutcome string)
    (steps : list VirtualLabStep.t) :
  ∀ (i : nat) (st : AppState),
    let st' := snd (lab_images total generateDiagramImage i steps st) in
    apiError st' =
      match steps with
      | [] => apiError st
      | _ :: rest => error_after (generateDiagramImage (i + length rest)%nat)
      end ∧
    userManagement st' = userManagement st ∧
    gamification st' = gamification st.
Proof.
  induction steps as [|step rest IH]; intros i st; [repeat split|].
  cbn [lab_images].
  set (st1 := setLoadingMessage _ st).
  destruct (withApiErrorHandler_error (generateDiagramImage i) st1)
    as (Herr & Hum & Hgam).
  destruct (withApiErrorHandler (generateDiagramImage i) st1) as [image st2].
  simpl in Herr, Hum, Hgam.
  specialize (IH (S i) st2).
  destruct (lab_images total generateDiagramImage (S i) rest st2) as [more st3].
  simpl in IH. destruct IH as (Herr3 & Hum3 & Hgam3). simpl.
  split; [|split; [rewrite Hum3; exact Hum | rewrite Hgam3; exact Hgam]].
  rewrite Herr3. destruct rest as [|step' rest'].
  - simpl. rewrite Nat.add_0_r. exact Herr.
  - simpl. f_equal. f_equal. lia.
Qed.

(** X21: a request for a virtual lab is logged and counted as the day's
    activity before anything is asked for: the VIRTUAL_LAB_STARTED entry
    and the streak update are written whether the steps arrive or not.
    When the steps arrive, the error left on screen is the one of the
    request for the last picture alone: a failure for an earlier picture
    is erased by the next request that succeeds, and a lab without steps
    leaves no error. *)
Theorem handleGenerateVirtualLab_writes (st : AppState)
    (generateVirtualLabSteps : ApiOutcome (list VirtualLabStep.t))
    (generateDiagramImage : nat -> ApiOutcome string) (env : DoneEnv)
    (cu : User.t) :
  inputPrompt st ≠ EmptyString -> currentUser st = Some cu ->
  let st' := handleGenerateVirtualLab st generateVirtualLabSteps
               generateDiagramImage env st in
  activityLog st' =
    log_entry cu (de_stamp env) "VIRTUAL_LAB_STARTED"
              [("prompt", DStr (inputPrompt st))]
      :: take 49 (activityLog st) ∧
  users st' = users (handleActivityCompletion st (de_today env) st) ∧
  isLoading st' = false ∧
  apiError st' =
    match generateVirtualLabSteps with
    | Rejected error => Some (displayed_message error)
    | Resolved [] => None
    | Resolved (_ :: rest) => error_after (generateDiagramImage (length rest))
    end.
Proof.
  intros Hprompt Hcu st'. subst st'. unfold handleGenerateVirtualLab.
  apply truthy_true in Hprompt. rewrite Hprompt.
  set (st3 := addLogEntry st _ _ _ _).
  set (st4 := handleActivityCompletion st (de_today env) st3).
  assert (Hst4 : activityLog st4 =
                   log_entry cu (de_stamp env) "VIRTUAL_LAB_STARTED"
                             [("prompt", DStr (inputPrompt st))]
                     :: take 49 (activityLog st) ∧
                 users st4 = users (handleActivityCompletion st (de_today env) st)).
  { subst st4 st3. unfold activityLog.
    rewrite gamification_handleActivityCompletion.
    unfold addLogEntry. rewrite Hcu. split; [reflexivity|].
    unfold handleActivityCompletion. rewrite Hcu.
    destruct (String.eqb _ _); [reflexivity|].
    unfold updateUserStats.
    destruct (currentUserId st) as [cid|]; [|reflexivity].
    destruct (JS.truthy cid); reflexivity. }
  destruct Hst4 as [Hlog4 Husers4]. clearbody st4. clear st3.
  destruct (withApiErrorHandler_error generateVirtualLabSteps st4)
    as (Herr & Hum & Hgam).
  destruct generateVirtualLabSteps as [result|error].
  - cbn [withApiErrorHandler].
    set (st5 := setApiError None st4).
    destruct (lab_images_error (length result) generateDiagramImage result 0 st5)
      as (Herr' & Hum' & Hgam').
    destruct (lab_images (length result) generateDiagramImage 0 result st5)
      as [stepsWithImages s1].
    simpl in Herr', Hum', Hgam'.
    unfold activityLog, users, isLoading, apiError in *. simpl.
    rewrite Hum', Hgam'. subst st5. simpl.
    split; [exact Hlog4|]. split; [exact Husers4|]. split; [reflexivity|].
    change (dl_apiError (dataLoading s1)) with (apiError s1).
    unfold apiError. rewrite Herr'. destruct result; reflexivity.
  - rewrite withApiErrorHandler_rejected.
    split; [exact Hlog4|]. split; [exact Husers4|]. split; reflexivity.
Qed.

(** X21 at [ada]'s volcano: the request for the steps fails, the log has
    the entry and the day is counted; with two steps of which only the
    first picture fails, no error is left. *)
Lemma handleGenerateVirtualLab_writes_witness :
  let failed := handleGenerateVirtualLab sample_state_lab
                  (Rejected (ErrorObject "quota exceeded"))
                  (fun _ => Resolved "image") sample_done_env sample_state_lab in
  let erased := handleGenerateVirtualLab sample_state_lab
                  (Resolved [sample_lab_step; sample_lab_step])
                  (fun i => match i with
                            | O => Rejected (ErrorObject "quota exceeded")
                            | _ => Resolved "image"
                            end)
                  sample_done_env sample_state_lab in
  map ActivityLog.type (activityLog failed) = ["VIRTUAL_LAB_STARTED"] ∧
  map (fun u => UserStats.currentStreak (User.stats u)) (users failed) = [1] ∧
  apiError failed = Some "quota exceeded" ∧
  apiError erased = None.
Proof.
  intros failed erased.
  destruct (handleGenerateVirtualLab_writes sample_state_lab
              (Rejected (ErrorObject "quota exceeded"))
              (fun _ => Resolved "image") sample_done_env sample_user)
    as (Hlog & Husers & _ & Herr).
  { vm_compute. discriminate. }
  { reflexivity. }
  destruct (handleGenerateVirtualLab_writes sample_state_lab
              (Resolved [sample_lab_step; sample_lab_step])
              (fun i => match i with
                        | O => Rejected (ErrorObject "quota exceeded")
                        | _ => Resolved "image"
                        end)
              sample_done_env sample_user)
    as (_ & _ & _ & Herr').
  { vm_compute. discriminate. }
  { reflexivity. }
  fold failed in Hlog, Husers, Herr. fold erased in Herr'.
  split; [rewrite Hlog; reflexivity|].
  split; [rewrite Husers; reflexivity|].
  split; [exact Herr | exact Herr'].
Defined.

(** ** Accounts over a session *)

Lemma accounts_frame (st st' : AppState) :
  users st' = users st -> accounts st' = accounts st.
Proof. unfold accounts. intros ->. reflexivity. Qed.

Lemma accounts_users_with_stats (cid : string)
    (updateFn : UserStats.t -> UserStats.t) (us : list User.t) :
  map account (users_with_stats cid updateFn us) = map account us.
Proof.
  unfold users_with_stats. rewrite map_map. apply map_ext. intros user.
  destruct (String.eqb (User.id user) cid); reflexivity.
Qed.

Lemma accounts_updateUserStats (r st : AppState)
    (updateFn : UserStats.t -> UserStats.t) :
  accounts (updateUserStats r updateFn st) = accounts st.
Proof.
  unfold accounts.
  destruct (users_updateUserStats r st updateFn) as [->|(cid & _ & ->)];
    [reflexivity | apply accounts_users_with_stats].
Qed.

Lemma accounts_handleActivityCompletion (r st : AppState) (d : Today) :
  accounts (handleActivityCompletion r d st) = accounts st.
Proof.
  unfold handleActivityCompletion. destruct (currentUser r); [|reflexivity].
  destruct (String.eqb _ _); [reflexivity | apply accounts_updateUserStats].
Qed.

Lemma accounts_addLogEntry (r st : AppState) (s : Stamp) (type : string)
    (details : list (string * DetailValue)) :
  accounts (addLogEntry r s type details st) = accounts st.
Proof. apply accounts_frame, users_addLogEntry. Qed.

Lemma accounts_withApiErrorHandler {A} (apiCall : ApiOutcome A) (st : AppState) :
  accounts (snd (withApiErrorHandler apiCall st)) = accounts st.
Proof.
  apply accounts_frame. unfold users.
  destruct (withApiErrorHandler_error apiCall st) as (_ & -> & _). reflexivity.
Qed.

Lemma accounts_lab_images (total : nat) (images : nat -> ApiOutcome string)
    (steps : list VirtualLabStep.t) (i : nat) (st : AppState) :
  accounts (snd (lab_images total images i steps st)) = accounts st.
Proof.
  apply accounts_frame. unfold users.
  destruct (lab_images_error total images steps i st) as (_ & -> & _).
  reflexivity.
Qed.

Lemma accounts_example_images (total : nat) (images : nat -> ApiOutcome string)
    (examples : list RealWorldExample.t) :
  ∀ (i : nat) (st : AppState),
    accounts (snd (example_images total images i examples st)) = accounts st.
Proof.
  induction examples as [|example rest IH]; intros i st; [reflexivity|].
  cbn [example_images].
  set (st1 := setLoadingMessage _ st).
  pose proof (accounts_withApiErrorHandler (images i) st1) as Hcall.
  destruct (withApiErrorHandler (images i) st1) as [image st2].
  specialize (IH (S i) st2).
  destruct (example_images total images (S i) rest st2) as [more st3].
  simpl in *. rewrite IH. exact Hcall.
Qed.

Lemma accounts_handleGenerateNotes (r st : AppState)
    (outcome : ApiOutcome (list NoteSection.t)) (env : DoneEnv) :
  accounts (handleGenerateNotes r outcome env st) = accounts st.
Proof.
  unfold handleGenerateNotes.
  destruct (topic r) as [tp|]; [|reflexivity].
  destruct (grade r) as [g|]; [|reflexivity].
  destruct (JS.truthy tp); [|reflexivity].
  destruct outcome as [result|error];
    [|rewrite withApiErrorHandler_rejected; reflexivity].
  cbn [withApiErrorHandler].
  change (accounts (setIsLoading ?b ?s)) with (accounts s).
  rewrite accounts_handleActivityCompletion, accounts_addLogEntry.
  reflexivity.
Qed.

Lemma accounts_handleGenerateVirtualLab (r st : AppState)
    (outcome : ApiOutcome (list VirtualLabStep.t))
    (images : nat -> ApiOutcome string) (env : DoneEnv) :
  accounts (handleGenerateVirtualLab r outcome images env st) = accounts st.
Proof.
  unfold handleGenerateVirtualLab.
  destruct (JS.truthy (inputPrompt r)); [|reflexivity].
  set (st4 := handleActivityCompletion r (de_today env) _).
  assert (H4 : accounts st4 = accounts st).
  { subst st4. rewrite accounts_handleActivityCompletion, accounts_addLogEntry.
    reflexivity. }
  clearbody st4.
  pose proof (accounts_withApiErrorHandler outcome st4) as H5.
  destruct (withApiErrorHandler outcome st4) as [[result|] st5];
    simpl in H5; change (accounts (setIsLoading ?b ?s)) with (accounts s);
    [|congruence].
  pose proof (accounts_lab_images (length result) images result 0 st5) as H6.
  destruct (lab_images (length result) images 0 result st5) as [withImages s1].
  simpl in H6.
  change (accounts (setGameState ?g (setVirtualLabSteps ?v ?s)))
    with (accounts s).
  congruence.
Qed.

Lemma accounts_handleGenerateQuiz (c : Component) (selectedDifficulty : Difficulty)
    (selectedCount selectedTime : Z) (mode : AppMode.t)
    (outcome : ApiOutcome (list QuizQuestion.t)) (env : DoneEnv) :
  accounts (app (handleGenerateQuiz c selectedDifficulty selectedCount
                                    selectedTime mode outcome env c))
  = accounts (app c).
Proof.
  unfold handleGenerateQuiz.
  destruct (topic (app c)) as [tp|]; [|reflexivity].
  destruct (grade (app c)) as [g|]; [|reflexivity].
  destruct (JS.truthy tp); [|reflexivity].
  destruct outcome as [result|error];
    [|unfold withApiErrorHandlerC, withApiErrorHandler;
      destruct (JS.includes _ _); reflexivity].
  cbv zeta. unfold withApiErrorHandlerC. cbn [withApiErrorHandler fst snd].
  destruct mode; cbn [app on_app setDifficulty setQuestionCount];
    change (accounts (setIsLoading ?b ?s)) with (accounts s);
    rewrite ?accounts_updateUserStats, ?accounts_handleActivityCompletion,
            ?accounts_addLogEntry;
    destruct (0 <? selectedTime); reflexivity.
Qed.

Lemma accounts_goToHome (c : Component) :
  accounts (app (goToHome c)) = accounts (app c).
Proof. reflexivity. Qed.

Lemma accounts_selectTopic (c : Component) (selectedTopic : string)
    (apis : TopicApis) (env : DoneEnv) :
  accounts (app (selectTopic c selectedTopic apis env c)) = accounts (app c).
Proof.
  unfold selectTopic.
  destruct (appMode c) as [[]|]; try reflexivity.
  - unfold handleGenerateDiagramIdeas.
    destruct (topic (app c)) as [tp|]; [|reflexivity].
    destruct (grade (app c)) as [g|]; [|reflexivity].
    destruct (JS.truthy tp); [|reflexivity].
    destruct (api_ideas apis) as [ideas|error];
      [|unfold withApiErrorHandlerC, withApiErrorHandler;
        destruct (JS.includes _ _)];
      reflexivity.
  - cbn [app on_app]. rewrite accounts_handleGenerateNotes. reflexivity.
  - unfold handleGenerateDeepDive.
    destruct (topic (app c)) as [tp|]; [|reflexivity].
    destruct (grade (app c)) as [g|]; [|reflexivity].
    destruct (JS.truthy tp); [|reflexivity].
    destruct (api_explanation apis) as [explanation|error];
      [|unfold withApiErrorHandlerC, withApiErrorHandler;
        destruct (JS.includes _ _); reflexivity].
    cbv zeta. unfold withApiErrorHandlerC. cbn [withApiErrorHandler fst snd].
    destruct (JS.truthy_opt (Some explanation)); [|reflexivity].
    cbn [app on_app setConceptExplanation].
    change (accounts (setIsLoading ?b ?s)) with (accounts s).
    rewrite accounts_handleActivityCompletion, accounts_addLogEntry.
    reflexivity.
  - unfold handleGenerateRealWorldExamples.
    destruct (topic (app c)) as [tp|]; [|reflexivity].
    destruct (JS.truthy tp); [|reflexivity].
    cbv zeta. unfold withApiErrorHandlerC. cbn [app on_app fst snd].
    destruct (api_examples apis) as [result|error].
    + cbn [withApiErrorHandler fst snd app on_app].
      match goal with
      | |- context [example_images ?n ?im 0 ?res ?st] =>
          pose proof (accounts_example_images n im res 0 st) as H6;
          destruct (example_images n im 0 res st) as [withImages s1]
      end.
      cbn [snd] in H6. cbn [app on_app setRealWorldExamples].
      change (accounts (setIsLoading ?b (setGameState ?g ?s)))
        with (accounts s).
      rewrite H6. change (accounts (setApiError ?e ?s)) with (accounts s).
      rewrite accounts_handleActivityCompletion, accounts_addLogEntry.
      reflexivity.
    + rewrite withApiErrorHandler_rejected. cbn [fst snd app on_app].
      change (accounts (setIsLoading ?b ?s)) with (accounts s).
      rewrite accounts_withApiErrorHandler, accounts_handleActivityCompletion,
              accounts_addLogEntry.
      reflexivity.
Qed.

Lemma accounts_handleAnswer (BADGE_KEYS : list BadgeType)
    (BADGE_DEFINITIONS : BadgeType -> BadgeDefinition.t)
    (st st' : AppState) (answer : option string) (env : QuizEnv) :
  handleAnswer BADGE_KEYS BADGE_DEFINITIONS st answer env st = Some st' ->
  accounts st' = accounts st.
Proof.
  unfold handleAnswer, handleAnswer_timeout. intros H.
  destruct (Z.of_nat (currentQuestionIndex st) <? _).
  { injection H as <-. destruct (0 <? timePerQuestion st); reflexivity. }
  destruct (score_loop _ _ _ _) as [finalScore|]; [|discriminate].
  destruct (currentUser st) as [cu|]; [|injection H as <-; reflexivity].
  destruct (topic st) as [tp|]; [|injection H as <-; reflexivity].
  destruct (JS.truthy tp); [|injection H as <-; reflexivity].
  pose proof (awardBadges_bookkeeping BADGE_KEYS BADGE_DEFINITIONS st
                (setGameState QUIZ_SCORE
                   (setScore finalScore (handleAnswer_now st answer st)))
                finalScore (Z.of_nat (length (questions st))) tp (qe_badges env))
    as [_ Husers].
  destruct (awardBadges _ _ st finalScore _ tp (qe_badges env) _)
    as [earned st2].
  injection H as <-. simpl in Husers.
  rewrite accounts_handleActivityCompletion, accounts_addLogEntry.
  change (accounts (updateLeaderboard ?r ?u ?p ?pic ?s)) with (accounts s).
  rewrite accounts_updateUserStats. apply accounts_frame. exact Husers.
Qed.

Lemma accounts_handleSaveProfilePic (c : Component) (dataUrl : string) :
  accounts (app (handleSaveProfilePic c dataUrl c)) = accounts (app c).
Proof.
  unfold handleSaveProfilePic.
  destruct (currentUserId (app c)) as [cid|]; [|reflexivity].
  destruct (currentUser (app c)) as [cu|]; [|reflexivity].
  destruct (JS.truthy cid); [|reflexivity].
  unfold accounts.
  transitivity
    (map account
       (map (fun user => if String.eqb (User.id user) cid
                         then with_picture dataUrl user else user)
            (users (app c)))); [reflexivity|].
  rewrite map_map. apply map_ext. intros user.
  destruct (String.eqb (User.id user) cid); reflexivity.
Qed.

Lemma accounts_handleLogin (st : AppState) (s : Stamp) :
  accounts (handleLogin st s st) = accounts st.
Proof.
  unfold handleLogin. destruct (List.find _ _); [|reflexivity].
  rewrite accounts_addLogEntry. reflexivity.
Qed.

Lemma accounts_handleLogout (c : Component) (s : Stamp) :
  accounts (app (handleLogout c s c)) = accounts (app c).
Proof.
  unfold handleLogout, resetSelections. cbn [app on_app setAppMode
    setDifficulty setQuestionCount setConceptExplanation setDiagramIdeas
    setRealWorldExamples].
  rewrite <- (accounts_addLogEntry (app c) (app c) s "USER_LOGOUT" []).
  reflexivity.
Qed.

Lemma accounts_handleRegister (st : AppState) (newId : string) (s : Stamp) :
  accounts (handleRegister st newId s st) = accounts st ∨
  accounts (handleRegister st newId s st)
    = accounts st ++ [(newId, usernameInput st, passwordInput st, false)].
Proof.
  unfold accounts.
  destruct (handleRegister_users st newId s) as [->| ->]; [left; reflexivity|].
  right. rewrite map_app. reflexivity.
Qed.

(** One handler adds at most one account, never an administrator, and
    touches no other. *)
Lemma handler_accounts (BADGE_KEYS : list BadgeType)
    (BADGE_DEFINITIONS : BadgeType -> BadgeDefinition.t) (c c' : Component) :
  handler BADGE_KEYS BADGE_DEFINITIONS c c' ->
  ∃ added, accounts (app c') = accounts (app c) ++ added ∧
           Forall (fun a => a.2 = false) added.
Proof.
  intros [answer env st' H | d n t m o e | t apis e | o images e | s
          | newId s | s | dataUrl | | g | u p].
  - exists []. rewrite app_nil_r. split; [|constructor].
    apply (accounts_handleAnswer _ _ _ _ _ _ H).
  - exists []. rewrite app_nil_r. split; [|constructor].
    apply accounts_handleGenerateQuiz.
  - exists []. rewrite app_nil_r. split; [|constructor].
    apply accounts_selectTopic.
  - exists []. rewrite app_nil_r. split; [|constructor].
    apply accounts_handleGenerateVirtualLab.
  - exists []. rewrite app_nil_r. split; [|constructor].
    apply accounts_handleLogin.
  - cbn [app on_app].
    destruct (accounts_handleRegister (app c) newId s) as [->| ->].
    + exists []. rewrite app_nil_r. split; [reflexivity | constructor].
    + eexists. split; [reflexivity|]. repeat constructor.
  - exists []. rewrite app_nil_r. split; [|constructor].
    apply accounts_handleLogout.
  - exists []. rewrite app_nil_r. split; [|constructor].
    apply accounts_handleSaveProfilePic.
  - exists []. rewrite app_nil_r. split; [reflexivity | constructor].
  - exists []. rewrite app_nil_r. split; [reflexivity | constructor].
  - exists []. rewrite app_nil_r. split; [reflexivity | constructor].
Qed.

(** X22: no handler removes a user, changes an id, a username or a
    password, or changes who is an administrator.  Over any sequence of
    handlers (answers, quiz and lab requests, chapter and grade choices,
    logins, registrations, logouts, picture uploads, going home, typing
    in the form), whatever the requests come back with, the accounts are
    the old ones in their order, followed by the accounts registered on
    the way, none of which is an administrator. *)
Theorem handlers_keep_accounts (BADGE_KEYS : list BadgeType)
    (BADGE_DEFINITIONS : BadgeType -> BadgeDefinition.t) (c c' : Component) :
  handlers BADGE_KEYS BADGE_DEFINITIONS c c' ->
  ∃ added, accounts (app c') = accounts (app c) ++ added ∧
           Forall (fun a => a.2 = false) added.
Proof.
  intros Hrun. induction Hrun as [c|c c1 c2 Hstep _ IH].
  - exists []. rewrite app_nil_r. split; [reflexivity | constructor].
  - destruct (handler_accounts _ _ _ _ Hstep) as (added1 & H1 & Hadmin1).
    destruct IH as (added2 & H2 & Hadmin2).
    exists (added1 ++ added2). split.
    + rewrite H2, H1, app_assoc. reflexivity.
    + apply Forall_app. split; assumption.
Qed.

(** X22 at [grace]'s registration followed by a logout: [ada]'s account is
    still the first one. *)
Lemma handlers_keep_accounts_witness :
  let c1 := on_app (handleRegister (app sample_component_form) "id-grace"
                                   sample_stamp) sample_component_form in
  let c2 := handleLogout c1 sample_stamp c1 in
  ∃ added,
    accounts (app c2) = [("id-ada", "ada", "secret", false)] ++ added ∧
    Forall (fun a => a.2 = false) added.
Proof.
  intros c1 c2.
  apply (handlers_keep_accounts sample_keys sample_definitions
           sample_component_form c2).
  apply (rtc_l _ _ c1); [apply h_register|].
  apply rtc_once. apply h_logout.
Defined.

(** ** The screens of a quiz *)

(** Answers that do not reach the last question only move the index. *)
Lemma answer_all_partial (BADGE_KEYS : list BadgeType)
    (BADGE_DEFINITIONS : BadgeType -> BadgeDefinition.t) (env : QuizEnv)
    (todo : list (option string)) :
  ∀ st : AppState,
    (currentQuestionIndex st + length todo < length (questions st))%nat ->
    ∃ st',
      answer_all BADGE_KEYS BADGE_DEFINITIONS todo env st = Some st' ∧
      currentQuestionIndex st' = (currentQuestionIndex st + length todo)%nat ∧
      userManagement st' = userManagement st ∧
      gameState st' = gameState st ∧
      selections st' = selections st ∧
      dataLoading st' = dataLoading st ∧
      gamification st' = gamification st.
Proof.
  induction todo as [|answer todo IH]; intros st Hfit.
  - exists st. rewrite Nat.add_0_r. repeat split.
  - simpl in Hfit. cbn [answer_all].
    rewrite (handleAnswer_next BADGE_KEYS BADGE_DEFINITIONS st answer env)
      by lia.
    cbv beta iota zeta.
    set (st1 := if 0 <? timePerQuestion st then _ else _).
    assert (H1 : currentQuestionIndex st1 = S (currentQuestionIndex st) ∧
                 userManagement st1 = userManagement st ∧
                 gameState st1 = gameState st ∧
                 selections st1 = selections st ∧
                 dataLoading st1 = dataLoading st ∧
                 gamification st1 = gamification st).
    { subst st1. destruct (0 <? timePerQuestion st); repeat split. }
    clearbody st1. destruct H1 as (Hidx & Hum & Hgs & Hsel & Hdata & Hgam).
    destruct (IH st1) as (st' & Hrun & Hidx' & Hum' & Hgs' & Hsel' & Hdata' & Hgam').
    { unfold questions. rewrite Hidx, Hdata. fold (questions st). lia. }
    exists st'. split; [exact Hrun|].
    split; [rewrite Hidx', Hidx; simpl; lia|].
    repeat split; congruence.
Qed.

(** Whether a user is found under an id depends on the ids only. *)
Lemma find_id_accounts (cid : string) (us us' : list User.t) :
  map account us' = map account us ->
  is_Some (List.find (fun u => String.eqb (User.id u) cid) us) ->
  is_Some (List.find (fun u => String.eqb (User.id u) cid) us').
Proof.
  revert us'. induction us as [|u us IH]; intros [|u' us'] Hsame Hfound;
    try discriminate; [exact Hfound|].
  simpl in Hsame. injection Hsame as Hu Hus. simpl in *.
  assert (Hid : User.id u' = User.id u).
  { unfold account in Hu. congruence. }
  rewrite Hid. destruct (String.eqb (User.id u) cid); [eexists; reflexivity|].
  apply IH; assumption.
Qed.

Lemma currentUser_accounts (st st' : AppState) :
  accounts st' = accounts st -> currentUserId st' = currentUserId st ->
  is_Some (currentUser st) -> is_Some (currentUser st').
Proof.
  unfold currentUser, accounts. intros Hacc ->.
  destruct (currentUserId st) as [cid|]; [|intros H; exact H].
  apply find_id_accounts, Hacc.
Qed.

(** X23: what is on screen during a quiz.  After a request for a quiz
    that succeeded, for a logged-in user: with an empty list of questions
    the loader of the quiz is shown and every answer (the timer's, there
    being no button) throws; with questions, the question view is shown
    as long as fewer answers than questions are given, and the score view
    once all are. *)
Theorem quiz_screens (BADGE_KEYS : list BadgeType)
    (BADGE_DEFINITIONS : BadgeType -> BadgeDefinition.t)
    (c : Component) (selectedDifficulty : Difficulty)
    (selectedCount selectedTime : Z) (result : list QuizQuestion.t)
    (denv : DoneEnv) (env : QuizEnv) (tp : string) (g : Grade) :
  topic (app c) = Some tp -> tp ≠ EmptyString -> grade (app c) = Some g ->
  is_Some (currentUser (app c)) ->
  let c' := handleGenerateQuiz c selectedDifficulty selectedCount selectedTime
                               AppMode.quiz (Resolved result) denv c in
  (result = [] ->
   App_render (app c') = Main (show QuizLoaderView) ∧
   ∀ answer,
     handleAnswer BADGE_KEYS BADGE_DEFINITIONS (app c') answer env (app c')
       = None) ∧
  (∀ answers,
     result ≠ [] -> (length answers <= length result)%nat ->
     ∃ st',
       answer_all BADGE_KEYS BADGE_DEFINITIONS answers env (app c') = Some st' ∧
       App_render st' =
         Main (show (if (length answers <? length result)%nat
                     then QuizQuestionView else QuizScoreView))).
Proof.
  intros Htopic Htp Hgrade Hcu c'.
  destruct (handleGenerateQuiz_fresh c selectedDifficulty selectedCount
              selectedTime result denv tp g Htopic Htp Hgrade) as (Happ & _).
  fold c' in Happ.
  destruct (handleGenerateQuiz_quiz_state c selectedDifficulty selectedCount
              selectedTime result denv tp g Htopic Htp Hgrade)
    as (Hqs & Hans & Hidx).
  fold c' in Hqs, Hans, Hidx.
  assert (Hstart : accounts (app c') = accounts (app c) ∧
                   currentUserId (app c') = currentUserId (app c) ∧
                   gameState (app c') = QUIZ_IN_PROGRESS ∧
                   apiError (app c') = None ∧ isLoading (app c') = false).
  { split; [apply accounts_handleGenerateQuiz|].
    rewrite Happ. unfold updateUserStats, addLogEntry.
    destruct (currentUserId (app c)) as [cid|] eqn:Hcid;
      [destruct (JS.truthy cid)|];
      destruct (currentUser (app c)) as [cu|];
      destruct (0 <? selectedTime); repeat split; exact Hcid. }
  destruct Hstart as (Hacc & Hid & Hgs & Herr & Hload).
  pose proof (currentUser_accounts (app c) (app c') Hacc Hid Hcu) as Hcu'.
  clearbody c'. clear Happ.
  assert (Hrender : ∀ st,
            apiError st = None -> isLoading st = false ->
            is_Some (currentUser st) ->
            ∀ v, (∀ cu, renderContent cu st = Some (show v)) ->
                 App_render st = Main (show v)).
  { intros st He Hl [cu Hsome] v Hv. unfold App_render.
    rewrite He, Hl, Hsome. simpl. rewrite Hv. reflexivity. }
  split.
  - intros ->. split.
    + apply Hrender; [exact Herr | exact Hload | exact Hcu'|].
      intros cu. unfold renderContent, render_quiz. rewrite Hgs, Hqs.
      reflexivity.
    + intros answer. unfold handleAnswer, handleAnswer_timeout.
      change (questions (handleAnswer_now ?r ?a ?s)) with (questions s).
      unfold newAnswers_of. rewrite Hqs, Hidx, Hans.
      destruct answer; reflexivity.
  - intros answers Hresult Hlen.
    destruct (Nat.ltb_spec (length answers) (length result)) as [Hlt|Hge].
    + destruct (answer_all_partial BADGE_KEYS BADGE_DEFINITIONS env answers
                  (app c'))
        as (st' & Hrun & Hidx' & Hum & Hgs' & _ & Hdata & _).
      { rewrite Hidx, Hqs. simpl. exact Hlt. }
      exists st'. split; [exact Hrun|].
      apply Hrender.
      * unfold apiError. rewrite Hdata. exact Herr.
      * unfold isLoading. rewrite Hdata. exact Hload.
      * unfold currentUser, currentUserId, users in *. rewrite Hum. exact Hcu'.
      * intros cu. unfold renderContent, render_quiz. rewrite Hgs', Hgs, Hidx'.
        unfold questions. rewrite Hdata. fold (questions (app c')).
        rewrite Hqs, Hidx. simpl.
        destruct (lookup_lt_is_Some_2 result (length answers) Hlt) as [q ->].
        destruct result; [contradiction | reflexivity].
    + assert (Hanswers : answers ≠ []).
      { intros ->. destruct result; [contradiction | simpl in Hge; lia]. }
      destruct (exists_last Hanswers) as (todo & last & ->).
      rewrite length_app in Hlen, Hge. simpl in Hlen, Hge.
      destruct (answer_all_to_last BADGE_KEYS BADGE_DEFINITIONS env todo last []
                  (app c'))
        as (st_last & Hrun & Hidx' & Hans' & _ & Hum & _ & _ & Hdata & _).
      { exact Hidx. }
      { rewrite Hans. replace (length result) with (S (length todo)) by lia.
        reflexivity. }
      { rewrite Hqs. simpl. lia. }
      simpl in Hidx', Hans'.
      assert (Hqs' : questions st_last = result).
      { unfold questions. rewrite Hdata. exact Hqs. }
      assert (Hlast : S (currentQuestionIndex st_last)
                      = length (questions st_last)).
      { rewrite Hidx', Hqs'. lia. }
      assert (Hfit : (length (userAnswers st_last)
                      <= length (questions st_last))%nat).
      { rewrite Hans', Hqs', length_app, length_map. simpl. lia. }
      destruct (handleAnswer_final BADGE_KEYS BADGE_DEFINITIONS st_last last env
                  Hlast Hfit) as (st' & Hfinal & Hbook).
      exists st'. split; [rewrite Hrun; exact Hfinal|].
      destruct Hbook as (Hid' & Hgs' & _ & Hdata' & _).
      apply Hrender.
      * unfold apiError. rewrite Hdata'. simpl.
        change (dl_apiError (dataLoading st_last)) with (apiError st_last).
        unfold apiError. rewrite Hdata. exact Herr.
      * unfold isLoading. rewrite Hdata'. simpl.
        change (dl_isLoading (dataLoading st_last)) with (isLoading st_last).
        unfold isLoading. rewrite Hdata. exact Hload.
      * apply (currentUser_accounts st_last).
        -- apply (accounts_handleAnswer _ _ _ _ _ _ Hfinal).
        -- exact Hid'.
        -- unfold currentUser, currentUserId, users in *. rewrite Hum.
           exact Hcu'.
      * intros cu. unfold renderContent. rewrite Hgs'. reflexivity.
Qed.

(** X23 at [ada]'s quiz on light: after one of two answers the second
    question is on screen; a quiz that came back empty shows the loader. *)
Lemma quiz_screens_witness :
  (∃ st',
     answer_all sample_keys sample_definitions [Some "Reflection"]
       sample_quiz_env
       (app (handleGenerateQuiz sample_component Hard 2 30 AppMode.quiz
               (Resolved sample_questions) sample_done_env sample_component))
     = Some st' ∧
     App_render st' = Main (show QuizQuestionView)) ∧
  App_render
    (app (handleGenerateQuiz sample_component Hard 2 30 AppMode.quiz
            (Resolved []) sample_done_env sample_component))
  = Main (show QuizLoaderView).
Proof.
  assert (Hcu : is_Some (currentUser (app sample_component)))
    by (eexists; reflexivity).
  assert (Htp : "Light" ≠ EmptyString) by discriminate.
  split.
  - destruct (quiz_screens sample_keys sample_definitions sample_component
                Hard 2 30 sample_questions sample_done_env sample_quiz_env
                "Light" G8 eq_refl Htp eq_refl Hcu) as [_ Hrun].
    destruct (Hrun [Some "Reflection"]) as (st' & Hst' & Hscreen).
    + discriminate.
    + simpl. lia.
    + exists st'. split; [exact Hst' | exact Hscreen].
  - destruct (quiz_screens sample_keys sample_definitions sample_component
                Hard 2 30 [] sample_done_env sample_quiz_env
                "Light" G8 eq_refl Htp eq_refl Hcu) as [Hempty _].
    apply Hempty. reflexivity.
Defined.
